(** * python-gnupg: a shallow embedding of [gnupg.py]

    The development follows the layout of the module: the helpers of the
    argument sanitiser ([_fix_unsafe], [_hyphenate], [_is_allowed],
    [_sanitise]), the stream copier ([_copy_data]), the status handlers
    ([Verify], [ImportResult], [ListKeys], [Crypt], [GenKey], [DeleteResult],
    [Sign]) and the status-line reader ([GPG._read_response]).

    Strings are Python 2 byte strings ([str]): a Rocq [string] of 8-bit
    characters.  Exceptions are an explicit [outcome]; the module-level
    [logger] is a trace of records threaded through the effectful functions. *)

From Stdlib Require Import ZArith Lia Ascii String DecimalString.
From stdpp Require Import base list gmap strings.

Local Open Scope Z_scope.

(** ** Python built-ins used by the module *)

Module Py.

(** [c.isspace()] for a byte of a [str] in the C locale. *)
Definition isspace (c : ascii) : bool :=
  let n := N_of_ascii c in ((9 <=? n) && (n <=? 13) || (n =? 32))%N.

Definition isupper (c : ascii) : bool :=
  let n := N_of_ascii c in ((65 <=? n) && (n <=? 90))%N.

Definition islower (c : ascii) : bool :=
  let n := N_of_ascii c in ((97 <=? n) && (n <=? 122))%N.

Definition isdigit (c : ascii) : bool :=
  let n := N_of_ascii c in ((48 <=? n) && (n <=? 57))%N.

(** [s.find(c)] for a one-character needle [c]: the lowest index of [c] in
    [s], or [-1]. *)
Fixpoint find (c : ascii) (s : string) : Z :=
  match s with
  | EmptyString => -1
  | String a s' =>
      if Ascii.eqb a c then 0
      else let i := find c s' in if i <? 0 then -1 else i + 1
  end.

(** [s.replace(old, new)] for a one-character [old]. *)
Fixpoint replace (old : ascii) (new : string) (s : string) : string :=
  match s with
  | EmptyString => EmptyString
  | String a s' =>
      if Ascii.eqb a old then new +:+ replace old new s'
      else String a (replace old new s')
  end.

(** [s.startswith(p)]. *)
Fixpoint startswith (p s : string) : bool :=
  match p, s with
  | EmptyString, _ => true
  | String a p', String b s' => Ascii.eqb a b && startswith p' s'
  | String _ _, EmptyString => false
  end.

(** [s[:n]] and [s[n:]] for a non-negative literal [n]. *)
Fixpoint slice_to (n : nat) (s : string) : string :=
  match n, s with
  | S n', String a s' => String a (slice_to n' s')
  | _, _ => EmptyString
  end.

Fixpoint slice_from (n : nat) (s : string) : string :=
  match n, s with
  | S n', String _ s' => slice_from n' s'
  | _, _ => s
  end.

(** [s.lstrip()], [s.rstrip()] and [s.strip()] with no argument. *)
Fixpoint lstrip (s : string) : string :=
  match s with
  | String a s' => if isspace a then lstrip s' else s
  | EmptyString => EmptyString
  end.

Fixpoint rstrip (s : string) : string :=
  match s with
  | EmptyString => EmptyString
  | String a s' =>
      match rstrip s' with
      | EmptyString => if isspace a then EmptyString else String a EmptyString
      | r => String a r
      end
  end.

Definition strip (s : string) : string := lstrip (rstrip s).

(** The first run of non-blank characters and what follows it. *)
Fixpoint span_token (s : string) : string * string :=
  match s with
  | EmptyString => (EmptyString, EmptyString)
  | String a s' =>
      if isspace a then (EmptyString, s)
      else let '(t, r) := span_token s' in (String a t, r)
  end.

(** [s.split()]: the maximal runs of non-blank characters, [cur] being
    the run under construction (reversed). *)
Fixpoint split_go (cur : list ascii) (s : string) : list string :=
  match s with
  | EmptyString =>
      match cur with
      | [] => []
      | _ => [string_of_list_ascii (rev cur)]
      end
  | String a s' =>
      if isspace a then
        match cur with
        | [] => split_go [] s'
        | _ => string_of_list_ascii (rev cur) :: split_go [] s'
        end
      else split_go (a :: cur) s'
  end.

Definition split (s : string) : list string := split_go [] s.

(** [s.split(None, 1)]: at most one split, the remainder kept verbatim
    once the blanks in front of it are skipped. *)
Definition split1 (s : string) : list string :=
  match lstrip s with
  | EmptyString => []
  | s1 =>
      let '(t, r) := span_token s1 in
      match lstrip r with
      | EmptyString => [t]
      | r' => [t; r']
      end
  end.

(** [s.split(sep)] for a one-character separator: empty fields are kept. *)
Fixpoint split_on (sep : ascii) (s : string) : list string :=
  match s with
  | EmptyString => [EmptyString]
  | String a s' =>
      match split_on sep s' with
      | f :: fs => if Ascii.eqb a sep then EmptyString :: f :: fs
                   else String a f :: fs
      | [] => [String a EmptyString]
      end
  end.

(** [sep.join(l)]. *)
Definition join (sep : string) (l : list string) : string :=
  String.concat sep l.

Definition lower_char (c : ascii) : ascii :=
  if isupper c then ascii_of_N (N_of_ascii c + 32) else c.

(** [s.lower()]. *)
Fixpoint lower (s : string) : string :=
  match s with
  | EmptyString => EmptyString
  | String a s' => String (lower_char a) (lower s')
  end.

(** [x in s] for a character and a string. *)
Fixpoint contains (c : ascii) (s : string) : bool :=
  match s with
  | EmptyString => false
  | String a s' => Ascii.eqb a c || contains c s'
  end.

Definition hexdigit (n : N) : ascii :=
  if (n <? 10)%N then ascii_of_N (48 + n) else ascii_of_N (87 + n).

Definition newline : string := String "010" EmptyString.

Definition dquote : ascii := "034"%char.
Definition squote : ascii := "'"%char.
Definition backslash : ascii := "\"%char.

(** One character of [repr(s)] inside the quote [q]. *)
Definition repr_char (q : ascii) (c : ascii) : string :=
  let n := N_of_ascii c in
  if Ascii.eqb c q || Ascii.eqb c backslash then String backslash (String c EmptyString)
  else if (n =? 9)%N then String backslash "t"
  else if (n =? 10)%N then String backslash "n"
  else if (n =? 13)%N then String backslash "r"
  else if (n <? 32)%N || (127 <=? n)%N then
    String backslash (String "x" (String (hexdigit (n / 16)) (String (hexdigit (n mod 16)) EmptyString)))
  else String c EmptyString.

Fixpoint repr_body (q : ascii) (s : string) : string :=
  match s with
  | EmptyString => EmptyString
  | String a s' => repr_char q a +:+ repr_body q s'
  end.

(** [repr(s)], which is what [%r] formats: single quotes, unless the
    string holds a single quote and no double quote. *)
Definition repr (s : string) : string :=
  let q := if contains squote s && negb (contains dquote s) then dquote else squote in
  String q (repr_body q s +:+ String q EmptyString).

(** [%d] of a non-negative count. *)
Definition str_of_nat (n : nat) : string := NilZero.string_of_uint (Nat.to_uint n).

Fixpoint digits_value (acc : Z) (s : string) : option Z :=
  match s with
  | EmptyString => Some acc
  | String a s' =>
      if isdigit a then digits_value (10 * acc + (Z.of_N (N_of_ascii a) - 48)) s'
      else None
  end.

Definition digits (s : string) : option Z :=
  match s with
  | EmptyString => None
  | _ => digits_value 0 s
  end.

(** [int(s)] for a token without blanks: an optional sign and at least
    one decimal digit; [None] stands for the [ValueError]. *)
Definition int (s : string) : option Z :=
  match s with
  | String "-" d => Z.opp <$> digits d
  | String "+" d => digits d
  | _ => digits s
  end.

End Py.

(** ** Exceptions, the logger and the effect monad *)

Inductive exn : Type :=
| AssertionError (msg : string)
| IndexError (msg : string)
| IOError (msg : string)
| KeyError (key : string)
| OSError (filename : string)
| ProtectedOption (msg : string)
| TypeError (msg : string)
| UnicodeError (msg : string)
| UsageError (msg : string)
| ValueError (msg : string).

(** [e.message]. *)
Definition message (e : exn) : string :=
  match e with
  | AssertionError m | IndexError m | IOError m | KeyError m | OSError m
  | ProtectedOption m | TypeError m | UnicodeError m | UsageError m
  | ValueError m => m
  end.

Inductive outcome (A : Type) : Type :=
| Return (a : A)
| Raise (e : exn).
Arguments Return {A} a.
Arguments Raise {A} e.

(** Records of the module's [logger]: [logger.debug], [logger.warn] and
    [logger.exception] (which logs at level ERROR). *)
Inductive level : Type := DEBUG | WARNING | ERROR.

Definition log_record : Type := level * string.

(** A computation that may log and may raise. *)
Definition M (A : Type) : Type := list log_record -> outcome A * list log_record.

Definition ret {A} (a : A) : M A := fun l => (Return a, l).

Definition raise {A} (e : exn) : M A := fun l => (Raise e, l).

Definition bind {A B} (m : M A) (k : A -> M B) : M B :=
  fun l => match m l with
           | (Return a, l') => k a l'
           | (Raise e, l') => (Raise e, l')
           end.

Definition logger (lv : level) (msg : string) : M unit :=
  fun l => (Return tt, l ++ [(lv, msg)]).

(** The protected part of a [try] statement: the outcome becomes a value. *)
Definition try {A} (m : M A) : M (outcome A) :=
  fun l => let '(o, l') := m l in (Return o, l').

Declare Scope py_scope.
Delimit Scope py_scope with py.
Notation "x <- m ;; k" := (bind m (fun x => k))
  (at level 20, m at level 99, k at level 200, only parsing) : py_scope.
Notation "' p <- m ;; k" := (bind m (fun x => let 'p := x in k))
  (at level 20, p pattern, m at level 99, k at level 200, only parsing) : py_scope.
Notation "m ;; k" := (bind m (fun _ => k))
  (at level 100, k at level 200, only parsing, right associativity) : py_scope.
Local Open Scope py_scope.

(** [for x in xs: acc = body(x, acc)]. *)
Fixpoint for_each {A S} (xs : list A) (body : A -> S -> M S) (acc : S) : M S :=
  match xs with
  | [] => ret acc
  | x :: xs' => acc' <- body x acc ;; for_each xs' body acc'
  end.

(** The values the sanitiser receives: a [str], a [list] of [str], or
    [None], which the last branch of [_sanitise] only logs.  (A tuple, or a
    list that holds something other than a [str], makes [_sanitise] raise;
    there is no value for them here.) *)
Inductive pyval : Type :=
| PyNone
| PyStr (s : string)
| PyList (l : list string).

(** [str(v)], which is what [%s] formats. *)
Definition str_of (v : pyval) : string :=
  match v with
  | PyNone => "None"
  | PyStr s => s
  | PyList l => "[" +:+ Py.join ", " (Py.repr <$> l) +:+ "]"
  end.

Definition str_of_option (o : option string) : string :=
  match o with
  | Some s => s
  | None => "None"
  end.

(** ** The argument sanitiser *)

(** The class [\w] of [re] on a [str] without LOCALE or UNICODE. *)
Definition word_char (c : ascii) : bool :=
  Py.isupper c || Py.islower c || Py.isdigit c || Ascii.eqb c "_".

(** The pattern [[^\w@%+=:,./-]] of [_fix_unsafe]. *)
Definition _unsafe (c : ascii) : bool :=
  negb (word_char c || Py.contains c "@%+=:,./-").

(** [_unsafe.findall(s)]. *)
Fixpoint findall (p : ascii -> bool) (s : string) : list string :=
  match s with
  | EmptyString => []
  | String a s' => if p a then String a EmptyString :: findall p s' else findall p s'
  end.

(** The replacement text for an embedded single quote: a single quote, a
    double quote, a single quote, a double quote and a single quote. *)
Definition quote_escape : string :=
  String Py.squote (String Py.dquote (String Py.squote (String Py.dquote (String Py.squote EmptyString)))).

(** [_fix_unsafe(input)]; [None] is returned on the [TypeError] that
    [findall] raises on anything but a string. *)
Definition _fix_unsafe (input : pyval) : option string :=
  match input with
  | PyStr s =>
      if (length (findall _unsafe s) =? 0)%nat then Some s
      else
        let clean := "'" +:+ Py.replace Py.squote quote_escape s +:+ "'" in
        Some clean
  | _ => None
  end.

(** [_hyphenate(input, add_prefix)]. *)
Definition _hyphenate (input : string) (add_prefix : bool) : string :=
  let ret := if add_prefix then "--" else "" in
  ret +:+ Py.replace "_" "-" input.

(** The local [_all] of [_is_allowed]: every option known to GnuPG. *)
Definition _all : list string := Py.split "
--allow-freeform-uid              --multifile
--allow-multiple-messages         --no
--allow-multisig-verification     --no-allow-freeform-uid
--allow-non-selfsigned-uid        --no-allow-multiple-messages
--allow-secret-key-import         --no-allow-non-selfsigned-uid
--always-trust                    --no-armor
--armor                           --no-armour
--armour                          --no-ask-cert-expire
--ask-cert-expire                 --no-ask-cert-level
--ask-cert-level                  --no-ask-sig-expire
--ask-sig-expire                  --no-auto-check-trustdb
--attribute-fd                    --no-auto-key-locate
--attribute-file                  --no-auto-key-retrieve
--auto-check-trustdb              --no-batch
--auto-key-locate                 --no-comments
--auto-key-retrieve               --no-default-keyring
--batch                           --no-default-recipient
--bzip2-compress-level            --no-disable-mdc
--bzip2-decompress-lowmem         --no-emit-version
--card-edit                       --no-encrypt-to
--card-status                     --no-escape-from-lines
--cert-digest-algo                --no-expensive-trust-checks
--cert-notation                   --no-expert
--cert-policy-url                 --no-force-mdc
--change-pin                      --no-force-v3-sigs
--charset                         --no-force-v4-certs
--check-sig                       --no-for-your-eyes-only
--check-sigs                      --no-greeting
--check-trustdb                   --no-groups
--cipher-algo                     --no-literal
--clearsign                       --no-mangle-dos-filenames
--command-fd                      --no-mdc-warning
--command-file                    --no-options
--comment                         --no-permission-warning
--completes-needed                --no-pgp2
--compress-algo                   --no-pgp6
--compression-algo                --no-pgp7
--compress-keys                   --no-pgp8
--compress-level                  --no-random-seed-file
--compress-sigs                   --no-require-backsigs
--ctapi-driver                    --no-require-cross-certification
--dearmor                         --no-require-secmem
--dearmour                        --no-rfc2440-text
--debug                           --no-secmem-warning
--debug-all                       --no-show-notation
--debug-ccid-driver               --no-show-photos
--debug-level                     --no-show-policy-url
--decrypt                         --no-sig-cache
--decrypt-files                   --no-sig-create-check
--default-cert-check-level        --no-sk-comments
--default-cert-expire             --no-strict
--default-cert-level              --notation-data
--default-comment                 --not-dash-escaped
--default-key                     --no-textmode
--default-keyserver-url           --no-throw-keyid
--default-preference-list         --no-throw-keyids
--default-recipient               --no-tty
--default-recipient-self          --no-use-agent
--default-sig-expire              --no-use-embedded-filename
--delete-keys                     --no-utf8-strings
--delete-secret-and-public-keys   --no-verbose
--delete-secret-keys              --no-version
--desig-revoke                    --openpgp
--detach-sign                     --options
--digest-algo                     --output
--disable-ccid                    --override-session-key
--disable-cipher-algo             --passphrase
--disable-dsa2                    --passphrase-fd
--disable-mdc                     --passphrase-file
--disable-pubkey-algo             --passphrase-repeat
--display                         --pcsc-driver
--display-charset                 --personal-cipher-preferences
--dry-run                         --personal-cipher-prefs
--dump-options                    --personal-compress-preferences
--edit-key                        --personal-compress-prefs
--emit-version                    --personal-digest-preferences
--enable-dsa2                     --personal-digest-prefs
--enable-progress-filter          --pgp2
--enable-special-filenames        --pgp6
--enarmor                         --pgp7
--enarmour                        --pgp8
--encrypt                         --photo-viewer
--encrypt-files                   --pipemode
--encrypt-to                      --preserve-permissions
--escape-from-lines               --primary-keyring
--exec-path                       --print-md
--exit-on-status-write-error      --print-mds
--expert                          --quick-random
--export                          --quiet
--export-options                  --reader-port
--export-ownertrust               --rebuild-keydb-caches
--export-secret-keys              --recipient
--export-secret-subkeys           --recv-keys
--fast-import                     --refresh-keys
--fast-list-mode                  --remote-user
--fetch-keys                      --require-backsigs
--fingerprint                     --require-cross-certification
--fixed-list-mode                 --require-secmem
--fix-trustdb                     --rfc1991
--force-mdc                       --rfc2440
--force-ownertrust                --rfc2440-text
--force-v3-sigs                   --rfc4880
--force-v4-certs                  --run-as-shm-coprocess
--for-your-eyes-only              --s2k-cipher-algo
--gen-key                         --s2k-count
--gen-prime                       --s2k-digest-algo
--gen-random                      --s2k-mode
--gen-revoke                      --search-keys
--gnupg                           --secret-keyring
--gpg-agent-info                  --send-keys
--gpgconf-list                    --set-filename
--gpgconf-test                    --set-filesize
--group                           --set-notation
--help                            --set-policy-url
--hidden-encrypt-to               --show-keyring
--hidden-recipient                --show-notation
--homedir                         --show-photos
--honor-http-proxy                --show-policy-url
--ignore-crc-error                --show-session-key
--ignore-mdc-error                --sig-keyserver-url
--ignore-time-conflict            --sign
--ignore-valid-from               --sign-key
--import                          --sig-notation
--import-options                  --sign-with
--import-ownertrust               --sig-policy-url
--interactive                     --simple-sk-checksum
--keyid-format                    --sk-comments
--keyring                         --skip-verify
--keyserver                       --status-fd
--keyserver-options               --status-file
--lc-ctype                        --store
--lc-messages                     --strict
--limit-card-insert-tries         --symmetric
--list-config                     --temp-directory
--list-key                        --textmode
--list-keys                       --throw-keyid
--list-only                       --throw-keyids
--list-options                    --trustdb-name
--list-ownertrust                 --trusted-key
--list-packets                    --trust-model
--list-public-keys                --try-all-secrets
--list-secret-keys                --ttyname
--list-sig                        --ttytype
--list-sigs                       --ungroup
--list-trustdb                    --update-trustdb
--load-extension                  --use-agent
--local-user                      --use-embedded-filename
--lock-multiple                   --user
--lock-never                      --utf8-strings
--lock-once                       --verbose
--logger-fd                       --verify
--logger-file                     --verify-files
--lsign-key                       --verify-options
--mangle-dos-filenames            --version
--marginals-needed                --warranty
--max-cert-depth                  --with-colons
--max-output                      --with-fingerprint
--merge-only                      --with-key-data
--min-cert-level                  --yes
".

(** A [frozenset] of options is a list read up to membership. *)
Definition _possible : list string := _all.

Definition _allowed : list string :=
  ["--list-packets"; "--delete-keys"; "--delete-secret-keys";
   "--encrypt"; "--print-mds"; "--print-md"; "--sign";
   "--encrypt-files"; "--gen-key"; "--decrypt"; "--decrypt-files";
   "--list-keys"; "--import"; "--verify"; "--version";
   "--status-fd"; "--no-tty"; "--homedir"; "--no-default-keyring";
   "--keyring"; "--passphrase-fd"; "--fingerprint"; "--with-colons"].

(** [str(s)] of a [frozenset] (the order of the elements inside the
    brackets is the one of the list). *)
Definition str_of_frozenset (s : list string) : string :=
  "frozenset([" +:+ Py.join ", " (Py.repr <$> remove_dups s) +:+ "])".

(** [_is_allowed(input)]: [Return (Some input)] for an allowed option,
    [Return None] where the function falls through to [return None]. *)
Definition _is_allowed (input : pyval) : M (option string) :=
  (if bool_decide (_allowed ⊆ _possible) then ret tt
   else
     let ae := AssertionError
                 ("_allowed is not subset of known options, difference: "
                  +:+ str_of_frozenset (list_difference _allowed _possible)) in
     logger DEBUG ("gnupg._is_allowed(): " +:+ message ae) ;;
     raise (UsageError (message ae))) ;;
  input <- match input with
           | PyStr s => ret s
           | PyList l => ret (Py.join " " l)
           | PyNone => raise (TypeError "'NoneType' object is not iterable")
           end ;;
  if 0 <? Py.find "_" input then
    let hyphenated :=
      if negb (Py.startswith "--" input) then _hyphenate input true
      else _hyphenate input false in
    ret None
  else
    let hyphenated := input in
    if bool_decide (hyphenated ∈ _allowed) then
      logger DEBUG ("Got allowed option '"
                    +:+ str_of_option (_fix_unsafe (PyStr hyphenated)) +:+ "'.") ;;
      ret (Some input)
    else
      logger WARNING ("Dropping option '"
                      +:+ str_of_option (_fix_unsafe (PyStr hyphenated)) +:+ "'...") ;;
      raise (ProtectedOption ("Option '"
                              +:+ str_of_option (_fix_unsafe (PyStr hyphenated))
                              +:+ "' not supported.")).

(** Truth value of a [str] used as a condition. *)
Definition truthy (s : string) : bool := negb (String.eqb s "").

(** [a + b] where [a] may be [None]. *)
Definition str_add (a : option string) (b : string) : M string :=
  match a with
  | Some a => ret (a +:+ b)
  | None => raise (TypeError "unsupported operand type(s) for +: 'NoneType' and 'str'")
  end.

(** [l.pop()]: the last element is removed and returned. *)
Definition pop (l : list string) : M (string * list string) :=
  match rev l with
  | x :: r => ret (x, rev r)
  | [] => raise (IndexError "pop from empty list")
  end.

(** [l[0]]. *)
Definition first (l : list string) : M string :=
  match l with
  | x :: _ => ret x
  | [] => raise (IndexError "list index out of range")
  end.

Section Sanitiser.

(** The file system as [os.lstat] sees it: the size of the entry at a
    path, [None] where [os.lstat] raises [OSError]. *)
Variable lstat_size : string -> option Z.

(** [_is_file(input)]. *)
Definition _is_file (input : option string) : M bool :=
  r <- try (match input with
            | None => raise (TypeError "coercing to Unicode: need string or buffer, NoneType found")
            | Some path =>
                match lstat_size path with
                | None => raise (OSError path)
                | Some st_size =>
                    if 0 <? st_size then ret tt
                    else raise (AssertionError ("not a file: " +:+ path))
                end
            end) ;;
  match r with
  | Return _ => ret true
  | Raise (AssertionError _ as error) | Raise (TypeError _ as error) =>
      logger DEBUG (message error) ;;
      ret false
  | Raise e => raise e
  end.

(** The local function [_check_arg_and_value(arg, value)] of [_sanitise];
    [value] is [None] or a [str]. *)
Definition _check_arg_and_value (arg : string) (value : option string) : M string :=
  let safe_values := "" in
  r <- try (allowed_flag <- _is_allowed (PyStr arg) ;;
            match allowed_flag with
            | Some flag => ret flag
            | None => raise (AssertionError "_check_arg_and_value(): got None for allowed_flag")
            end) ;;
  match r with
  | Raise (AssertionError _ as error) | Raise (ProtectedOption _ as error) =>
      logger WARNING (message error) ;;
      logger DEBUG ("Dropping option '" +:+ str_of_option (_fix_unsafe (PyStr arg)) +:+ "'...") ;;
      ret safe_values
  | Raise e => raise e
  | Return allowed_flag =>
      let safe_values := safe_values +:+ (allowed_flag +:+ " ") in
      match value with
      | Some value =>
          value_list <- (if 0 <? Py.find " " value then ret (Py.split_on " " value)
                         else logger DEBUG "_check_values(): got non-string for values" ;;
                              ret []) ;;
          for_each value_list
            (fun value safe_values =>
               let safe_value := _fix_unsafe (PyStr value) in
               if bool_decide (allowed_flag = "--encrypt") || truthy "--encrypt-files"
                  || truthy "--decrypt" || truthy "--decrypt-file"
                  || truthy "--import" || truthy "--verify"
               then
                 is_file <- _is_file safe_value ;;
                 if is_file then
                   added <- str_add safe_value " " ;;
                   ret (safe_values +:+ added)
                 else
                   logger DEBUG ("Got non-filename for " +:+ allowed_flag +:+ " option: "
                                 +:+ str_of_option safe_value) ;;
                   ret safe_values
               else
                 added <- str_add safe_value " " ;;
                 logger DEBUG ("Got non-checked value: " +:+ str_of_option safe_value) ;;
                 ret (safe_values +:+ added))
            safe_values
      | None => ret safe_values
      end
  end.

Definition is_flag (x : string) : bool := Py.startswith "-" x.

(** The inner loop [while not is_flag(filo[0]): new_value += filo.pop() + ' '].
    Every turn pops one element, so [length filo] turns of [fuel] are never
    used up before [filo[0]] fails on the empty list. *)
Fixpoint while_not_flag (fuel : nat) (filo : list string) (new_value : string)
  : M (list string * string) :=
  head <- first filo ;;
  if negb (is_flag head) then
    match fuel with
    | S fuel' =>
        '(popped, filo) <- pop filo ;;
        while_not_flag fuel' filo (new_value +:+ (popped +:+ " "))
    | O => raise (IndexError "list index out of range")
    end
  else ret (filo, new_value).

(** The loop [while len(filo) > 0] of [_sanitise]; a turn pops at least one
    element, so [length filo] turns of [fuel] empty the list. *)
Fixpoint while_filo (fuel : nat) (filo : list string) (new_arg new_value : string)
    (checked : list string) : M (list string) :=
  match fuel with
  | O => ret checked
  | S fuel' =>
      if bool_decide (0 < length filo)%nat then
        head <- first filo ;;
        '(filo, new_arg, new_value) <-
          (if is_flag head then
             '(new_arg, filo) <- pop filo ;;
             if bool_decide (0 < length filo)%nat then
               '(filo, new_value) <- while_not_flag (length filo) filo new_value ;;
               ret (filo, new_arg, new_value)
             else ret (filo, new_arg, new_value)
           else
             logger DEBUG ("Got non-flag argument: " +:+ head) ;;
             '(_, filo) <- pop filo ;;
             ret (filo, new_arg, new_value)) ;;
        safe <- _check_arg_and_value new_arg (Some new_value) ;;
        checked <- (if negb (String.eqb (Py.strip safe) "") then
                      logger DEBUG ("_sanitise(): appending args: " +:+ safe) ;;
                      ret (checked ++ [safe])
                    else ret checked) ;;
        while_filo fuel' filo new_arg new_value checked
      else ret checked
  end.

(** The body of [for arg in args] in [_sanitise]. *)
Definition _sanitise_arg (arg : pyval) (checked : list string) : M (list string) :=
  match arg with
  | PyStr arg =>
      logger DEBUG ("_sanitise(): Got arg string: " +:+ arg) ;;
      if 0 <? Py.find " " arg then
        let filo := rev (Py.split arg) in
        while_filo (length filo) filo "" "" checked
      else
        safe <- _check_arg_and_value arg None ;;
        logger DEBUG ("_sanitise(): appending args: " +:+ safe) ;;
        ret (checked ++ [safe])
  | PyList arg =>
      logger DEBUG ("_sanitise(): Got arg list: " +:+ str_of (PyList arg)) ;;
      for_each arg
        (fun a checked =>
           if Py.startswith "--" a then
             safe <- _check_arg_and_value a None ;;
             logger DEBUG ("_sanitise(): appending args: " +:+ safe) ;;
             ret (checked ++ [safe])
           else ret checked)
        checked
  | PyNone =>
      logger DEBUG ("_sanitise(): got non string or list arg: " +:+ str_of PyNone) ;;
      ret checked
  end.

(** The list [checked] that [_sanitise] for the tuple [args] builds. *)
Definition _sanitise_checked (args : list pyval) : M (list string) :=
  for_each args _sanitise_arg [].

(** [_sanitise] for the tuple [args]. *)
Definition _sanitise (args : list pyval) : M string :=
  checked <- _sanitise_checked args ;;
  let sanitised := Py.join " " checked in
  ret sanitised.

(** [list(_sanitise_list(arg_list))]: what the generator yields. *)
Definition _sanitise_list (arg_list : pyval) : M (list string) :=
  match arg_list with
  | PyList l =>
      for_each l
        (fun arg yielded =>
           safe_arg <- _sanitise [PyStr arg] ;;
           if negb (String.eqb safe_arg "") then ret (yielded ++ [safe_arg])
           else ret yielded)
        []
  | _ => ret []
  end.

End Sanitiser.

(** ** The stream copier *)

(** An [io.BytesIO]: its buffer, the read position and whether it is closed. *)
Record bytesio : Type := mk_bytesio {
  bio_buffer : string;
  bio_pos : nat;
  bio_closed : bool
}.

(** [instream.read(n)]. *)
Definition bio_read (n : nat) (b : bytesio) : outcome string * bytesio :=
  if bio_closed b then (Raise (ValueError "I/O operation on closed file."), b)
  else
    let data := Py.slice_to n (Py.slice_from (bio_pos b) (bio_buffer b)) in
    (Return data, mk_bytesio (bio_buffer b) (bio_pos b + String.length data) false).

(** A [file] open for writing, such as the pipe to the child: the data
    written so far, whether it is closed, and how the other end behaves:
    the error, if any, that a write raises given what was written before,
    and the error that closing raises. *)
Record pyfile : Type := mk_pyfile {
  f_written : list string;
  f_closed : bool;
  f_write_error : list string -> string -> option exn;
  f_close_error : option exn
}.

(** [outstream.write(data)]. *)
Definition file_write (data : string) (f : pyfile) : option exn * pyfile :=
  if f_closed f then (Some (ValueError "I/O operation on closed file"), f)
  else
    match f_write_error f (f_written f) data with
    | Some e => (Some e, f)
    | None => (None, mk_pyfile (f_written f ++ [data]) false
                               (f_write_error f) (f_close_error f))
    end.

(** [outstream.close()]: the file is closed whether or not an error is
    raised; closing a closed file does nothing. *)
Definition file_close (f : pyfile) : option exn * pyfile :=
  if f_closed f then (None, f)
  else (f_close_error f,
        mk_pyfile (f_written f) true (f_write_error f) (f_close_error f)).

(** The objects handed to [_copy_data]: an [io.BytesIO], a [file], or an
    object of another class (a codec [StreamWriter], a [str], ...). *)
Inductive stream : Type :=
| BytesIO (b : bytesio)
| File (f : pyfile)
| OtherObject.

(** What a run of [_copy_data] leaves behind. *)
Record copied : Type := mk_copied {
  c_outcome : outcome unit;
  c_instream : stream;
  c_outstream : stream;
  c_sent : nat;
  c_log : list log_record
}.

Section CopyData.

(** [data.encode(enc)] for the encoding [enc] of [sys.stdin]. *)
Variable encode : string -> outcome string.

Definition broken_pipe : log_record := (ERROR, "Error sending data: Broken pipe").

(** The loop [while True] of [_copy_data].  [Return tt] is the normal end
    of the loop (end of stream or [break]), [Raise e] an exception that
    leaves the function; [None] only when [fuel] runs out. *)
Fixpoint copy_loop (fuel : nat) (instream : bytesio) (outstream : pyfile)
    (sent : nat) (log : list log_record)
  : option (outcome unit * bytesio * pyfile * nat * list log_record) :=
  match fuel with
  | O => None
  | S fuel' =>
      match bio_read 1024 instream with
      | (Raise e, instream) => Some (Raise e, instream, outstream, sent, log)
      | (Return data, instream) =>
          if (String.length data =? 0)%nat then
            Some (Return tt, instream, outstream, sent, log)
          else
            let sent := (sent + String.length data)%nat in
            let log := log ++ [(DEBUG, "sending chunk (" +:+ Py.str_of_nat sent +:+ "): "
                                       +:+ Py.repr (Py.slice_to 256 data))] in
            match file_write data outstream with
            | (None, outstream) => copy_loop fuel' instream outstream sent log
            | (Some (UnicodeError _), outstream) =>
                match encode data with
                | Raise e => Some (Raise e, instream, outstream, sent, log)
                | Return encoded =>
                    match file_write encoded outstream with
                    | (None, outstream) => copy_loop fuel' instream outstream sent log
                    | (Some (IOError _), outstream) =>
                        Some (Return tt, instream, outstream, sent, log ++ [broken_pipe])
                    | (Some e, outstream) => Some (Raise e, instream, outstream, sent, log)
                    end
                end
            | (Some (IOError _), outstream) =>
                Some (Return tt, instream, outstream, sent, log ++ [broken_pipe])
            | (Some e, outstream) => Some (Raise e, instream, outstream, sent, log)
            end
      end
  end.

(** The bytes of a [BytesIO] that are still to be read. *)
Definition bio_remaining (b : bytesio) : string :=
  Py.slice_from (bio_pos b) (bio_buffer b).

(** [_copy_data(instream, outstream)]. *)
Definition _copy_data (instream outstream : stream) (log : list log_record)
  : option copied :=
  let sent := 0%nat in
  match instream, outstream with
  | BytesIO b, File f =>
      match copy_loop (S (String.length (bio_remaining b))) b f sent log with
      | None => None
      | Some (Raise e, b, f, sent, log) =>
          Some (mk_copied (Raise e) (BytesIO b) (File f) sent log)
      | Some (Return _, b, f, sent, log) =>
          match file_close f with
          | (None, f) =>
              Some (mk_copied (Return tt) (BytesIO b) (File f) sent
                      (log ++ [(DEBUG, "closed output, " +:+ Py.str_of_nat sent
                                       +:+ " bytes sent")]))
          | (Some (IOError _), f) =>
              Some (mk_copied (Return tt) (BytesIO b) (File f) sent
                      (log ++ [(ERROR, "Got IOError while trying to close FD outstream")]))
          | (Some e, f) => Some (mk_copied (Raise e) (BytesIO b) (File f) sent log)
          end
      end
  | BytesIO _, _ =>
      Some (mk_copied (Return tt) instream outstream sent
              (log ++ [(ERROR, "outstream is not a file")]))
  | _, _ =>
      Some (mk_copied (Return tt) instream outstream sent
              (log ++ [(ERROR, "instream is not a file")]))
  end.

End CopyData.

(** The data of a stream cut into pieces of [n] bytes, the last one
    possibly shorter. *)
Fixpoint chunks_go (fuel n : nat) (s : string) : list string :=
  match fuel, s with
  | S fuel', String _ _ => Py.slice_to n s :: chunks_go fuel' n (Py.slice_from n s)
  | _, _ => []
  end.

Definition chunks (n : nat) (s : string) : list string :=
  chunks_go (String.length s) n s.

(** A pipe whose reader never fails. *)
Definition open_pipe : pyfile := mk_pyfile [] false (fun _ _ => None) None.

(** A pipe whose reader has gone away after [k] writes. *)
Definition pipe_broken_after (k : nat) : pyfile :=
  mk_pyfile [] false
    (fun written _ => if (length written <? k)%nat then None
                      else Some (IOError "[Errno 32] Broken pipe"))
    None.

Definition ascii_encode (s : string) : outcome string := Return s.

(** ** The status handlers *)

(** [key in (k1, k2, ...)]. *)
Definition key_in (key : string) (keys : list string) : bool :=
  bool_decide (key ∈ keys).

(** The [ValueError] of a tuple assignment given [got] values for
    [expected] targets. *)
Definition unpack_error (got expected : nat) : exn :=
  if (got <? expected)%nat then
    ValueError ("need more than " +:+ Py.str_of_nat got
                +:+ (if (got =? 1)%nat then " value" else " values") +:+ " to unpack")
  else ValueError "too many values to unpack".

Definition unknown_status_message (key : string) : exn :=
  ValueError ("Unknown status message: " +:+ Py.repr key).

(** *** [class Verify] *)

Module Verify.

Definition TRUST_UNDEFINED : Z := 0.
Definition TRUST_NEVER : Z := 1.
Definition TRUST_MARGINAL : Z := 2.
Definition TRUST_FULLY : Z := 3.
Definition TRUST_ULTIMATE : Z := 4.

Definition TRUST_LEVELS : gmap string Z :=
  list_to_map
    [("TRUST_UNDEFINED", TRUST_UNDEFINED);
     ("TRUST_NEVER", TRUST_NEVER);
     ("TRUST_MARGINAL", TRUST_MARGINAL);
     ("TRUST_FULLY", TRUST_FULLY);
     ("TRUST_ULTIMATE", TRUST_ULTIMATE)].

(** The attributes of a [Verify] object ([None] is Python's [None]). *)
Record t : Type := mk {
  valid : bool;
  fingerprint : option string;
  creation_date : option string;
  timestamp : option string;
  signature_id : option string;
  key_id : option string;
  username : option string;
  status : option string;
  pubkey_fingerprint : option string;
  expire_timestamp : option string;
  sig_timestamp : option string;
  trust_text : option string;
  trust_level : option Z
}.

Definition set_valid (x : bool) (self : t) : t :=
  mk x (self.(fingerprint)) (self.(creation_date)) (self.(timestamp)) (self.(signature_id)) (self.(key_id)) (self.(username)) (self.(status)) (self.(pubkey_fingerprint)) (self.(expire_timestamp)) (self.(sig_timestamp)) (self.(trust_text)) (self.(trust_level)).

Definition set_fingerprint (x : option string) (self : t) : t :=
  mk (self.(valid)) x (self.(creation_date)) (self.(timestamp)) (self.(signature_id)) (self.(key_id)) (self.(username)) (self.(status)) (self.(pubkey_fingerprint)) (self.(expire_timestamp)) (self.(sig_timestamp)) (self.(trust_text)) (self.(trust_level)).

Definition set_creation_date (x : option string) (self : t) : t :=
  mk (self.(valid)) (self.(fingerprint)) x (self.(timestamp)) (self.(signature_id)) (self.(key_id)) (self.(username)) (self.(status)) (self.(pubkey_fingerprint)) (self.(expire_timestamp)) (self.(sig_timestamp)) (self.(trust_text)) (self.(trust_level)).

Definition set_timestamp (x : option string) (self : t) : t :=
  mk (self.(valid)) (self.(fingerprint)) (self.(creation_date)) x (self.(signature_id)) (self.(key_id)) (self.(username)) (self.(status)) (self.(pubkey_fingerprint)) (self.(expire_timestamp)) (self.(sig_timestamp)) (self.(trust_text)) (self.(trust_level)).

Definition set_signature_id (x : option string) (self : t) : t :=
  mk (self.(valid)) (self.(fingerprint)) (self.(creation_date)) (self.(timestamp)) x (self.(key_id)) (self.(username)) (self.(status)) (self.(pubkey_fingerprint)) (self.(expire_timestamp)) (self.(sig_timestamp)) (self.(trust_text)) (self.(trust_level)).

Definition set_key_id (x : option string) (self : t) : t :=
  mk (self.(valid)) (self.(fingerprint)) (self.(creation_date)) (self.(timestamp)) (self.(signature_id)) x (self.(username)) (self.(status)) (self.(pubkey_fingerprint)) (self.(expire_timestamp)) (self.(sig_timestamp)) (self.(trust_text)) (self.(trust_level)).

Definition set_username (x : option string) (self : t) : t :=
  mk (self.(valid)) (self.(fingerprint)) (self.(creation_date)) (self.(timestamp)) (self.(signature_id)) (self.(key_id)) x (self.(status)) (self.(pubkey_fingerprint)) (self.(expire_timestamp)) (self.(sig_timestamp)) (self.(trust_text)) (self.(trust_level)).

Definition set_status (x : option string) (self : t) : t :=
  mk (self.(valid)) (self.(fingerprint)) (self.(creation_date)) (self.(timestamp)) (self.(signature_id)) (self.(key_id)) (self.(username)) x (self.(pubkey_fingerprint)) (self.(expire_timestamp)) (self.(sig_timestamp)) (self.(trust_text)) (self.(trust_level)).

Definition set_pubkey_fingerprint (x : option string) (self : t) : t :=
  mk (self.(valid)) (self.(fingerprint)) (self.(creation_date)) (self.(timestamp)) (self.(signature_id)) (self.(key_id)) (self.(username)) (self.(status)) x (self.(expire_timestamp)) (self.(sig_timestamp)) (self.(trust_text)) (self.(trust_level)).

Definition set_expire_timestamp (x : option string) (self : t) : t :=
  mk (self.(valid)) (self.(fingerprint)) (self.(creation_date)) (self.(timestamp)) (self.(signature_id)) (self.(key_id)) (self.(username)) (self.(status)) (self.(pubkey_fingerprint)) x (self.(sig_timestamp)) (self.(trust_text)) (self.(trust_level)).

Definition set_sig_timestamp (x : option string) (self : t) : t :=
  mk (self.(valid)) (self.(fingerprint)) (self.(creation_date)) (self.(timestamp)) (self.(signature_id)) (self.(key_id)) (self.(username)) (self.(status)) (self.(pubkey_fingerprint)) (self.(expire_timestamp)) x (self.(trust_text)) (self.(trust_level)).

Definition set_trust_text (x : option string) (self : t) : t :=
  mk (self.(valid)) (self.(fingerprint)) (self.(creation_date)) (self.(timestamp)) (self.(signature_id)) (self.(key_id)) (self.(username)) (self.(status)) (self.(pubkey_fingerprint)) (self.(expire_timestamp)) (self.(sig_timestamp)) x (self.(trust_level)).

Definition set_trust_level (x : option Z) (self : t) : t :=
  mk (self.(valid)) (self.(fingerprint)) (self.(creation_date)) (self.(timestamp)) (self.(signature_id)) (self.(key_id)) (self.(username)) (self.(status)) (self.(pubkey_fingerprint)) (self.(expire_timestamp)) (self.(sig_timestamp)) (self.(trust_text)) x.

(** [Verify.__init__]. *)
Definition __init__ : t :=
  mk false None None None None None None None None None None None None.

(** [Verify.__nonzero__]. *)
Definition __nonzero__ (self : t) : bool := self.(valid).

(** [Verify.handle_status(self, key, value)]: the object after the call
    and the exception the call raised, if any. *)
Definition handle_status (self : t) (key value : string) : t * option exn :=
  match TRUST_LEVELS !! key with
  | Some trust =>
      let self := set_trust_text (Some key) self in
      let self := set_trust_level (Some trust) self in
      (self, None)
  | None =>
      if key_in key ["RSA_OR_IDEA"; "NODATA"; "IMPORT_RES"; "PLAINTEXT";
                     "PLAINTEXT_LENGTH"; "POLICY_URL"; "DECRYPTION_INFO";
                     "DECRYPTION_OKAY"; "INV_SGNR"] then
        (self, None)
      else if String.eqb key "BADSIG" then
        let self := set_valid false self in
        let self := set_status (Some "signature bad") self in
        match Py.split1 value with
        | [a; b] => (set_username (Some b) (set_key_id (Some a) self), None)
        | l => (self, Some (unpack_error (length l) 2))
        end
      else if String.eqb key "GOODSIG" then
        let self := set_valid true self in
        let self := set_status (Some "signature good") self in
        match Py.split1 value with
        | [a; b] => (set_username (Some b) (set_key_id (Some a) self), None)
        | l => (self, Some (unpack_error (length l) 2))
        end
      else if String.eqb key "VALIDSIG" then
        match take 4 (Py.split value) with
        | [a; b; c; d] =>
            let self := set_fingerprint (Some a) self in
            let self := set_creation_date (Some b) self in
            let self := set_sig_timestamp (Some c) self in
            let self := set_expire_timestamp (Some d) self in
            match last (Py.split value) with
            | Some z =>
                let self := set_pubkey_fingerprint (Some z) self in
                let self := set_status (Some "signature valid") self in
                (self, None)
            | None => (self, Some (IndexError "list index out of range"))
            end
        | l => (self, Some (unpack_error (length l) 4))
        end
      else if String.eqb key "SIG_ID" then
        match Py.split value with
        | [a; b; c] =>
            let self := set_signature_id (Some a) self in
            let self := set_creation_date (Some b) self in
            let self := set_timestamp (Some c) self in
            (self, None)
        | l => (self, Some (unpack_error (length l) 3))
        end
      else if String.eqb key "ERRSIG" then
        let self := set_valid false self in
        match take 5 (Py.split value) with
        | [a; algo; hash_algo; cls; e] =>
            let self := set_key_id (Some a) self in
            let self := set_timestamp (Some e) self in
            let self := set_status (Some "signature error") self in
            (self, None)
        | l => (self, Some (unpack_error (length l) 5))
        end
      else if String.eqb key "DECRYPTION_FAILED" then
        let self := set_valid false self in
        let self := set_key_id (Some value) self in
        let self := set_status (Some "decryption failed") self in
        (self, None)
      else if String.eqb key "NO_PUBKEY" then
        let self := set_valid false self in
        let self := set_key_id (Some value) self in
        let self := set_status (Some "no public key") self in
        (self, None)
      else if key_in key ["KEYEXPIRED"; "SIGEXPIRED"] then
        (self, None)
      else if key_in key ["EXPKEYSIG"; "REVKEYSIG"] then
        let self := set_valid false self in
        match Py.split value with
        | first :: _ =>
            let self := set_key_id (Some first) self in
            let self := set_status
                          (Some (Py.lower (Py.slice_to 3 key +:+ " " +:+ Py.slice_from 3 key)))
                          self in
            (self, None)
        | [] => (self, Some (IndexError "list index out of range"))
        end
      else (self, Some (unknown_status_message key))
  end.

(** The keywords [Verify.handle_status] has a branch for. *)
Definition keywords : list string :=
  ["TRUST_UNDEFINED"; "TRUST_NEVER"; "TRUST_MARGINAL"; "TRUST_FULLY";
   "TRUST_ULTIMATE"; "RSA_OR_IDEA"; "NODATA"; "IMPORT_RES"; "PLAINTEXT";
   "PLAINTEXT_LENGTH"; "POLICY_URL"; "DECRYPTION_INFO"; "DECRYPTION_OKAY";
   "INV_SGNR"; "BADSIG"; "GOODSIG"; "VALIDSIG"; "SIG_ID"; "ERRSIG";
   "DECRYPTION_FAILED"; "NO_PUBKEY"; "KEYEXPIRED"; "SIGEXPIRED";
   "EXPKEYSIG"; "REVKEYSIG"].

End Verify.

(** *** [class ImportResult] *)

Module ImportResult.

(** The class attribute [counts]. *)
Definition counts : list string :=
  Py.split "count no_user_id imported imported_rsa unchanged
            n_uids n_subk n_sigs n_revoc sec_read sec_imported
            sec_dups not_imported".

(** The attributes of an [ImportResult] object.  The attribute [imported]
    is bound to the empty list and then to [None] by [__init__], and to an
    integer by [IMPORT_RES]; an entry of [results] is a dictionary. *)
Record t : Type := mk {
  results : list (gmap string (option string));
  fingerprints : list string;
  count : option Z;
  no_user_id : option Z;
  imported : option Z;
  imported_rsa : option Z;
  unchanged : option Z;
  n_uids : option Z;
  n_subk : option Z;
  n_sigs : option Z;
  n_revoc : option Z;
  sec_read : option Z;
  sec_imported : option Z;
  sec_dups : option Z;
  not_imported : option Z
}.

Definition set_results (x : list (gmap string (option string))) (self : t) : t :=
  mk x (self.(fingerprints)) (self.(count)) (self.(no_user_id)) (self.(imported)) (self.(imported_rsa)) (self.(unchanged)) (self.(n_uids)) (self.(n_subk)) (self.(n_sigs)) (self.(n_revoc)) (self.(sec_read)) (self.(sec_imported)) (self.(sec_dups)) (self.(not_imported)).

Definition set_fingerprints (x : list string) (self : t) : t :=
  mk (self.(results)) x (self.(count)) (self.(no_user_id)) (self.(imported)) (self.(imported_rsa)) (self.(unchanged)) (self.(n_uids)) (self.(n_subk)) (self.(n_sigs)) (self.(n_revoc)) (self.(sec_read)) (self.(sec_imported)) (self.(sec_dups)) (self.(not_imported)).

(** [setattr(self, name, x)] for the name of a counter. *)
Definition setattr (name : string) (x : option Z) (self : t) : t :=
  if String.eqb name "count" then
    mk (self.(results)) (self.(fingerprints)) x (self.(no_user_id)) (self.(imported)) (self.(imported_rsa)) (self.(unchanged)) (self.(n_uids)) (self.(n_subk)) (self.(n_sigs)) (self.(n_revoc)) (self.(sec_read)) (self.(sec_imported)) (self.(sec_dups)) (self.(not_imported))
  else if String.eqb name "no_user_id" then
    mk (self.(results)) (self.(fingerprints)) (self.(count)) x (self.(imported)) (self.(imported_rsa)) (self.(unchanged)) (self.(n_uids)) (self.(n_subk)) (self.(n_sigs)) (self.(n_revoc)) (self.(sec_read)) (self.(sec_imported)) (self.(sec_dups)) (self.(not_imported))
  else if String.eqb name "imported" then
    mk (self.(results)) (self.(fingerprints)) (self.(count)) (self.(no_user_id)) x (self.(imported_rsa)) (self.(unchanged)) (self.(n_uids)) (self.(n_subk)) (self.(n_sigs)) (self.(n_revoc)) (self.(sec_read)) (self.(sec_imported)) (self.(sec_dups)) (self.(not_imported))
  else if String.eqb name "imported_rsa" then
    mk (self.(results)) (self.(fingerprints)) (self.(count)) (self.(no_user_id)) (self.(imported)) x (self.(unchanged)) (self.(n_uids)) (self.(n_subk)) (self.(n_sigs)) (self.(n_revoc)) (self.(sec_read)) (self.(sec_imported)) (self.(sec_dups)) (self.(not_imported))
  else if String.eqb name "unchanged" then
    mk (self.(results)) (self.(fingerprints)) (self.(count)) (self.(no_user_id)) (self.(imported)) (self.(imported_rsa)) x (self.(n_uids)) (self.(n_subk)) (self.(n_sigs)) (self.(n_revoc)) (self.(sec_read)) (self.(sec_imported)) (self.(sec_dups)) (self.(not_imported))
  else if String.eqb name "n_uids" then
    mk (self.(results)) (self.(fingerprints)) (self.(count)) (self.(no_user_id)) (self.(imported)) (self.(imported_rsa)) (self.(unchanged)) x (self.(n_subk)) (self.(n_sigs)) (self.(n_revoc)) (self.(sec_read)) (self.(sec_imported)) (self.(sec_dups)) (self.(not_imported))
  else if String.eqb name "n_subk" then
    mk (self.(results)) (self.(fingerprints)) (self.(count)) (self.(no_user_id)) (self.(imported)) (self.(imported_rsa)) (self.(unchanged)) (self.(n_uids)) x (self.(n_sigs)) (self.(n_revoc)) (self.(sec_read)) (self.(sec_imported)) (self.(sec_dups)) (self.(not_imported))
  else if String.eqb name "n_sigs" then
    mk (self.(results)) (self.(fingerprints)) (self.(count)) (self.(no_user_id)) (self.(imported)) (self.(imported_rsa)) (self.(unchanged)) (self.(n_uids)) (self.(n_subk)) x (self.(n_revoc)) (self.(sec_read)) (self.(sec_imported)) (self.(sec_dups)) (self.(not_imported))
  else if String.eqb name "n_revoc" then
    mk (self.(results)) (self.(fingerprints)) (self.(count)) (self.(no_user_id)) (self.(imported)) (self.(imported_rsa)) (self.(unchanged)) (self.(n_uids)) (self.(n_subk)) (self.(n_sigs)) x (self.(sec_read)) (self.(sec_imported)) (self.(sec_dups)) (self.(not_imported))
  else if String.eqb name "sec_read" then
    mk (self.(results)) (self.(fingerprints)) (self.(count)) (self.(no_user_id)) (self.(imported)) (self.(imported_rsa)) (self.(unchanged)) (self.(n_uids)) (self.(n_subk)) (self.(n_sigs)) (self.(n_revoc)) x (self.(sec_imported)) (self.(sec_dups)) (self.(not_imported))
  else if String.eqb name "sec_imported" then
    mk (self.(results)) (self.(fingerprints)) (self.(count)) (self.(no_user_id)) (self.(imported)) (self.(imported_rsa)) (self.(unchanged)) (self.(n_uids)) (self.(n_subk)) (self.(n_sigs)) (self.(n_revoc)) (self.(sec_read)) x (self.(sec_dups)) (self.(not_imported))
  else if String.eqb name "sec_dups" then
    mk (self.(results)) (self.(fingerprints)) (self.(count)) (self.(no_user_id)) (self.(imported)) (self.(imported_rsa)) (self.(unchanged)) (self.(n_uids)) (self.(n_subk)) (self.(n_sigs)) (self.(n_revoc)) (self.(sec_read)) (self.(sec_imported)) x (self.(not_imported))
  else if String.eqb name "not_imported" then
    mk (self.(results)) (self.(fingerprints)) (self.(count)) (self.(no_user_id)) (self.(imported)) (self.(imported_rsa)) (self.(unchanged)) (self.(n_uids)) (self.(n_subk)) (self.(n_sigs)) (self.(n_revoc)) (self.(sec_read)) (self.(sec_imported)) (self.(sec_dups)) x
  else self.
(** [ImportResult.__init__]. *)
Definition __init__ : t :=
  let self := mk [] [] None None None None None None None None None None None None None in
  foldl (fun self result => setattr result None self) self counts.

(** Truth value of an attribute that is [None] or an integer. *)
Definition truth (x : option Z) : bool :=
  match x with
  | Some n => negb (n =? 0)
  | None => false
  end.

(** [ImportResult.__nonzero__]. *)
Definition __nonzero__ (self : t) : bool :=
  if truth self.(not_imported) then false
  else if (length self.(fingerprints) =? 0)%nat then false
  else true.

Definition ok_reason : gmap string string :=
  list_to_map
    [("0", "Not actually changed");
     ("1", "Entirely new key");
     ("2", "New user IDs");
     ("4", "New signatures");
     ("8", "New subkeys");
     ("16", "Contains private key")].

Definition problem_reason : gmap string string :=
  list_to_map
    [("0", "No specific reason given");
     ("1", "Invalid Certificate");
     ("2", "Issuer Certificate missing");
     ("3", "Certificate Chain too long");
     ("4", "Error storing certificate")].

Definition invalid_literal (s : string) : exn :=
  ValueError ("invalid literal for int() with base 10: " +:+ Py.repr s).

(** The loop [for code, text in items: if int(reason) | int(code) ==
    int(reason): reasons.append(text)]. *)
Fixpoint ok_reasons (items : list (string * string)) (reason : string)
    (reasons : list string) : outcome (list string) :=
  match items with
  | [] => Return reasons
  | (code, text) :: items' =>
      match Py.int reason with
      | None => Raise (invalid_literal reason)
      | Some r =>
          match Py.int code with
          | None => Raise (invalid_literal code)
          | Some c =>
              if Z.lor r c =? r then ok_reasons items' reason (reasons ++ [text])
              else ok_reasons items' reason reasons
          end
      end
  end.

(** The loop [for i in range(len(self.counts)): setattr(self,
    self.counts[i], int(import_res[i]))], from index [i] on. *)
Fixpoint set_counts (names : list string) (i : nat) (import_res : list string)
    (self : t) : t * option exn :=
  match names with
  | [] => (self, None)
  | name :: names' =>
      match import_res !! i with
      | None => (self, Some (IndexError "list index out of range"))
      | Some token =>
          match Py.int token with
          | None => (self, Some (invalid_literal token))
          | Some n => set_counts names' (S i) import_res (setattr name (Some n) self)
          end
      end
  end.

Section Items.

(** [list(self.ok_reason.items())]: the entries of [ok_reason] in the
    order the dictionary enumerates them. *)
Variable ok_reason_items : list (string * string).

(** [ImportResult.handle_status(self, key, value)]. *)
Definition handle_status (self : t) (key value : string) : t * option exn :=
  if String.eqb key "IMPORTED" then (self, None)
  else if String.eqb key "NODATA" then
    (set_results (self.(results)
                  ++ [list_to_map [("fingerprint", None); ("problem", Some "0");
                                   ("text", Some "No valid data found")]]) self, None)
  else if String.eqb key "IMPORT_OK" then
    match Py.split value with
    | [reason; fingerprint] =>
        match ok_reasons ok_reason_items reason [] with
        | Raise e => (self, Some e)
        | Return reasons =>
            let reasontext := Py.join Py.newline reasons +:+ Py.newline in
            let self :=
              set_results (self.(results)
                           ++ [list_to_map [("fingerprint", Some fingerprint);
                                            ("ok", Some reason);
                                            ("text", Some reasontext)]]) self in
            let self := set_fingerprints (self.(fingerprints) ++ [fingerprint]) self in
            (self, None)
        end
    | l => (self, Some (unpack_error (length l) 2))
    end
  else if String.eqb key "IMPORT_PROBLEM" then
    let '(reason, fingerprint) :=
      match Py.split value with
      | [reason; fingerprint] => (reason, fingerprint)
      | _ => (value, "<unknown>")
      end in
    match problem_reason !! reason with
    | Some text =>
        (set_results (self.(results)
                      ++ [list_to_map [("fingerprint", Some fingerprint);
                                       ("problem", Some reason);
                                       ("text", Some text)]]) self, None)
    | None => (self, Some (KeyError reason))
    end
  else if String.eqb key "IMPORT_RES" then
    let import_res := Py.split value in
    set_counts counts 0 import_res self
  else if String.eqb key "KEYEXPIRED" then
    (set_results (self.(results)
                  ++ [list_to_map [("fingerprint", None); ("problem", Some "0");
                                   ("text", Some "Key expired")]]) self, None)
  else if String.eqb key "SIGEXPIRED" then
    (set_results (self.(results)
                  ++ [list_to_map [("fingerprint", None); ("problem", Some "0");
                                   ("text", Some "Signature expired")]]) self, None)
  else (self, Some (unknown_status_message key)).

End Items.

(** The keywords [ImportResult.handle_status] has a branch for. *)
Definition keywords : list string :=
  ["IMPORTED"; "NODATA"; "IMPORT_OK"; "IMPORT_PROBLEM"; "IMPORT_RES";
   "KEYEXPIRED"; "SIGEXPIRED"].

(** The entries of [ok_reason] in the order of the class body. *)
Definition ok_reason_source_order : list (string * string) :=
  [("0", "Not actually changed");
   ("1", "Entirely new key");
   ("2", "New user IDs");
   ("4", "New signatures");
   ("8", "New subkeys");
   ("16", "Contains private key")].

End ImportResult.

(** *** [class ListKeys] *)

Module ListKeys.

(** A key record of the list: the nine positional fields by name, the
    user ids and the subkeys. *)
Record key_record : Type := mk_key {
  fields : gmap string string;
  uids_of : list string;
  subkeys : list (string * string)
}.

(** The list itself, the cursor [curkey] (the index of the current record
    in the list, which it aliases) and the two global lists. *)
Record t : Type := mk {
  keys : list key_record;
  curkey : option nat;
  fingerprints : list string;
  uids : list string
}.

(** [ListKeys.__init__]. *)
Definition __init__ : t := mk [] None [] [].

(** [ListKeys.handle_status(self, key, value)]: the body is [pass]. *)
Definition handle_status (self : t) (key value : string) : t * option exn :=
  (self, None).

End ListKeys.

(** *** [class Crypt(Verify)] *)

Module Crypt.

(** The attributes inherited from [Verify], and [data] and [ok]. *)
Record t : Type := mk {
  verify : Verify.t;
  data : string;
  ok : bool
}.

Definition set_verify (x : Verify.t) (self : t) : t := mk x self.(data) self.(ok).
Definition set_ok (x : bool) (self : t) : t := mk self.(verify) self.(data) x.
Definition set_status (x : option string) (self : t) : t :=
  set_verify (Verify.set_status x self.(verify)) self.

(** [Crypt.__init__]. *)
Definition __init__ : t :=
  let self := mk Verify.__init__ "" false in
  set_status (Some "") self.

(** [Crypt.__nonzero__]. *)
Definition __nonzero__ (self : t) : bool :=
  if self.(ok) then true else false.

(** [Crypt.handle_status(self, key, value)]. *)
Definition handle_status (self : t) (key value : string) : t * option exn :=
  if key_in key ["ENC_TO"; "USERID_HINT"; "GOODMDC"; "END_DECRYPTION";
                 "BEGIN_SIGNING"; "NO_SECKEY"; "ERROR"; "NODATA"; "CARDCTRL"] then
    (self, None)
  else if key_in key ["NEED_PASSPHRASE"; "BAD_PASSPHRASE"; "GOOD_PASSPHRASE";
                      "MISSING_PASSPHRASE"; "DECRYPTION_FAILED"; "KEY_NOT_CREATED"] then
    (set_status (Some (Py.lower (Py.replace "_" " " key))) self, None)
  else if String.eqb key "NEED_PASSPHRASE_SYM" then
    (set_status (Some "need symmetric passphrase") self, None)
  else if String.eqb key "BEGIN_DECRYPTION" then
    (set_status (Some "decryption incomplete") self, None)
  else if String.eqb key "BEGIN_ENCRYPTION" then
    (set_status (Some "encryption incomplete") self, None)
  else if String.eqb key "DECRYPTION_OKAY" then
    let self := set_status (Some "decryption ok") self in
    (set_ok true self, None)
  else if String.eqb key "END_ENCRYPTION" then
    let self := set_status (Some "encryption ok") self in
    (set_ok true self, None)
  else if String.eqb key "INV_RECP" then
    (set_status (Some "invalid recipient") self, None)
  else if String.eqb key "KEYEXPIRED" then
    (set_status (Some "key expired") self, None)
  else if String.eqb key "SIG_CREATED" then
    (set_status (Some "sig created") self, None)
  else if String.eqb key "SIGEXPIRED" then
    (set_status (Some "sig expired") self, None)
  else
    let '(base, e) := Verify.handle_status self.(verify) key value in
    (set_verify base self, e).

(** The keywords [Crypt.handle_status] has a branch for, its own and the
    ones it hands to [Verify.handle_status]. *)
Definition keywords : list string :=
  ["ENC_TO"; "USERID_HINT"; "GOODMDC"; "END_DECRYPTION"; "BEGIN_SIGNING";
   "NO_SECKEY"; "ERROR"; "NODATA"; "CARDCTRL"; "NEED_PASSPHRASE";
   "BAD_PASSPHRASE"; "GOOD_PASSPHRASE"; "MISSING_PASSPHRASE";
   "DECRYPTION_FAILED"; "KEY_NOT_CREATED"; "NEED_PASSPHRASE_SYM";
   "BEGIN_DECRYPTION"; "BEGIN_ENCRYPTION"; "DECRYPTION_OKAY";
   "END_ENCRYPTION"; "INV_RECP"; "KEYEXPIRED"; "SIG_CREATED"; "SIGEXPIRED"]
  ++ Verify.keywords.

End Crypt.

(** *** [class GenKey] *)

Module GenKey.

Record t : Type := mk {
  type : option string;
  fingerprint : option string
}.

(** [GenKey.__init__]. *)
Definition __init__ : t := mk None None.

(** [GenKey.__nonzero__]: the truth value of [self.fingerprint]. *)
Definition __nonzero__ (self : t) : bool :=
  match self.(fingerprint) with
  | Some s => if truthy s then true else false
  | None => false
  end.

(** [GenKey.handle_status(self, key, value)]. *)
Definition handle_status (self : t) (key value : string) : t * option exn :=
  if key_in key ["PROGRESS"; "GOOD_PASSPHRASE"; "NODATA"; "KEY_NOT_CREATED"] then
    (self, None)
  else if String.eqb key "KEY_CREATED" then
    match Py.split value with
    | [a; b] => (mk (Some a) (Some b), None)
    | l => (self, Some (unpack_error (length l) 2))
    end
  else (self, Some (unknown_status_message key)).

Definition keywords : list string :=
  ["PROGRESS"; "GOOD_PASSPHRASE"; "NODATA"; "KEY_NOT_CREATED"; "KEY_CREATED"].

End GenKey.

(** *** [class DeleteResult] *)

Module DeleteResult.

Record t : Type := mk { status : string }.

(** [DeleteResult.__init__]. *)
Definition __init__ : t := mk "ok".

Definition problem_reason : gmap string string :=
  list_to_map
    [("1", "No such key");
     ("2", "Must delete secret key first");
     ("3", "Ambigious specification")].

(** [DeleteResult.handle_status(self, key, value)]. *)
Definition handle_status (self : t) (key value : string) : t * option exn :=
  if String.eqb key "DELETE_PROBLEM" then
    (mk (default ("Unknown error: " +:+ Py.repr value) (problem_reason !! value)), None)
  else (self, Some (unknown_status_message key)).

Definition keywords : list string := ["DELETE_PROBLEM"].

End DeleteResult.

(** *** [class Sign] *)

Module Sign.

(** [timestamp] is bound by [SIG_CREATED] only: [None] stands for the
    attribute not being there yet. *)
Record t : Type := mk {
  type : option string;
  fingerprint : option string;
  timestamp : option string
}.

(** [Sign.__init__]. *)
Definition __init__ : t := mk None None None.

(** [Sign.__nonzero__]. *)
Definition __nonzero__ (self : t) : bool :=
  match self.(fingerprint) with
  | Some _ => true
  | None => false
  end.

(** [Sign.handle_status(self, key, value)]. *)
Definition handle_status (self : t) (key value : string) : t * option exn :=
  if key_in key ["USERID_HINT"; "NEED_PASSPHRASE"; "BAD_PASSPHRASE";
                 "GOOD_PASSPHRASE"; "BEGIN_SIGNING"; "CARDCTRL";
                 "INV_SGNR"; "NODATA"] then
    (self, None)
  else if String.eqb key "SIG_CREATED" then
    match Py.split value with
    | [a; algo; hashalgo; cls; e; f] => (mk (Some a) (Some f) (Some e), None)
    | l => (self, Some (unpack_error (length l) 6))
    end
  else (self, Some (unknown_status_message key)).

Definition keywords : list string :=
  ["USERID_HINT"; "NEED_PASSPHRASE"; "BAD_PASSPHRASE"; "GOOD_PASSPHRASE";
   "BEGIN_SIGNING"; "CARDCTRL"; "INV_SGNR"; "NODATA"; "SIG_CREATED"].

End Sign.

(** ** [class GPG]: the result classes and the status-line reader *)

Module GPG.

(** An object of one of the classes of [GPG.result_map]: [crypt],
    [delete], [generate], [import], [list], [sign] and [verify]. *)
Inductive result : Type :=
| RCrypt (r : Crypt.t)
| RDelete (r : DeleteResult.t)
| RGenerate (r : GenKey.t)
| RImport (r : ImportResult.t)
| RList (r : ListKeys.t)
| RSign (r : Sign.t)
| RVerify (r : Verify.t).

(** [result.handle_status(keyword, value)], bound by the class of
    [result]; [ok_reason_items] is the enumeration of
    [ImportResult.ok_reason]. *)
Definition handle_status (ok_reason_items : list (string * string))
    (r : result) (keyword value : string) : result * option exn :=
  match r with
  | RCrypt r => prod_map RCrypt id (Crypt.handle_status r keyword value)
  | RDelete r => prod_map RDelete id (DeleteResult.handle_status r keyword value)
  | RGenerate r => prod_map RGenerate id (GenKey.handle_status r keyword value)
  | RImport r =>
      prod_map RImport id (ImportResult.handle_status ok_reason_items r keyword value)
  | RList r => prod_map RList id (ListKeys.handle_status r keyword value)
  | RSign r => prod_map RSign id (Sign.handle_status r keyword value)
  | RVerify r => prod_map RVerify id (Verify.handle_status r keyword value)
  end.

(** The keywords the handler of the class of [r] has a branch for. *)
Definition keywords (r : result) : list string :=
  match r with
  | RCrypt _ => Crypt.keywords
  | RDelete _ => DeleteResult.keywords
  | RGenerate _ => GenKey.keywords
  | RImport _ => ImportResult.keywords
  | RList _ => []
  | RSign _ => Sign.keywords
  | RVerify _ => Verify.keywords
  end.

Section ReadResponse.

(** The class of [result] and its [handle_status]. *)
Context {R : Type}.
Variable result_handle_status : R -> string -> string -> R * option exn.

(** What [_read_response] leaves behind: how it ended, the result object,
    the attribute [result.stderr] it binds on a normal end ([None]: not
    bound), the lines printed when [verbose], and the logger. *)
Record response : Type := mk_response {
  ended : outcome unit;
  result_after : R;
  stderr : option string;
  printed : list string;
  log_after : list log_record
}.

(** The loop of [_read_response(self, stream, result)] over the lines
    that [stream.readline()] returns, an empty one being the end of the
    stream; [lines] is the local list of the lines read so far. *)
Fixpoint read_lines (verbose : bool) (stream : list string) (result : R)
    (lines printed : list string) (log : list log_record) : response :=
  match stream with
  | [] => mk_response (Return tt) result (Some (Py.join "" lines)) printed log
  | line :: stream' =>
      if (String.length line =? 0)%nat then
        mk_response (Return tt) result (Some (Py.join "" lines)) printed log
      else
        let lines := lines ++ [line] in
        let line := Py.rstrip line in
        let printed := if verbose then printed ++ [line] else printed in
        let log := log ++ [(DEBUG, line)] in
        if String.eqb (Py.slice_to 9 line) "[GNUPG:] " then
          let line := Py.slice_from 9 line in
          let L := Py.split1 line in
          match L with
          | [] => mk_response (Raise (IndexError "list index out of range"))
                    result None printed log
          | keyword :: rest =>
              let value := match rest with
                           | value :: _ => value
                           | [] => ""
                           end in
              match result_handle_status result keyword value with
              | (result, Some e) => mk_response (Raise e) result None printed log
              | (result, None) => read_lines verbose stream' result lines printed log
              end
          end
        else read_lines verbose stream' result lines printed log
  end.

(** [GPG._read_response(self, stream, result)]. *)
Definition _read_response (verbose : bool) (stream : list string) (result : R)
    (log : list log_record) : response :=
  read_lines verbose stream result [] [] log.

End ReadResponse.

End GPG.

(** * Notions of the specification *)

(** A property of every character of a string. *)
Fixpoint string_forall (p : ascii -> bool) (s : string) : bool :=
  match s with
  | EmptyString => true
  | String a s' => p a && string_forall p s'
  end.

(** The character set [[A-Za-z0-9@%+=:,./_-]] of the specification. *)
Definition in_safe_set (c : ascii) : bool :=
  let n := N_of_ascii c in
  ((65 <=? n) && (n <=? 90) || (97 <=? n) && (n <=? 122) || (48 <=? n) && (n <=? 57))%N
  || bool_decide (c ∈ list_ascii_of_string "@%+=:,./_-").

(** Every single quote of [s] replaced by the five characters of
    [quote_escape], the other characters kept. *)
Definition escape_quotes (s : string) : string :=
  string_of_list_ascii
    (flat_map (fun c => if Ascii.eqb c Py.squote
                        then [Py.squote; Py.dquote; Py.squote; Py.dquote; Py.squote]
                        else [c])
              (list_ascii_of_string s)).

(** The result of a computation with its returned value mapped by [f]. *)
Definition on_return {A B} (f : A -> B) (r : outcome A * list log_record)
  : outcome B * list log_record :=
  match r with
  | (Return a, l) => (Return (f a), l)
  | (Raise e, l) => (Raise e, l)
  end.

(** The records logged while [_sanitise] drops the disallowed option [f]. *)
Definition dropped_records (f : string) : list log_record :=
  let shown := str_of_option (_fix_unsafe (PyStr f)) in
  [(DEBUG, "_sanitise(): Got arg string: " +:+ f);
   (WARNING, "Dropping option '" +:+ shown +:+ "'...");
   (WARNING, "Option '" +:+ shown +:+ "' not supported.");
   (DEBUG, "Dropping option '" +:+ shown +:+ "'...");
   (DEBUG, "_sanitise(): appending args: ")].

(** A string of blanks, and a string without a blank. *)
Definition blank (s : string) : bool := string_forall Py.isspace s.

Definition solid (s : string) : bool :=
  string_forall (fun c => negb (Py.isspace c)) s.

(** [token] is the first whitespace-delimited token of [value]: blanks may
    come before it, and it runs to the end of [value] or to a blank. *)
Definition first_token (value token : string) : Prop :=
  exists lead rest,
    value = lead +:+ token +:+ rest
    /\ blank lead = true /\ solid token = true /\ token <> ""
    /\ blank (Py.slice_to 1 rest) = true.

(** The successive calls of [handle_status] that a run makes for a
    sequence of status events, up to the first call that raises. *)
Fixpoint feed {R : Type} (handle_status : R -> string -> string -> R * option exn)
    (result : R) (events : list (string * string)) : R * option exn :=
  match events with
  | [] => (result, None)
  | (keyword, value) :: events' =>
      match handle_status result keyword value with
      | (result, None) => feed handle_status result events'
      | (result, Some e) => (result, Some e)
      end
  end.

(** The first thirteen tokens of an [IMPORT_RES] value are the decimal
    integers [ns]. *)
Definition import_counters (value : string) (ns : list Z) : Prop :=
  length ns = 13%nat /\ mapM Py.int (take 13 (Py.split value)) = Some ns.



(** A result object that only records the calls of its handler. *)
Definition record_event (calls : list (string * string)) (keyword value : string)
  : list (string * string) * option exn :=
  (calls ++ [(keyword, value)], None).

(** A [BytesIO] after one [read(1024)], a [file] after a successful
    [write(data)], and the record logged before a chunk is written. *)
Definition advance (b : bytesio) : bytesio :=
  mk_bytesio (bio_buffer b)
    (bio_pos b + String.length (Py.slice_to 1024 (bio_remaining b))) false.

Definition accept (data : string) (f : pyfile) : pyfile :=
  mk_pyfile (f_written f ++ [data]) false (f_write_error f) (f_close_error f).

Definition chunk_record (sent : nat) (data : string) : log_record :=
  (DEBUG, "sending chunk (" +:+ Py.str_of_nat sent +:+ "): "
          +:+ Py.repr (Py.slice_to 256 data)).

(** The file [f] once closed, holding [written]. *)
Definition closed_with (written : list string) (f : pyfile) : pyfile :=
  mk_pyfile written true (f_write_error f) (f_close_error f).

(** How [_copy_data] ends once the loop is over, after
    [outstream.close()]: an [IOError] is logged, anything else leaves the
    function. *)
Definition close_outcome (f : pyfile) : outcome unit :=
  match f_close_error f with
  | None | Some (IOError _) => Return tt
  | Some e => Raise e
  end.

(** The arguments pass the two assertions of [_copy_data]. *)
Definition streams_accepted (instream outstream : stream) : bool :=
  match instream, outstream with
  | BytesIO _, File _ => true
  | _, _ => false
  end.

(** Test data: 2500 bytes, which make two full chunks and a shorter one. *)
Definition sample_data : string :=
  Py.join "" (replicate 250 "0123456789").

Definition sample_stream : bytesio := mk_bytesio sample_data 0 false.

(** The status event that a line of the diagnostic channel carries, if
    any, and the events of the lines of a stream up to its end (an empty
    line). *)
Definition status_event (line : string) : option (string * string) :=
  let line := Py.rstrip line in
  if Py.startswith "[GNUPG:] " line then
    match Py.split1 (Py.slice_from 9 line) with
    | keyword :: rest =>
        Some (keyword, match rest with
                       | value :: _ => value
                       | [] => ""
                       end)
    | [] => None
    end
  else None.

Fixpoint status_events (stream : list string) : list (string * string) :=
  match stream with
  | [] => []
  | line :: stream' =>
      if (String.length line =? 0)%nat then []
      else match status_event line with
           | Some event => event :: status_events stream'
           | None => status_events stream'
           end
  end.

(** * The rest of the module *)

(** [s.lstrip(c)] for a one-character set [c]. *)
Fixpoint lstrip_char (c : ascii) (s : string) : string :=
  match s with
  | String a s' => if Ascii.eqb a c then lstrip_char c s' else s
  | EmptyString => EmptyString
  end.

(** [_underscore(input, remove_prefix)]. *)
Definition _underscore (input : string) (remove_prefix : bool) : string :=
  if negb remove_prefix then Py.replace "-" "_" input
  else Py.replace "-" "_" (lstrip_char "-" input).

(** The attributes of a [GPG] object that [make_args] reads; [gpghome]
    and [keyring] are [None] or a [str], [options] is [None], the [str]
    that [__init__] binds, or a list. *)
Record gpg : Type := mk_gpg {
  gpgbinary : string;
  gpghome : option string;
  keyring : option string;
  use_agent : bool;
  options : pyval
}.

(** Truth value of [None] or a [str], and of a [pyval]. *)
Definition truthy_option (o : option string) : bool :=
  match o with
  | Some s => truthy s
  | None => false
  end.

Definition truthy_val (v : pyval) : bool :=
  match v with
  | PyNone => false
  | PyStr s => truthy s
  | PyList l => negb (length l =? 0)%nat
  end.

Section Orchestrator.

Variable lstat_size : string -> option Z.

(** [GPG.make_args(self, args, passphrase)]. *)
Definition make_args (self : gpg) (args : pyval) (passphrase : bool) : M (list string) :=
  let cmd := [self.(gpgbinary); "--status-fd 2 --no-tty"] in
  let cmd := if truthy_option self.(gpghome)
             then cmd ++ ["--homedir " +:+ String Py.dquote (str_of_option self.(gpghome))
                          +:+ String Py.dquote ""]
             else cmd in
  let cmd := if truthy_option self.(keyring)
             then cmd ++ ["--no-default-keyring --keyring "
                          +:+ String Py.dquote (str_of_option self.(keyring))
                          +:+ String Py.dquote ""]
             else cmd in
  let cmd := if passphrase then cmd ++ ["--batch --passphrase-fd 0"] else cmd in
  let cmd := if self.(use_agent) then cmd ++ ["--use-agent"] else cmd in
  cmd <- (if truthy_val self.(options) then
            opts <- _sanitise_list lstat_size self.(options) ;;
            ret (cmd ++ opts)
          else ret cmd) ;;
  cmd <- (if truthy_val args then
            safe_args <- _sanitise_list lstat_size args ;;
            ret (cmd ++ safe_args)
          else ret cmd) ;;
  logger DEBUG ("make_args(): Using command: " +:+ str_of (PyList cmd)) ;;
  ret cmd.

(** The command line that [GPG._open_subprocess] hands to [Popen]. *)
Definition command_line (self : gpg) (args : pyval) (passphrase : bool) : M string :=
  cmd <- make_args self args passphrase ;;
  let cmd := Py.join " " cmd in
  logger DEBUG cmd ;;
  ret cmd.

End Orchestrator.

(** The fixed part of the command of [make_args]. *)
Definition fixed_args (self : gpg) (passphrase : bool) : list string :=
  [self.(gpgbinary); "--status-fd 2 --no-tty"]
  ++ (if truthy_option self.(gpghome)
      then ["--homedir " +:+ String Py.dquote (str_of_option self.(gpghome))
            +:+ String Py.dquote ""]
      else [])
  ++ (if truthy_option self.(keyring)
      then ["--no-default-keyring --keyring "
            +:+ String Py.dquote (str_of_option self.(keyring)) +:+ String Py.dquote ""]
      else [])
  ++ (if passphrase then ["--batch --passphrase-fd 0"] else [])
  ++ (if self.(use_agent) then ["--use-agent"] else []).

(** An entry of the list [checked] of [_sanitise]: empty, or an allowed
    flag and a space. *)
Definition allowed_entry (entry : string) : Prop :=
  entry = "" \/ exists flag, flag ∈ _allowed /\ entry = flag +:+ " ".

(** An element that [_sanitise_list] yields: not empty, and made of
    allowed flags only. *)
Definition sanitised_element (element : string) : Prop :=
  element <> "" /\ Forall (fun flag => flag ∈ _allowed) (Py.split element).

(** ** [ImportResult.summary] *)

(** ['%d' % n] for an integer. *)
Definition str_of_Z (n : Z) : string :=
  match n with
  | Zneg p => "-" +:+ Py.str_of_nat (Pos.to_nat p)
  | _ => Py.str_of_nat (Z.to_nat n)
  end.

(** ['%d' % x] for an attribute that is [None] or an integer. *)
Definition percent_d (x : option Z) : outcome string :=
  match x with
  | Some n => Return (str_of_Z n)
  | None => Raise (TypeError "%d format: a number is required, not NoneType")
  end.

(** [ImportResult.summary(self)]. *)
Definition summary (self : ImportResult.t) : outcome string :=
  match percent_d (ImportResult.imported self) with
  | Raise e => Raise e
  | Return imported =>
      let l := [imported +:+ " imported"] in
      if ImportResult.truth (ImportResult.not_imported self) then
        match percent_d (ImportResult.not_imported self) with
        | Raise e => Raise e
        | Return not_imported =>
            Return (Py.join ", " (l ++ [not_imported +:+ " not imported"]))
        end
      else Return (Py.join ", " l)
  end.

(** ** [GPG._read_data] *)

(** The loop [while True] of [_read_data] on a file object whose
    [read(1024)] returns the next 1024 bytes, fewer at the end, as the
    [BytesIO] of the copier does; [None] only when [fuel] runs out. *)
Fixpoint read_data_loop (fuel : nat) (stream : bytesio) (chunks : list string)
    (log : list log_record)
  : option (outcome (list string) * bytesio * list log_record) :=
  match fuel with
  | O => None
  | S fuel' =>
      match bio_read 1024 stream with
      | (Raise e, stream) => Some (Raise e, stream, log)
      | (Return data, stream) =>
          if (String.length data =? 0)%nat then Some (Return chunks, stream, log)
          else
            let log := log ++ [(DEBUG, "chunk: " +:+ Py.repr (Py.slice_to 256 data))] in
            read_data_loop fuel' stream (chunks ++ [data]) log
      end
  end.

(** [GPG._read_data(self, stream, result)]: the value bound to
    [result.data], the stream and the logger afterwards. *)
Definition _read_data (stream : bytesio) (log : list log_record)
  : option (outcome string * bytesio * list log_record) :=
  match read_data_loop (S (String.length (bio_remaining stream))) stream [] log with
  | None => None
  | Some (Raise e, stream, log) => Some (Raise e, stream, log)
  | Some (Return chunks, stream, log) => Some (Return (Py.join "" chunks), stream, log)
  end.

(** ** The methods of [ListKeys] and the parser of [list_keys] *)

(** The value of a hexadecimal digit. *)
Definition hex_value (c : ascii) : option N :=
  let n := N_of_ascii c in
  if ((48 <=? n) && (n <=? 57))%N then Some (n - 48)%N
  else if ((97 <=? n) && (n <=? 102))%N then Some (n - 87)%N
  else if ((65 <=? n) && (n <=? 70))%N then Some (n - 55)%N
  else None.

(** [ESCAPE_PATTERN.sub(lambda m: chr(int(m.group(1), 16)), s)] on a
    [str]: every backslash, [x] (of either case, the pattern being compiled
    with [re.I]) and two hexadecimal digits is replaced by the character of
    that code, from left to right.  (On a [unicode] string, as [list_keys]
    hands over, an escape of a code above 127 makes the substitution raise
    [UnicodeDecodeError]; a string without a backslash is returned as it
    is in both cases.) *)
Fixpoint unescape (s : string) : string :=
  match s with
  | EmptyString => EmptyString
  | String a s' =>
      match s' with
      | String x (String h (String l rest)) =>
          match hex_value h, hex_value l with
          | Some hv, Some lv =>
              if Ascii.eqb a Py.backslash && (Ascii.eqb x "x" || Ascii.eqb x "X")
              then String (ascii_of_N (16 * hv + lv)) (unescape rest)
              else String a (unescape s')
          | _, _ => String a (unescape s')
          end
      | _ => String a (unescape s')
      end
  end.

(** The local [vars] of [ListKeys.key]. *)
Definition key_vars : list string :=
  Py.split "type trust length algo keyid date expires dummy ownertrust uid".

(** The loop [for i in range(len(vars)): self.curkey[vars[i]] = args[i]],
    from index [i] on; [None] where [args[i]] raises [IndexError]. *)
Fixpoint fill_fields (vars : list string) (i : nat) (args : list string)
    (curkey : gmap string string) : option (gmap string string) :=
  match vars with
  | [] => Some curkey
  | var :: vars' =>
      match args !! i with
      | None => None
      | Some field => fill_fields vars' (S i) args (<[var := field]> curkey)
      end
  end.

Definition index_error : exn := IndexError "list index out of range".

(** The methods of [ListKeys]: the object after a call that returns.  A
    call that raises leaves [list_keys], which drops the object. *)

(** [ListKeys.key(self, args)], also bound to [pub] and [sec]. *)
Definition ListKeys_key (self : ListKeys.t) (args : list string) : outcome ListKeys.t :=
  match fill_fields key_vars 0 args ∅ with
  | None => Raise index_error
  | Some curkey =>
      match curkey !! "uid" with
      | None => Raise (KeyError "uid")
      | Some uid =>
          let uids := if truthy uid then [uid] else [] in
          let curkey := ListKeys.mk_key (delete "uid" curkey) uids [] in
          Return (ListKeys.mk (ListKeys.keys self ++ [curkey])
                    (Some (length (ListKeys.keys self)))
                    (ListKeys.fingerprints self) (ListKeys.uids self))
      end
  end.

(** [ListKeys.fpr(self, args)]. *)
Definition ListKeys_fpr (self : ListKeys.t) (args : list string) : outcome ListKeys.t :=
  match args !! 9%nat with
  | None => Raise index_error
  | Some fingerprint =>
      match ListKeys.curkey self with
      | None => Raise (TypeError "'NoneType' object does not support item assignment")
      | Some i =>
          let set_fingerprint k :=
            ListKeys.mk_key (<["fingerprint" := fingerprint]> (ListKeys.fields k))
              (ListKeys.uids_of k) (ListKeys.subkeys k) in
          Return (ListKeys.mk (alter set_fingerprint i (ListKeys.keys self)) (Some i)
                    (ListKeys.fingerprints self ++ [fingerprint]) (ListKeys.uids self))
      end
  end.

(** [ListKeys.uid(self, args)]. *)
Definition ListKeys_uid (self : ListKeys.t) (args : list string) : outcome ListKeys.t :=
  match args !! 9%nat with
  | None => Raise index_error
  | Some uid =>
      let uid := unescape uid in
      match ListKeys.curkey self with
      | None => Raise (TypeError "'NoneType' object has no attribute '__getitem__'")
      | Some i =>
          let add_uid k :=
            ListKeys.mk_key (ListKeys.fields k) (ListKeys.uids_of k ++ [uid])
              (ListKeys.subkeys k) in
          Return (ListKeys.mk (alter add_uid i (ListKeys.keys self)) (Some i)
                    (ListKeys.fingerprints self) (ListKeys.uids self ++ [uid]))
      end
  end.

(** [ListKeys.sub(self, args)]. *)
Definition ListKeys_sub (self : ListKeys.t) (args : list string) : outcome ListKeys.t :=
  match args !! 4%nat with
  | None => Raise index_error
  | Some keyid =>
      match args !! 11%nat with
      | None => Raise index_error
      | Some field =>
          match ListKeys.curkey self with
          | None => Raise (TypeError "'NoneType' object has no attribute '__getitem__'")
          | Some i =>
              let add_subkey k :=
                ListKeys.mk_key (ListKeys.fields k) (ListKeys.uids_of k)
                  (ListKeys.subkeys k ++ [(keyid, field)]) in
              Return (ListKeys.mk (alter add_subkey i (ListKeys.keys self)) (Some i)
                        (ListKeys.fingerprints self) (ListKeys.uids self))
          end
      end
  end.

(** The local [valid_keywords] of [list_keys]. *)
Definition valid_keywords : list string := Py.split "pub uid sec fpr sub".

(** [getattr(result, keyword)(L)] for a keyword of [valid_keywords]. *)
Definition ListKeys_getattr (keyword : string) (result : ListKeys.t) (L : list string)
  : outcome ListKeys.t :=
  if String.eqb keyword "pub" || String.eqb keyword "sec" then ListKeys_key result L
  else if String.eqb keyword "uid" then ListKeys_uid result L
  else if String.eqb keyword "fpr" then ListKeys_fpr result L
  else ListKeys_sub result L.

(** The loop [for line in lines] of [GPG.list_keys]: the object and the
    lines printed when [verbose]. *)
Fixpoint list_keys_loop (verbose : bool) (lines : list string) (result : ListKeys.t)
    (printed : list string) : M (ListKeys.t * list string) :=
  match lines with
  | [] => ret (result, printed)
  | line :: lines' =>
      let printed := if verbose then printed ++ [line] else printed in
      logger DEBUG ("line: " +:+ Py.repr (Py.rstrip line)) ;;
      if negb (truthy line) then ret (result, printed)
      else
        let L := Py.split_on ":" (Py.strip line) in
        match L with
        | [] => list_keys_loop verbose lines' result printed
        | keyword :: _ =>
            if key_in keyword valid_keywords then
              match ListKeys_getattr keyword result L with
              | Return result => list_keys_loop verbose lines' result printed
              | Raise e => raise e
              end
            else list_keys_loop verbose lines' result printed
        end
  end.

(** ** The arguments of the public methods *)

(** ['"%s"' % s]: [s] between double quotes. *)
Definition dquoted (s : string) : string :=
  String Py.dquote (s +:+ String Py.dquote "").

(** The list [args] of [GPG.list_keys(secret)]. *)
Definition list_keys_args (secret : bool) : pyval :=
  let which := if secret then "secret-keys" else "keys" in
  let args := "--list-" +:+ which +:+ " --fixed-list-mode --fingerprint --with-colons" in
  PyList [args].

(** The list [args] that [GPG.sign_file] builds from its keyword
    arguments ([keyid] is [None] or a [str]), with what it logs on the
    way. *)
Definition sign_file_args (keyid : option string) (clearsign detach binary : bool)
  : M pyval :=
  let args := if binary then ["-s"] else ["-sa"] in
  args <- (if clearsign then
             let args := args ++ ["--clearsign"] in
             (if detach then
                logger DEBUG "Cannot use --clearsign and --detach-sign simultaneously." ;;
                logger DEBUG "Using default GPG behaviour: --clearsign only."
              else ret tt) ;;
             ret args
           else if detach && negb clearsign then ret (args ++ ["--detach-sign"])
           else ret args) ;;
  let args := if truthy_option keyid
              then args ++ ["--default-key " +:+ dquoted (str_of_option keyid)]
              else args in
  ret (PyList args).

(** The list [args] of [GPG.encrypt_file]; [recipients] is a [str] or a
    [list] of them, [sign] and [output] are [None] or a [str].  (An
    existing [output] file is removed on the way, which changes the file
    system and not [args].) *)
Definition encrypt_file_args (recipients : pyval) (sign : option string)
    (always_trust armor : bool) (output : option string) (symmetric : bool) : pyval :=
  let args :=
    if symmetric then ["--symmetric"]
    else
      let args := ["--encrypt"] in
      let recipients := match recipients with
                        | PyList l => l
                        | v => [str_of v]
                        end in
      args ++ ((fun recipient => "--recipient " +:+ dquoted recipient) <$> recipients) in
  let args := if armor then args ++ ["--armor"] else args in
  let args := if truthy_option output
              then args ++ ["--output " +:+ dquoted (str_of_option output)]
              else args in
  let args := if truthy_option sign
              then args ++ ["--sign --default-key " +:+ dquoted (str_of_option sign)]
              else args in
  let args := if always_trust then args ++ ["--always-trust"] else args in
  PyList args.

(** The list [args] of [GPG.decrypt_file]. *)
Definition decrypt_file_args (always_trust : bool) (output : option string) : pyval :=
  let args := ["--decrypt"] in
  let args := if truthy_option output
              then args ++ ["--output " +:+ dquoted (str_of_option output)]
              else args in
  let args := if always_trust then args ++ ["--always-trust"] else args in
  PyList args.

(** The list [args] of [GPG.delete_keys]; [fingerprints] is a [str] or a
    [list] of them. *)
Definition delete_keys_args (fingerprints : pyval) (secret : bool) : pyval :=
  let which := if secret then "secret-key" else "key" in
  let fingerprints := match fingerprints with
                      | PyList l => Py.join " " l
                      | v => str_of v
                      end in
  PyList ["--batch --delete-" +:+ which +:+ " " +:+ dquoted fingerprints].

(** The list [args] of [GPG.export_keys]; [keyids] is a [str] or a [list]
    of them. *)
Definition export_keys_args (keyids : pyval) (secret : bool) : pyval :=
  let which := if secret then "-secret-key" else "" in
  let keyids := match keyids with
                | PyList l => Py.join " " (dquoted <$> l)
                | v => str_of v
                end in
  PyList ["--armor --export" +:+ which +:+ " " +:+ keyids].

(** The one-character strings of a string: what [list.extend] adds when
    handed a [str]. *)
Definition characters (s : string) : list string :=
  (fun c => String c "") <$> list_ascii_of_string s.

(** The list [args] of [GPG.recv_keys(keyserver, *keyids)], the key ids
    being [str]: the joined key ids are handed to [args.extend]. *)
Definition recv_keys_args (keyserver : string) (keyids : list string) : pyval :=
  let args := ["--keyserver"; keyserver; "--recv-keys"] in
  let args :=
    if negb (length keyids =? 0)%nat then
      let safe_keyids :=
        Py.join " " ((fun k => str_of_option (_fix_unsafe (PyStr k))) <$> keyids) in
      args ++ characters safe_keyids
    else args in
  PyList args.

(** What [_sanitise] keeps of the tokens of one string: the flags of the
    allow-list, each followed by a space. *)
Definition kept_flags (tokens : list string) : list string :=
  (fun flag => flag +:+ " ") <$> filter (fun token => token ∈ _allowed) tokens.

(** The string that [_sanitise] makes of one [str] argument, in closed
    form; the last token decides for a string of several tokens. *)
Definition sanitised_string (arg : string) : string :=
  if 0 <? Py.find " " arg then
    match last (Py.split arg) with
    | Some final =>
        if is_flag final then Py.join " " (kept_flags (Py.split arg)) else ""
    | None => ""
    end
  else if bool_decide (arg ∈ _allowed) then arg +:+ " " else "".

(** The elements that [_sanitise_list] yields, in closed form. *)
Definition sanitised_list (arg_list : pyval) : list string :=
  match arg_list with
  | PyList l => filter (fun element => element <> "") (sanitised_string <$> l)
  | _ => []
  end.

(** ** Notions of the further properties *)

(** The events that [feed] hands to the handler: all of them up to the
    first one the handler raises on, that one included. *)
Fixpoint handled {R : Type} (handle_status : R -> string -> string -> R * option exn)
    (result : R) (events : list (string * string)) : list (string * string) :=
  match events with
  | [] => []
  | (keyword, value) :: events' =>
      match handle_status result keyword value with
      | (result, None) => (keyword, value) :: handled handle_status result events'
      | (_, Some _) => [(keyword, value)]
      end
  end.

(** The keywords that make a [Verify] object invalid. *)
Definition rejecting_keywords : list string :=
  ["BADSIG"; "ERRSIG"; "DECRYPTION_FAILED"; "NO_PUBKEY"; "EXPKEYSIG"; "REVKEYSIG"].

(** The verdict of a sequence of status events on a signature: the last
    of [GOODSIG] and the rejecting keywords decides, whatever the values. *)
Fixpoint verdict (valid : bool) (events : list (string * string)) : bool :=
  match events with
  | [] => valid
  | (keyword, _) :: events' =>
      verdict (if String.eqb keyword "GOODSIG" then true
               else if key_in keyword rejecting_keywords then false
               else valid) events'
  end.

(** The lines that [_read_response] reads from a stream: the ones before
    the first empty line. *)
Fixpoint lines_read (stream : list string) : list string :=
  match stream with
  | [] => []
  | line :: stream' =>
      if (String.length line =? 0)%nat then [] else line :: lines_read stream'
  end.

(** The fingerprints of the results of an import that carry an [ok] entry. *)
Definition ok_fingerprints (results : list (gmap string (option string))) : list string :=
  omap (fun result : gmap string (option string) =>
          match result !! "ok" with
          | Some _ => default None (result !! "fingerprint")
          | None => None
          end) results.

(** [piece] is what the copier writes for the chunk it has read: the
    chunk itself, or its encoding when the first write raised
    [UnicodeError]. *)
Definition written_for (encode : string -> outcome string) (chunk piece : string) : Prop :=
  piece = chunk \/ encode chunk = Return piece.

(** The sink after some turns of the copier's loop: it holds what it
    held and, in order, a piece for each of the first chunks of the source,
    whose buffer is as it was. *)
Definition copied_prefix (encode : string -> outcome string) (b b' : bytesio)
    (f f' : pyfile) : Prop :=
  exists k pieces,
    f_written f' = f_written f ++ pieces
    /\ Forall2 (written_for encode) (take k (chunks 1024 (bio_remaining b))) pieces
    /\ bio_buffer b' = bio_buffer b.

(** The strings of a [str] or a [list] of them are free of white space,
    as key ids, fingerprints and addresses are. *)
Definition solid_values (v : pyval) : Prop :=
  match v with
  | PyList l => Forall (fun s => solid s = true) l
  | PyStr s => solid s = true
  | PyNone => True
  end.

(** The keywords that [Crypt.handle_status] handles itself; the others
    are handed to [Verify.handle_status]. *)
Definition crypt_own_keywords : list string :=
  ["ENC_TO"; "USERID_HINT"; "GOODMDC"; "END_DECRYPTION"; "BEGIN_SIGNING";
   "NO_SECKEY"; "ERROR"; "NODATA"; "CARDCTRL"; "NEED_PASSPHRASE";
   "BAD_PASSPHRASE"; "GOOD_PASSPHRASE"; "MISSING_PASSPHRASE";
   "DECRYPTION_FAILED"; "KEY_NOT_CREATED"; "NEED_PASSPHRASE_SYM";
   "BEGIN_DECRYPTION"; "BEGIN_ENCRYPTION"; "DECRYPTION_OKAY";
   "END_ENCRYPTION"; "INV_RECP"; "KEYEXPIRED"; "SIG_CREATED"; "SIGEXPIRED"].

(** The thirteen counters of an [ImportResult], in the order of [counts]. *)
Definition counters (self : ImportResult.t) : list (option Z) :=
  [ImportResult.count self; ImportResult.no_user_id self; ImportResult.imported self;
   ImportResult.imported_rsa self; ImportResult.unchanged self;
   ImportResult.n_uids self; ImportResult.n_subk self; ImportResult.n_sigs self;
   ImportResult.n_revoc self; ImportResult.sec_read self;
   ImportResult.sec_imported self; ImportResult.sec_dups self;
   ImportResult.not_imported self].

(** A key listing holds together: the cursor is on the last key of the
    list, every fingerprint recorded in a key is in the list of
    fingerprints, and every entry of the list of user ids is a user id of
    some key. *)
Definition listing_consistent (result : ListKeys.t) : Prop :=
  ((ListKeys.curkey result = None /\ ListKeys.keys result = [])
   \/ exists i, ListKeys.curkey result = Some i
                /\ S i = length (ListKeys.keys result))
  /\ (forall key fingerprint,
        key ∈ ListKeys.keys result ->
        ListKeys.fields key !! "fingerprint" = Some fingerprint ->
        fingerprint ∈ ListKeys.fingerprints result)
  /\ (forall uid,
        uid ∈ ListKeys.uids result ->
        exists key, key ∈ ListKeys.keys result /\ uid ∈ ListKeys.uids_of key).

(** * Checks of the embedding on concrete inputs *)

Example split_demo : Py.split "  a bc   d " = ["a"; "bc"; "d"].
Proof. reflexivity. Qed.

Example split1_demo : Py.split1 "  a  b c  " = ["a"; "b c  "].
Proof. reflexivity. Qed.

Example split_on_demo : Py.split_on " " "a  b " = ["a"; ""; "b"; ""].
Proof. reflexivity. Qed.

Example repr_demo : Py.repr "FOO" = "'FOO'" /\ Py.repr "it's" = String Py.dquote "it's" +:+ String Py.dquote "".
Proof. split; reflexivity. Qed.

Example int_demo : Py.int "16" = Some 16 /\ Py.int "-3" = Some (-3) /\ Py.int "1x" = None /\ Py.int "-" = None.
Proof. repeat split; reflexivity. Qed.

Example rstrip_demo : Py.rstrip " a b  " = " a b" /\ Py.strip "  " = "".
Proof. split; reflexivity. Qed.

Example is_allowed_version :
  fst (_is_allowed (PyStr "--version") []) = Return (Some "--version").
Proof. vm_compute. reflexivity. Qed.

Example all_has_318_options : length _all = 318%nat.
Proof. vm_compute. reflexivity. Qed.

Example sanitise_demo :
  fst (_sanitise (fun _ => None) [PyStr "--bicycle --version"] []) = Return "--version "
  /\ fst (_sanitise (fun _ => None) [PyStr "--encrypt foo"] []) = Return ""
  /\ fst (_sanitise (fun _ => None) [PyStr "--bicycle"; PyStr "--version"] []) = Return " --version "
  /\ fst (_sanitise (fun _ => None) [PyList ["--version"]] []) = Return "--version ".
Proof. vm_compute. repeat split; reflexivity. Qed.

Example verify_demo :
  let '(v, e) := Verify.handle_status Verify.__init__ "EXPKEYSIG" "ABCD1234 Some One" in
  e = None /\ Verify.valid v = false /\ Verify.key_id v = Some "ABCD1234"
  /\ Verify.status v = Some "exp keysig".
Proof. vm_compute. repeat split; reflexivity. Qed.

Example verify_unknown :
  snd (Verify.handle_status Verify.__init__ "FOO" "") =
  Some (ValueError "Unknown status message: 'FOO'").
Proof. vm_compute. reflexivity. Qed.

Example verify_goodsig_short :
  Verify.handle_status Verify.__init__ "GOODSIG" "ABCD1234" =
  (Verify.set_status (Some "signature good") (Verify.set_valid true Verify.__init__),
   Some (ValueError "need more than 1 value to unpack")).
Proof. vm_compute. reflexivity. Qed.

Example import_demo :
  let '(r, e) := ImportResult.handle_status ImportResult.ok_reason_source_order
                   ImportResult.__init__ "IMPORT_OK" "3 ABCDEF" in
  e = None /\ ImportResult.fingerprints r = ["ABCDEF"]
  /\ ImportResult.__nonzero__ r = true
  /\ ImportResult.__nonzero__ ImportResult.__init__ = false.
Proof. vm_compute. repeat split; reflexivity. Qed.

Example import_res_demo :
  let '(r, e) := ImportResult.handle_status [] ImportResult.__init__ "IMPORT_RES"
                   "1 0 1 0 0 1 1 1 0 0 0 0 7 0" in
  e = None /\ ImportResult.not_imported r = Some 7 /\ ImportResult.count r = Some 1.
Proof. vm_compute. repeat split; reflexivity. Qed.

(** * Properties *)

(** A closed decidable proposition, settled by evaluating its decision. *)
Ltac by_decision :=
  match goal with
  | |- ?P => apply (bool_decide_unpack P); vm_compute; exact I
  end.

(** ** The escaping transform *)

Lemma unsafe_is_outside_safe_set (c : ascii) : _unsafe c = negb (in_safe_set c).
Proof. destruct c as [[] [] [] [] [] [] [] []]; vm_compute; reflexivity. Qed.

Lemma findall_unsafe_none (s : string) :
  (length (findall _unsafe s) =? 0)%nat = string_forall in_safe_set s.
Proof.
  induction s as [|a s IH]; simpl; [reflexivity|].
  rewrite unsafe_is_outside_safe_set.
  destruct (in_safe_set a); simpl; [exact IH | reflexivity].
Qed.

Lemma replace_quote_escape (s : string) :
  Py.replace Py.squote quote_escape s = escape_quotes s.
Proof.
  unfold escape_quotes.
  induction s as [|a s IH]; simpl; [reflexivity|].
  destruct (Ascii.eqb a Py.squote); simpl; rewrite IH; reflexivity.
Qed.

(** C2. A string made only of characters of [[A-Za-z0-9@%+=:,./_-]] is
    returned unchanged by [_fix_unsafe]; a string with a character outside
    that set is returned with every single quote replaced by the five
    characters of [quote_escape] and the whole wrapped in single quotes. *)
Theorem fix_unsafe_escaping (s : string) :
  (string_forall in_safe_set s = true -> _fix_unsafe (PyStr s) = Some s)
  /\ (string_forall in_safe_set s = false ->
      _fix_unsafe (PyStr s) = Some ("'" +:+ escape_quotes s +:+ "'")
      /\ String.length quote_escape = 5%nat).
Proof.
  unfold _fix_unsafe. rewrite findall_unsafe_none, replace_quote_escape.
  split; intros ->; [reflexivity | split; reflexivity].
Qed.

Lemma fix_unsafe_escaping_witness :
  _fix_unsafe (PyStr "key-1@example.org") = Some "key-1@example.org"
  /\ _fix_unsafe (PyStr "it's; rm") =
     Some (String Py.squote "it" +:+ quote_escape +:+ "s; rm" +:+ String Py.squote "").
Proof.
  split.
  - apply (proj1 (fix_unsafe_escaping "key-1@example.org")). reflexivity.
  - apply (proj2 (fix_unsafe_escaping "it's; rm")). reflexivity.
Defined.

(** ** The argument sanitiser *)

Lemma allowed_subset_possible : bool_decide (_allowed ⊆ _possible) = true.
Proof. vm_compute. reflexivity. Qed.

Lemma is_allowed_protected (f : string) (log : list log_record) :
  f ∉ _allowed -> Py.find "_" f <= 0 ->
  _is_allowed (PyStr f) log =
  (Raise (ProtectedOption ("Option '" +:+ str_of_option (_fix_unsafe (PyStr f))
                           +:+ "' not supported.")),
   log ++ [(WARNING, "Dropping option '" +:+ str_of_option (_fix_unsafe (PyStr f)) +:+ "'...")]).
Proof.
  intros Hf Hu. unfold _is_allowed.
  rewrite allowed_subset_possible.
  unfold bind at 1. unfold ret at 1. unfold bind at 1. unfold ret at 1.
  replace (0 <? Py.find "_" f) with false by (symmetry; apply Z.ltb_ge; exact Hu).
  rewrite bool_decide_eq_false_2 by exact Hf.
  reflexivity.
Qed.

Lemma allowed_flags_plain (f : string) :
  f ∈ _allowed ->
  Py.find "_" f = -1 /\ Py.find " " f = -1 /\ _fix_unsafe (PyStr f) = Some f.
Proof.
  intros Hf. unfold _allowed in Hf.
  repeat (apply elem_of_cons in Hf as [->|Hf]; [vm_compute; repeat split; reflexivity|]).
  apply elem_of_nil in Hf. destruct Hf.
Qed.

Lemma is_allowed_accepts (f : string) (log : list log_record) :
  f ∈ _allowed ->
  _is_allowed (PyStr f) log =
  (Return (Some f), log ++ [(DEBUG, "Got allowed option '" +:+ f +:+ "'.")]).
Proof.
  intros Hf. destruct (allowed_flags_plain f Hf) as (Hu & _ & Hfix).
  unfold _is_allowed. rewrite allowed_subset_possible.
  unfold bind at 1. unfold ret at 1. unfold bind at 1. unfold ret at 1.
  rewrite Hu, Hfix. change (0 <? -1) with false. cbv iota.
  rewrite bool_decide_eq_true_2 by exact Hf.
  reflexivity.
Qed.

Section SanitiserFacts.
Variable lstat_size : string -> option Z.

Lemma check_arg_dropped (f : string) (value : option string) (log : list log_record) :
  f ∉ _allowed -> Py.find "_" f <= 0 ->
  _check_arg_and_value lstat_size f value log =
  (Return "",
   log ++ [(WARNING, "Dropping option '" +:+ str_of_option (_fix_unsafe (PyStr f)) +:+ "'...");
           (WARNING, "Option '" +:+ str_of_option (_fix_unsafe (PyStr f)) +:+ "' not supported.");
           (DEBUG, "Dropping option '" +:+ str_of_option (_fix_unsafe (PyStr f)) +:+ "'...")]).
Proof.
  intros Hf Hu. unfold _check_arg_and_value, bind, try.
  rewrite (is_allowed_protected f log Hf Hu).
  unfold logger, ret. rewrite <- !app_assoc. reflexivity.
Qed.

Lemma sanitise_arg_dropped (f : string) (checked : list string) (log : list log_record) :
  f ∉ _allowed -> Py.find "_" f <= 0 -> Py.find " " f <= 0 ->
  _sanitise_arg lstat_size (PyStr f) checked log =
  (Return (checked ++ [""]), log ++ dropped_records f).
Proof.
  intros Hf Hu Hs. unfold _sanitise_arg, bind, logger.
  replace (0 <? Py.find " " f) with false by (symmetry; apply Z.ltb_ge; exact Hs).
  rewrite (check_arg_dropped f None
             (log ++ [(DEBUG, "_sanitise(): Got arg string: " +:+ f)]) Hf Hu).
  unfold ret, dropped_records. rewrite <- !app_assoc. reflexivity.
Qed.

Lemma bind_on_return {A B C} (f : B -> C) (m : M A) (k1 : A -> M C) (k2 : A -> M B)
    (log : list log_record) :
  (forall a l, k1 a l = on_return f (k2 a l)) ->
  bind m k1 log = on_return f (bind m k2 log).
Proof.
  intros Hk. unfold bind. destruct (m log) as [[a|e] l]; [apply Hk | reflexivity].
Qed.

Lemma while_filo_frame (pre : list string) (fuel : nat) :
  forall filo new_arg new_value checked log,
    while_filo lstat_size fuel filo new_arg new_value (pre ++ checked) log =
    on_return (app pre) (while_filo lstat_size fuel filo new_arg new_value checked log).
Proof.
  induction fuel as [|fuel IH]; intros; [reflexivity|].
  cbn [while_filo]. destruct (bool_decide (0 < length filo)%nat); [|reflexivity].
  apply bind_on_return; intros head l1.
  apply bind_on_return; intros [[filo' new_arg'] new_value'] l2.
  apply bind_on_return; intros safe l3.
  destruct (negb (String.eqb (Py.strip safe) "")).
  - unfold bind, logger, ret. rewrite <- app_assoc. apply IH.
  - unfold bind, ret. apply IH.
Qed.

Lemma for_each_frame {A} (body : A -> list string -> M (list string)) (pre : list string) :
  (forall a checked log,
      body a (pre ++ checked) log = on_return (app pre) (body a checked log)) ->
  forall xs checked log,
    for_each xs body (pre ++ checked) log = on_return (app pre) (for_each xs body checked log).
Proof.
  intros Hbody xs. induction xs as [|x xs IH]; intros; [reflexivity|].
  cbn [for_each]. unfold bind. rewrite Hbody.
  destruct (body x checked log) as [[checked'|e] l1]; [apply IH | reflexivity].
Qed.

Lemma append_checked_frame (pre checked : list string) (arg : string) (value : option string)
    (log : list log_record) :
  (safe <- _check_arg_and_value lstat_size arg value ;;
   logger DEBUG ("_sanitise(): appending args: " +:+ safe) ;;
   ret ((pre ++ checked) ++ [safe])) log =
  on_return (app pre)
    ((safe <- _check_arg_and_value lstat_size arg value ;;
      logger DEBUG ("_sanitise(): appending args: " +:+ safe) ;;
      ret (checked ++ [safe])) log).
Proof.
  apply bind_on_return; intros safe l1.
  unfold bind, logger, ret. rewrite <- app_assoc. reflexivity.
Qed.

Lemma sanitise_arg_frame (pre : list string) (arg : pyval) (checked : list string)
    (log : list log_record) :
  _sanitise_arg lstat_size arg (pre ++ checked) log =
  on_return (app pre) (_sanitise_arg lstat_size arg checked log).
Proof.
  destruct arg as [|s|l]; cbn [_sanitise_arg].
  - reflexivity.
  - apply bind_on_return; intros _ l1.
    destruct (0 <? Py.find " " s);
      [apply while_filo_frame | apply append_checked_frame].
  - apply bind_on_return; intros _ l1.
    apply for_each_frame. intros a c l0.
    destruct (Py.startswith "--" a); [apply append_checked_frame | reflexivity].
Qed.

Lemma sanitise_checked_dropped (f : string) (rest : list pyval) (log : list log_record) :
  f ∉ _allowed -> Py.find "_" f <= 0 -> Py.find " " f <= 0 ->
  _sanitise_checked lstat_size (PyStr f :: rest) log =
  on_return (cons "") (_sanitise_checked lstat_size rest (log ++ dropped_records f)).
Proof.
  intros Hf Hu Hs. unfold _sanitise_checked. cbn [for_each]. unfold bind at 1.
  rewrite (sanitise_arg_dropped f [] log Hf Hu Hs).
  change ([] ++ [""]) with ([""] ++ @nil string).
  apply (for_each_frame (_sanitise_arg lstat_size) [""]).
  intros. apply sanitise_arg_frame.
Qed.

End SanitiserFacts.

Lemma check_arg_allowed (lstat_size : string -> option Z) (f : string)
    (log : list log_record) :
  f ∈ _allowed ->
  _check_arg_and_value lstat_size f None log =
  (Return (f +:+ " "), log ++ [(DEBUG, "Got allowed option '" +:+ f +:+ "'.")]).
Proof.
  intros Hf. unfold _check_arg_and_value, bind, try.
  rewrite (is_allowed_accepts f log Hf). reflexivity.
Qed.

Lemma sanitise_allowed_flag (lstat_size : string -> option Z) (f : string)
    (log : list log_record) :
  f ∈ _allowed -> fst (_sanitise lstat_size [PyStr f] log) = Return (f +:+ " ").
Proof.
  intros Hf. destruct (allowed_flags_plain f Hf) as (_ & Hs & _).
  unfold _sanitise, _sanitise_checked. cbn [for_each]. unfold _sanitise_arg.
  rewrite Hs. change (0 <? -1) with false. cbv iota.
  unfold bind, logger.
  rewrite (check_arg_allowed lstat_size f
             (log ++ [(DEBUG, "_sanitise(): Got arg string: " +:+ f)]) Hf).
  reflexivity.
Qed.

(** C1, as the code has it.  For a flag [f] of the allow-list,
    [_sanitise(f)] is [f] followed by one space.  For a flag [f] outside the
    allow-list (one token, no underscore past its first character),
    [_is_allowed] raises [ProtectedOption], [_sanitise(f)] is the empty
    string, and in a call with further arguments the flag leaves an empty
    entry and the remaining arguments are processed as they are without it. *)
Theorem sanitise_allowed_and_dropped (lstat_size : string -> option Z) (f : string)
    (log : list log_record) :
  (f ∈ _allowed -> fst (_sanitise lstat_size [PyStr f] log) = Return (f +:+ " "))
  /\ (f ∉ _allowed -> Py.find "_" f <= 0 -> Py.find " " f <= 0 ->
      (exists msg, fst (_is_allowed (PyStr f) log) = Raise (ProtectedOption msg))
      /\ fst (_sanitise lstat_size [PyStr f] log) = Return ""
      /\ forall rest,
          _sanitise_checked lstat_size (PyStr f :: rest) log =
          on_return (cons "")
            (_sanitise_checked lstat_size rest (log ++ dropped_records f))).
Proof.
  split; [apply sanitise_allowed_flag|].
  intros Hf Hu Hs. split; [|split].
  - rewrite (is_allowed_protected f log Hf Hu). eexists. reflexivity.
  - unfold _sanitise, bind.
    rewrite (sanitise_checked_dropped lstat_size f [] log Hf Hu Hs). reflexivity.
  - intros rest. apply sanitise_checked_dropped; assumption.
Qed.

Lemma sanitise_allowed_and_dropped_witness :
  fst (_sanitise (fun _ => None) [PyStr "--version"] []) = Return "--version "
  /\ fst (_sanitise (fun _ => None) [PyStr "--bicycle"] []) = Return ""
  /\ fst (_sanitise_checked (fun _ => None) [PyStr "--bicycle"; PyStr "--version"] [])
     = Return [""; "--version "].
Proof.
  assert (Hin : "--version" ∈ _allowed) by by_decision.
  assert (Hout : "--bicycle" ∉ _allowed) by by_decision.
  split; [|split].
  - apply (proj1 (sanitise_allowed_and_dropped (fun _ => None) "--version" []) Hin).
  - apply (proj2 (sanitise_allowed_and_dropped (fun _ => None) "--bicycle" []) Hout);
      vm_compute; discriminate.
  - destruct (proj2 (sanitise_allowed_and_dropped (fun _ => None) "--bicycle" []) Hout)
      as (_ & _ & Hrest); [vm_compute; discriminate | vm_compute; discriminate |].
    rewrite Hrest. vm_compute. reflexivity.
Defined.

(** C1, as the claim states it, fails: on the allowed flag [--version] the
    sanitiser returns the flag with a space after it, not the flag itself. *)
Lemma sanitise_allowed_not_identity :
  ("--version" ∈ _allowed)
  /\ fst (_sanitise (fun _ => None) [PyStr "--version"] []) = Return "--version "
  /\ fst (_sanitise (fun _ => None) [PyStr "--version"] []) <> Return "--version".
Proof.
  split; [by_decision|].
  split; [vm_compute; reflexivity | vm_compute; discriminate].
Qed.

(** C5 at attribute-style names: [list_keys] and [--with_colons]
    normalise to flags of the allow-list, yet [_is_allowed] returns [None]
    for both without logging, and [_sanitise] drops the option. *)
Theorem is_allowed_attribute_style_returns_None :
  _hyphenate "list_keys" true = "--list-keys"
  /\ ("--list-keys" ∈ _allowed)
  /\ _is_allowed (PyStr "list_keys") [] = (Return None, [])
  /\ _hyphenate "--with_colons" false = "--with-colons"
  /\ ("--with-colons" ∈ _allowed)
  /\ _is_allowed (PyStr "--with_colons") [] = (Return None, [])
  /\ fst (_sanitise (fun _ => None) [PyStr "list_keys"] []) = Return ""
  /\ fst (_sanitise (fun _ => None) [PyStr "--with_colons"] []) = Return "".
Proof.
  split; [vm_compute; reflexivity|].
  split; [by_decision|].
  split; [vm_compute; reflexivity|].
  split; [vm_compute; reflexivity|].
  split; [by_decision|].
  split; [vm_compute; reflexivity|].
  split; vm_compute; reflexivity.
Qed.

(** ** The status handlers *)

Lemma key_in_false (key : string) (keys : list string) :
  key ∉ keys -> key_in key keys = false.
Proof. intros H. apply bool_decide_eq_false_2. exact H. Qed.

Lemma eqb_false (key k : string) : key <> k -> String.eqb key k = false.
Proof. apply String.eqb_neq. Qed.

(** From [H : key ∉ [k1; k2; ...]] to one hypothesis [key <> ki] per keyword. *)
Ltac split_not_in H :=
  repeat (apply not_elem_of_cons in H as [? H]); clear H.

(** Goals [key ∉ [k1; ...]] from such hypotheses. *)
Ltac solve_not_in :=
  repeat (apply not_elem_of_cons; split; [assumption|]); apply not_elem_of_nil.

Ltac skip_branches :=
  repeat first
    [ rewrite key_in_false by solve_not_in
    | rewrite eqb_false by assumption ].

Lemma trust_levels_unknown (key : string) :
  key ∉ ["TRUST_UNDEFINED"; "TRUST_NEVER"; "TRUST_MARGINAL"; "TRUST_FULLY";
         "TRUST_ULTIMATE"] ->
  Verify.TRUST_LEVELS !! key = None.
Proof. intros H. apply not_elem_of_list_to_map_1. exact H. Qed.

Lemma verify_unknown_keyword (self : Verify.t) (key value : string) :
  key ∉ Verify.keywords ->
  Verify.handle_status self key value = (self, Some (unknown_status_message key)).
Proof.
  intros H. unfold Verify.keywords in H. split_not_in H.
  unfold Verify.handle_status.
  rewrite trust_levels_unknown by solve_not_in.
  skip_branches. reflexivity.
Qed.

Lemma crypt_unknown_keyword (self : Crypt.t) (key value : string) :
  key ∉ Crypt.keywords ->
  Crypt.handle_status self key value = (self, Some (unknown_status_message key)).
Proof.
  intros H. unfold Crypt.keywords in H. apply not_elem_of_app in H as [H Hv].
  split_not_in H. unfold Crypt.handle_status. skip_branches.
  rewrite (verify_unknown_keyword _ key value Hv). destruct self; reflexivity.
Qed.

Lemma genkey_unknown_keyword (self : GenKey.t) (key value : string) :
  key ∉ GenKey.keywords ->
  GenKey.handle_status self key value = (self, Some (unknown_status_message key)).
Proof.
  intros H. unfold GenKey.keywords in H. split_not_in H.
  unfold GenKey.handle_status. skip_branches. reflexivity.
Qed.

Lemma delete_unknown_keyword (self : DeleteResult.t) (key value : string) :
  key ∉ DeleteResult.keywords ->
  DeleteResult.handle_status self key value = (self, Some (unknown_status_message key)).
Proof.
  intros H. unfold DeleteResult.keywords in H. split_not_in H.
  unfold DeleteResult.handle_status. skip_branches. reflexivity.
Qed.

Lemma sign_unknown_keyword (self : Sign.t) (key value : string) :
  key ∉ Sign.keywords ->
  Sign.handle_status self key value = (self, Some (unknown_status_message key)).
Proof.
  intros H. unfold Sign.keywords in H. split_not_in H.
  unfold Sign.handle_status. skip_branches. reflexivity.
Qed.

Lemma import_unknown_keyword (items : list (string * string)) (self : ImportResult.t)
    (key value : string) :
  key ∉ ImportResult.keywords ->
  ImportResult.handle_status items self key value =
  (self, Some (unknown_status_message key)).
Proof.
  intros H. unfold ImportResult.keywords in H. split_not_in H.
  unfold ImportResult.handle_status. skip_branches. reflexivity.
Qed.

(** C3, as the code has it.  The handlers of [Verify], [Crypt], [GenKey],
    [Sign], [ImportResult] and [DeleteResult] raise [ValueError] with the
    message [Unknown status message: <repr of the keyword>] on a keyword
    they have no branch for, and leave the object as it was;
    [ListKeys.handle_status] ignores every event. *)
Theorem unknown_keyword_raises (items : list (string * string)) (r : GPG.result)
    (key value : string) :
  ((forall l, r <> GPG.RList l) -> key ∉ GPG.keywords r ->
   GPG.handle_status items r key value =
   (r, Some (ValueError ("Unknown status message: " +:+ Py.repr key))))
  /\ (forall l, GPG.handle_status items (GPG.RList l) key value = (GPG.RList l, None)).
Proof.
  split; [|reflexivity].
  intros Hr H. destruct r as [c|d|g|i|l|s|v]; cbn [GPG.keywords] in H;
    cbn [GPG.handle_status].
  - rewrite (crypt_unknown_keyword c key value H). reflexivity.
  - rewrite (delete_unknown_keyword d key value H). reflexivity.
  - rewrite (genkey_unknown_keyword g key value H). reflexivity.
  - rewrite (import_unknown_keyword items i key value H). reflexivity.
  - destruct (Hr l). reflexivity.
  - rewrite (sign_unknown_keyword s key value H). reflexivity.
  - rewrite (verify_unknown_keyword v key value H). reflexivity.
Qed.

Lemma unknown_keyword_raises_witness :
  GPG.handle_status [] (GPG.RSign Sign.__init__) "GOODSIG" "" =
  (GPG.RSign Sign.__init__, Some (ValueError "Unknown status message: 'GOODSIG'")).
Proof.
  apply (proj1 (unknown_keyword_raises [] (GPG.RSign Sign.__init__) "GOODSIG" "")).
  - discriminate.
  - by_decision.
Defined.

(** C3, as the claim states it, fails for [ListKeys]: a keyword outside
    its (empty) set of keywords raises nothing. *)
Lemma list_keys_ignores_unknown_keyword :
  ("FOO" ∉ GPG.keywords (GPG.RList ListKeys.__init__))
  /\ GPG.handle_status [] (GPG.RList ListKeys.__init__) "FOO" "bar" =
     (GPG.RList ListKeys.__init__, None)
  /\ snd (GPG.handle_status [] (GPG.RList ListKeys.__init__) "FOO" "bar") <>
     Some (ValueError "Unknown status message: 'FOO'").
Proof.
  split; [apply not_elem_of_nil|]. split; [reflexivity | discriminate].
Qed.

(** *** Tokens of [split] *)

Lemma split_go_blank (lead s : string) :
  blank lead = true -> Py.split_go [] (lead +:+ s) = Py.split_go [] s.
Proof.
  induction lead as [|a lead IH]; intros H; [reflexivity|].
  apply andb_true_iff in H as [Ha H].
  change (Py.split_go [] (String a (lead +:+ s)) = Py.split_go [] s).
  cbn [Py.split_go]. rewrite Ha. apply IH, H.
Qed.

Lemma split_go_solid (token s : string) :
  forall cur, solid token = true ->
  Py.split_go cur (token +:+ s) =
  Py.split_go (rev (list_ascii_of_string token) ++ cur) s.
Proof.
  induction token as [|a token IH]; intros cur H; [reflexivity|].
  apply andb_true_iff in H as [Ha H]. apply negb_true_iff in Ha.
  change (Py.split_go cur (String a (token +:+ s)) =
          Py.split_go (rev (a :: list_ascii_of_string token) ++ cur) s).
  cbn [Py.split_go rev]. rewrite Ha.
  rewrite (IH (a :: cur) H), <- app_assoc. reflexivity.
Qed.

Lemma split_go_flush (cur : list ascii) (rest : string) :
  cur <> [] -> blank (Py.slice_to 1 rest) = true ->
  exists more, Py.split_go cur rest = string_of_list_ascii (rev cur) :: more.
Proof.
  intros Hcur Hrest. destruct cur as [|c cur]; [congruence|].
  destruct rest as [|a rest]; cbn [Py.split_go].
  - eexists. reflexivity.
  - apply andb_true_iff in Hrest as [Hrest _]. rewrite Hrest. eexists. reflexivity.
Qed.

Lemma split_first_token (value token : string) :
  first_token value token -> exists more, Py.split value = token :: more.
Proof.
  intros (lead & rest & -> & Hlead & Htoken & Hne & Hrest).
  unfold Py.split. rewrite (split_go_blank lead _ Hlead).
  rewrite (split_go_solid token rest [] Htoken), app_nil_r.
  destruct (split_go_flush (rev (list_ascii_of_string token)) rest) as [more Hmore].
  - destruct token; [congruence|]. cbn [list_ascii_of_string rev].
    intros E. apply app_eq_nil in E as [_ E]. discriminate.
  - exact Hrest.
  - exists more. rewrite Hmore, rev_involutive, string_of_list_ascii_of_string.
    reflexivity.
Qed.

Lemma split_blank (value : string) : blank value = true -> Py.split value = [].
Proof.
  unfold Py.split. induction value as [|a value IH]; intros H; [reflexivity|].
  apply andb_true_iff in H as [Ha H]. cbn [Py.split_go]. rewrite Ha. apply IH, H.
Qed.

(** A value is blank, or it has a first token. *)
Lemma blank_or_first_token (value : string) :
  blank value = true \/ exists token, first_token value token.
Proof.
  induction value as [|a value IH]; [left; reflexivity|].
  destruct (Py.isspace a) eqn:Ha.
  - destruct IH as [Hblank | (token & lead & rest & -> & Hlead & Htoken & Hne & Hrest)].
    + left. unfold blank. cbn [string_forall]. rewrite Ha. exact Hblank.
    + right. exists token, (String a lead), rest.
      split; [reflexivity|]. split; [|repeat split; assumption].
      unfold blank. cbn [string_forall]. rewrite Ha. exact Hlead.
  - right.
    destruct IH as [Hblank | (token & lead & rest & -> & Hlead & Htoken & Hne & Hrest)].
    + exists (String a ""), "", value.
      split; [reflexivity|]. split; [reflexivity|].
      split; [unfold solid; cbn [string_forall]; rewrite Ha; reflexivity|].
      split; [discriminate|].
      destruct value as [|b value]; [reflexivity|].
      apply andb_true_iff in Hblank as [Hb _].
      unfold blank. cbn [Py.slice_to string_forall]. rewrite Hb. reflexivity.
    + destruct lead as [|b lead].
      * exists (String a token), "", rest.
        split; [reflexivity|]. split; [reflexivity|].
        split; [unfold solid; cbn [string_forall]; rewrite Ha; exact Htoken|].
        split; [discriminate | exact Hrest].
      * exists (String a ""), "", (String b lead +:+ token +:+ rest).
        split; [reflexivity|]. split; [reflexivity|].
        split; [unfold solid; cbn [string_forall]; rewrite Ha; reflexivity|].
        split; [discriminate|].
        apply andb_true_iff in Hlead as [Hb _].
        change (Py.slice_to 1 (String b lead +:+ token +:+ rest)) with (String b "").
        unfold blank. cbn [string_forall]. rewrite Hb. reflexivity.
Qed.

(** The branch of [EXPKEYSIG] and [REVKEYSIG], by the tokens of the value. *)
Lemma verify_revoked_or_expired_key (self : Verify.t) (key value : string) :
  key ∈ ["EXPKEYSIG"; "REVKEYSIG"] ->
  Verify.handle_status self key value =
  match Py.split value with
  | first :: _ =>
      (Verify.set_status
         (Some (if String.eqb key "EXPKEYSIG" then "exp keysig" else "rev keysig"))
         (Verify.set_key_id (Some first) (Verify.set_valid false self)),
       None)
  | [] => (Verify.set_valid false self, Some (IndexError "list index out of range"))
  end.
Proof.
  intros H.
  apply elem_of_cons in H as [->|H]; [|apply list_elem_of_singleton in H as ->];
    unfold Verify.handle_status; destruct (Py.split value) as [|first more];
    vm_compute; reflexivity.
Qed.

(** C7, as the code has it.  [Verify.handle_status] leaves the object as it
    is on [KEYEXPIRED] and [SIGEXPIRED].  On [EXPKEYSIG] and [REVKEYSIG] it
    sets [valid] to [False] and leaves every attribute other than [valid],
    [key_id] and [status] as it was; when the value has a first
    whitespace-delimited token, [key_id] becomes that token, [status]
    becomes [exp keysig], respectively [rev keysig], and nothing is raised;
    when the value is empty or blank, [IndexError] is raised once [valid] is
    set, and [key_id] and [status] are left as they were.  Every value is
    of one of the two kinds. *)
Theorem verify_expiry_events (self : Verify.t) (key value : string) :
  (key ∈ ["KEYEXPIRED"; "SIGEXPIRED"] ->
   Verify.handle_status self key value = (self, None))
  /\ (key ∈ ["EXPKEYSIG"; "REVKEYSIG"] ->
      Verify.valid (Verify.handle_status self key value).1 = false
      /\ (Verify.fingerprint (Verify.handle_status self key value).1
          = Verify.fingerprint self
          /\ Verify.creation_date (Verify.handle_status self key value).1
             = Verify.creation_date self
          /\ Verify.timestamp (Verify.handle_status self key value).1
             = Verify.timestamp self
          /\ Verify.signature_id (Verify.handle_status self key value).1
             = Verify.signature_id self
          /\ Verify.username (Verify.handle_status self key value).1
             = Verify.username self
          /\ Verify.pubkey_fingerprint (Verify.handle_status self key value).1
             = Verify.pubkey_fingerprint self
          /\ Verify.expire_timestamp (Verify.handle_status self key value).1
             = Verify.expire_timestamp self
          /\ Verify.sig_timestamp (Verify.handle_status self key value).1
             = Verify.sig_timestamp self
          /\ Verify.trust_text (Verify.handle_status self key value).1
             = Verify.trust_text self
          /\ Verify.trust_level (Verify.handle_status self key value).1
             = Verify.trust_level self)
      /\ (forall token, first_token value token ->
            (Verify.handle_status self key value).2 = None
            /\ Verify.key_id (Verify.handle_status self key value).1 = Some token
            /\ Verify.status (Verify.handle_status self key value).1 =
               Some (if String.eqb key "EXPKEYSIG" then "exp keysig" else "rev keysig"))
      /\ (blank value = true ->
            (Verify.handle_status self key value).2 =
            Some (IndexError "list index out of range")
            /\ Verify.key_id (Verify.handle_status self key value).1 = Verify.key_id self
            /\ Verify.status (Verify.handle_status self key value).1
               = Verify.status self))
  /\ (blank value = true \/ exists token, first_token value token).
Proof.
  split; [|split; [|apply blank_or_first_token]].
  - intros H. apply elem_of_cons in H as [->|H]; [destruct self; reflexivity|].
    apply list_elem_of_singleton in H as ->. destruct self; reflexivity.
  - intros H. rewrite (verify_revoked_or_expired_key self key value H).
    split; [|split; [|split]].
    + destruct (Py.split value); reflexivity.
    + destruct (Py.split value); repeat split; reflexivity.
    + intros token Htoken.
      destruct (split_first_token value token Htoken) as [more ->].
      repeat split; reflexivity.
    + intros Hblank. rewrite (split_blank value Hblank). repeat split; reflexivity.
Qed.

Lemma verify_expiry_events_witness :
  let good := (Verify.handle_status Verify.__init__ "GOODSIG" "ABCD1234 Some One").1 in
  let after := (Verify.handle_status good "REVKEYSIG" "FFFF0000 Other").1 in
  Verify.handle_status good "KEYEXPIRED" "ABCD1234 1361000000" = (good, None)
  /\ Verify.valid good = true
  /\ Verify.valid after = false
  /\ Verify.username after = Verify.username good
  /\ (Verify.handle_status good "REVKEYSIG" "FFFF0000 Other").2 = None
  /\ Verify.key_id after = Some "FFFF0000"
  /\ Verify.status after = Some "rev keysig".
Proof.
  intros good after.
  destruct (verify_expiry_events good "REVKEYSIG" "FFFF0000 Other")
    as (_ & Hrevoked & _).
  destruct Hrevoked as (Hvalid & Hframe & Htoken & _); [by_decision|].
  destruct Hframe as (_ & _ & _ & _ & Husername & _).
  destruct (Htoken "FFFF0000") as (Hnone & Hkey & Hstatus).
  { exists "", " Other". repeat split; try reflexivity. discriminate. }
  split.
  - apply (proj1 (verify_expiry_events good "KEYEXPIRED" "ABCD1234 1361000000")).
    by_decision.
  - split; [reflexivity|]. split; [exact Hvalid|]. split; [exact Husername|].
    split; [exact Hnone|]. split; [exact Hkey | exact Hstatus].
Defined.

(** C7, as the claim states it, fails: [EXPKEYSIG] with an empty value makes
    a valid object invalid and then raises [IndexError]; [key_id] is not
    set to a token of the value and [status] is not set at all. *)
Lemma expired_key_signature_without_key_id :
  let good := (Verify.handle_status Verify.__init__ "GOODSIG" "ABCD1234 Some One").1 in
  let after := (Verify.handle_status good "EXPKEYSIG" "").1 in
  Verify.valid good = true
  /\ (Verify.handle_status good "EXPKEYSIG" "").2 = Some (IndexError "list index out of range")
  /\ Verify.valid after = false
  /\ Verify.key_id after = Some "ABCD1234"
  /\ Verify.status after = Some "signature good".
Proof. vm_compute. repeat split; reflexivity. Qed.

(** *** [Crypt]: truth value and the [ok] flag *)

Lemma verify_branch_keeps_ok (self : Crypt.t) (key value : string) :
  Crypt.ok (let '(base, e) := Verify.handle_status self.(Crypt.verify) key value in
            (Crypt.set_verify base self, e)).1 = Crypt.ok self.
Proof. destruct (Verify.handle_status _ key value). reflexivity. Qed.

Lemma crypt_ok_frame (self : Crypt.t) (key value : string) :
  key ∉ ["DECRYPTION_OKAY"; "END_ENCRYPTION"] ->
  Crypt.ok (Crypt.handle_status self key value).1 = Crypt.ok self.
Proof.
  intros H. split_not_in H. unfold Crypt.handle_status.
  rewrite (eqb_false key "DECRYPTION_OKAY"), (eqb_false key "END_ENCRYPTION") by assumption.
  repeat match goal with
         | |- context [if ?c then _ else _] => destruct c
         end;
    try reflexivity.
  apply verify_branch_keeps_ok.
Qed.

Lemma crypt_ok_set (self : Crypt.t) (key value : string) :
  key ∈ ["DECRYPTION_OKAY"; "END_ENCRYPTION"] ->
  Crypt.handle_status self key value =
  (Crypt.set_ok true
     (Crypt.set_status
        (Some (if String.eqb key "DECRYPTION_OKAY" then "decryption ok" else "encryption ok"))
        self), None).
Proof.
  intros H. apply elem_of_cons in H as [->|H]; [reflexivity|].
  apply list_elem_of_singleton in H as ->. reflexivity.
Qed.

Lemma feed_keeps_ok (events : list (string * string)) :
  forall self,
    Forall (fun event => event.1 ∉ ["DECRYPTION_OKAY"; "END_ENCRYPTION"]) events ->
    Crypt.ok (feed Crypt.handle_status self events).1 = Crypt.ok self.
Proof.
  induction events as [|[keyword value] events IH]; intros self H; [reflexivity|].
  apply Forall_cons in H as [Hk H]. cbn [feed].
  pose proof (crypt_ok_frame self keyword value Hk) as Hstep.
  destruct (Crypt.handle_status self keyword value) as [self' [e|]]; cbn [fst] in *.
  - exact Hstep.
  - rewrite (IH self' H). exact Hstep.
Qed.

(** *** [ImportResult]: truth value *)

Lemma counts_names :
  ImportResult.counts =
  ["count"; "no_user_id"; "imported"; "imported_rsa"; "unchanged"; "n_uids";
   "n_subk"; "n_sigs"; "n_revoc"; "sec_read"; "sec_imported"; "sec_dups";
   "not_imported"].
Proof. vm_compute. reflexivity. Qed.

Lemma import_truth (self : ImportResult.t) :
  ImportResult.__nonzero__ self = true <->
  (ImportResult.not_imported self = None \/ ImportResult.not_imported self = Some 0)
  /\ ImportResult.fingerprints self <> [].
Proof.
  unfold ImportResult.__nonzero__, ImportResult.truth.
  destruct (ImportResult.not_imported self) as [n|];
    [destruct (Z.eqb_spec n 0) as [->|Hn]|];
    destruct (ImportResult.fingerprints self); cbn;
    split; try discriminate; try (intros [[?|?] ?]; congruence);
    intros _; split; try congruence; auto.
Qed.

Lemma import_res_sets_counts (items : list (string * string)) (self : ImportResult.t)
    (value : string) (ns : list Z) (n : Z) :
  import_counters value ns -> ns !! 12%nat = Some n ->
  exists self',
    ImportResult.handle_status items self "IMPORT_RES" value = (self', None)
    /\ ImportResult.not_imported self' = Some n
    /\ ImportResult.fingerprints self' = ImportResult.fingerprints self.
Proof.
  intros [Hlen Hall] Hn. apply mapM_Some in Hall.
  change (ImportResult.handle_status items self "IMPORT_RES" value)
    with (ImportResult.set_counts ImportResult.counts 0 (Py.split value) self).
  rewrite counts_names.
  destruct (Py.split value) as [|t0 [|t1 [|t2 [|t3 [|t4 [|t5 [|t6 [|t7 [|t8 [|t9
    [|t10 [|t11 [|t12 tokens]]]]]]]]]]]]];
    cbn [take] in Hall;
    try (apply Forall2_length in Hall; cbn in Hall; rewrite Hlen in Hall; discriminate).
  repeat match goal with
         | H : Forall2 _ (_ :: _) _ |- _ =>
             apply Forall2_cons_inv_l in H as (? & ? & ? & H & ->)
         end.
  apply Forall2_nil_inv_l in Hall as ->.
  cbn in Hn. injection Hn as ->.
  cbn [ImportResult.set_counts lookup list_lookup].
  repeat match goal with
         | H : Py.int _ = Some _ |- _ => rewrite H; clear H
         end.
  eexists. split; [reflexivity|]. split; reflexivity.
Qed.

(** C10. An [ImportResult] is true exactly when [not_imported] is [None]
    or [0] and [fingerprints] is not empty; it is false when fresh, and
    false after an [IMPORT_RES] whose thirteenth counter is not zero,
    whatever fingerprints were imported. *)
Theorem import_truth_value :
  (forall self,
      ImportResult.__nonzero__ self = true <->
      (ImportResult.not_imported self = None \/ ImportResult.not_imported self = Some 0)
      /\ ImportResult.fingerprints self <> [])
  /\ ImportResult.__nonzero__ ImportResult.__init__ = false
  /\ (forall items self value ns n,
        import_counters value ns -> ns !! 12%nat = Some n -> n <> 0 ->
        exists self',
          ImportResult.handle_status items self "IMPORT_RES" value = (self', None)
          /\ ImportResult.not_imported self' = Some n
          /\ ImportResult.fingerprints self' = ImportResult.fingerprints self
          /\ ImportResult.__nonzero__ self' = false).
Proof.
  split; [exact import_truth|]. split; [vm_compute; reflexivity|].
  intros items self value ns n Hns Hn Hnz.
  destruct (import_res_sets_counts items self value ns n Hns Hn) as (self' & Hrun & Hni & Hfp).
  exists self'. repeat split; try assumption.
  destruct (ImportResult.__nonzero__ self') eqn:Htruth; [|reflexivity].
  apply import_truth in Htruth as [[Hnone|Hzero] _]; congruence.
Qed.

Lemma import_truth_value_witness :
  let imported :=
    (ImportResult.handle_status ImportResult.ok_reason_source_order
       ImportResult.__init__ "IMPORT_OK" "1 ABCD").1 in
  ImportResult.fingerprints imported = ["ABCD"]
  /\ ImportResult.__nonzero__ imported = true
  /\ exists self',
      ImportResult.handle_status ImportResult.ok_reason_source_order imported
        "IMPORT_RES" "2 0 1 0 0 1 1 1 0 0 0 0 1" = (self', None)
      /\ ImportResult.fingerprints self' = ["ABCD"]
      /\ ImportResult.__nonzero__ self' = false.
Proof.
  intros imported.
  split; [vm_compute; reflexivity|]. split; [vm_compute; reflexivity|].
  destruct import_truth_value as (_ & _ & Hres).
  destruct (Hres ImportResult.ok_reason_source_order imported
              "2 0 1 0 0 1 1 1 0 0 0 0 1" [2; 0; 1; 0; 0; 1; 1; 1; 0; 0; 0; 0; 1] 1)
    as (self' & Hrun & _ & Hfp & Htruth).
  - split; [reflexivity | vm_compute; reflexivity].
  - reflexivity.
  - lia.
  - exists self'. split; [exact Hrun|]. split; [|exact Htruth].
    etrans; [exact Hfp | vm_compute; reflexivity].
Defined.

(** *** [ImportResult]: the reasons of [IMPORT_OK] *)



Lemma ok_reason_lookup (code text : string) :
  (code, text) ∈ ImportResult.ok_reason_source_order ->
  ImportResult.ok_reason !! code = Some text.
Proof.
  apply elem_of_list_to_map_1. vm_compute.
  repeat (constructor; [rewrite ?elem_of_cons, elem_of_nil; intuition discriminate|]).
  constructor.
Qed.







(** ** The status-line reader *)

Lemma append_cons (a : ascii) (s t : string) : String a s +:+ t = String a (s +:+ t).
Proof. reflexivity. Qed.

Lemma append_nil (t : string) : "" +:+ t = t.
Proof. reflexivity. Qed.

Lemma append_assoc (s t u : string) : (s +:+ t) +:+ u = s +:+ t +:+ u.
Proof.
  induction s as [|a s IH]; [reflexivity | rewrite !append_cons, IH; reflexivity].
Qed.

Lemma append_nil_r (s : string) : s +:+ "" = s.
Proof. induction s as [|a s IH]; [reflexivity | rewrite append_cons, IH; reflexivity]. Qed.

Lemma slice_to_startswith (p s : string) :
  String.eqb (Py.slice_to (String.length p) s) p = Py.startswith p s.
Proof.
  revert s. induction p as [|a p IH]; intros s; [reflexivity|].
  destruct s as [|b s]; [reflexivity|].
  cbn [String.length Py.slice_to Py.startswith String.eqb].
  rewrite (Ascii.eqb_sym b a). destruct (Ascii.eqb a b); [apply IH | reflexivity].
Qed.

Lemma startswith_append (p s : string) :
  Py.startswith p s = true -> s = p +:+ Py.slice_from (String.length p) s.
Proof.
  revert s. induction p as [|a p IH]; intros s H.
  - destruct s; reflexivity.
  - destruct s as [|b s]; [discriminate|]. cbn [Py.startswith] in H.
    apply andb_true_iff in H as [Hab H]. apply Ascii.eqb_eq in Hab as ->.
    cbn [String.length Py.slice_from]. rewrite append_cons. f_equal. apply IH, H.
Qed.

Lemma rstrip_no_blank_suffix (s : string) :
  forall a b, Py.rstrip s = a +:+ b -> blank b = true -> b = "".
Proof.
  induction s as [|c s IH]; intros a b H Hb.
  - destruct a; [exact (eq_sym H) | discriminate].
  - cbn [Py.rstrip] in H. destruct (Py.rstrip s) as [|c' r] eqn:Hr.
    + destruct (Py.isspace c) eqn:Hc.
      * destruct a; [exact (eq_sym H) | discriminate].
      * destruct a as [|a0 a].
        -- rewrite append_nil in H. subst b. cbn in Hb. rewrite Hc in Hb. discriminate.
        -- rewrite append_cons in H. injection H as _ H.
           destruct a; [exact (eq_sym H) | discriminate].
    + destruct a as [|a0 a].
      * rewrite append_nil in H. subst b. apply andb_true_iff in Hb as [_ Hb].
        specialize (IH "" (String c' r) eq_refl Hb). discriminate.
      * rewrite append_cons in H. injection H as _ H. exact (IH a b H Hb).
Qed.

Lemma lstrip_split (s : string) :
  exists lead, s = lead +:+ Py.lstrip s /\ blank lead = true
               /\ (Py.lstrip s = ""
                   \/ exists a t, Py.lstrip s = String a t /\ Py.isspace a = false).
Proof.
  induction s as [|a s (lead & Hs & Hlead & Hrest)].
  - exists "". repeat split. left. reflexivity.
  - cbn [Py.lstrip]. destruct (Py.isspace a) eqn:Ha.
    + exists (String a lead). rewrite append_cons, <- Hs. cbn. rewrite Ha.
      repeat split; assumption.
    + exists "". repeat split. right. exists a, s. split; [reflexivity | exact Ha].
Qed.

Lemma span_token_split (s : string) :
  s = (Py.span_token s).1 +:+ (Py.span_token s).2
  /\ solid (Py.span_token s).1 = true
  /\ blank (Py.slice_to 1 (Py.span_token s).2) = true.
Proof.
  induction s as [|a s (Hs & Hsolid & Hrest)]; [repeat split|].
  cbn [Py.span_token]. destruct (Py.isspace a) eqn:Ha.
  - cbn. rewrite Ha. repeat split.
  - destruct (Py.span_token s) as [t r]. cbn [fst snd] in *. rewrite append_cons.
    cbn. rewrite Ha. repeat split; [f_equal; exact Hs | exact Hsolid | exact Hrest].
Qed.

(** What [split(None, 1)] returns: nothing for a blank string, else the
    first token and, when something comes after the blanks that follow
    it, the remainder. *)
Lemma split1_spec (p : string) :
  (blank p = true /\ Py.split1 p = [])
  \/ exists lead keyword sep value,
       p = lead +:+ keyword +:+ sep +:+ value
       /\ blank lead = true /\ solid keyword = true /\ keyword <> ""
       /\ blank sep = true
       /\ (value = "" \/ (sep <> "" /\ blank (Py.slice_to 1 value) = false))
       /\ Py.split1 p = keyword :: match value with
                                   | EmptyString => []
                                   | _ => [value]
                                   end.
Proof.
  destruct (lstrip_split p) as (lead & Hp & Hlead & [Hnil | (a & t & Hs & Ha)]).
  - left. unfold Py.split1. rewrite Hnil. split; [|reflexivity].
    rewrite Hp, Hnil. clear Hp. induction lead as [|c lead IH]; [reflexivity|].
    apply andb_true_iff in Hlead as [Hc Hlead]. rewrite append_cons. cbn. rewrite Hc.
    apply IH, Hlead.
  - right. unfold Py.split1. rewrite Hs.
    destruct (span_token_split (String a t)) as (Hst & Hsolid & Hrest).
    destruct (lstrip_split (Py.span_token (String a t)).2)
      as (sep & Hr & Hsep & Hvalue).
    assert (Hkw : (Py.span_token (String a t)).1 <> "").
    { cbn [Py.span_token]. rewrite Ha. destruct (Py.span_token t). discriminate. }
    destruct (Py.span_token (String a t)) as [keyword r]. cbn [fst snd] in *.
    exists lead, keyword, sep, (Py.lstrip r).
    split; [rewrite Hp, Hs, Hst, Hr at 1; reflexivity|].
    repeat (split; [assumption|]).
    destruct Hvalue as [Hnil | (b & v & Hv & Hb)].
    + rewrite Hnil. split; [left|]; reflexivity.
    + rewrite Hv. split; [|reflexivity]. right. split.
      * intros ->. rewrite append_nil in Hr. rewrite Hr, Hv in Hrest. cbn in Hrest.
        rewrite Hb in Hrest. discriminate.
      * cbn. rewrite Hb. reflexivity.
Qed.

Lemma read_lines_step {R : Type} (h : R -> string -> string -> R * option exn)
    (verbose : bool) (line : string) (stream : list string) (result : R)
    (lines printed : list string) (log : list log_record) :
  line <> "" ->
  GPG.read_lines h verbose (line :: stream) result lines printed log =
  let stripped := Py.rstrip line in
  let printed' := if verbose then printed ++ [stripped] else printed in
  let log' := log ++ [(DEBUG, stripped)] in
  if Py.startswith "[GNUPG:] " stripped then
    match Py.split1 (Py.slice_from 9 stripped) with
    | [] => GPG.mk_response (Raise (IndexError "list index out of range"))
              result None printed' log'
    | keyword :: rest =>
        match h result keyword (match rest with value :: _ => value | [] => "" end) with
        | (result', Some e) => GPG.mk_response (Raise e) result' None printed' log'
        | (result', None) =>
            GPG.read_lines h verbose stream result' (lines ++ [line]) printed' log'
        end
    end
  else GPG.read_lines h verbose stream result (lines ++ [line]) printed' log'.
Proof.
  intros Hline.
  assert (Hlen : (String.length line =? 0)%nat = false)
    by (destruct line; [congruence | reflexivity]).
  cbn [GPG.read_lines]. rewrite Hlen.
  rewrite <- (slice_to_startswith "[GNUPG:] " (Py.rstrip line)). reflexivity.
Qed.

(** After the prefix of a stripped line there is always a keyword. *)
Lemma status_payload_tokens (line : string) :
  Py.startswith "[GNUPG:] " (Py.rstrip line) = true ->
  Py.split1 (Py.slice_from 9 (Py.rstrip line)) <> [].
Proof.
  intros Hprefix Hnil.
  pose proof (startswith_append _ _ Hprefix) as Hs.
  change (String.length "[GNUPG:] ") with 9%nat in Hs.
  destruct (split1_spec (Py.slice_from 9 (Py.rstrip line)))
    as [[Hblank _] | (lead & keyword & sep & value & _ & _ & _ & _ & _ & _ & Hsplit)].
  - assert (E : Py.rstrip line = "[GNUPG:]" +:+ (" " +:+ Py.slice_from 9 (Py.rstrip line)))
      by exact Hs.
    apply rstrip_no_blank_suffix in E; [discriminate | exact Hblank].
  - rewrite Hsplit in Hnil. discriminate.
Qed.

(** The reader makes the calls of [feed] on the events of the stream. *)
Lemma read_lines_feed {R : Type} (h : R -> string -> string -> R * option exn)
    (verbose : bool) (stream : list string) :
  forall result lines printed log,
    GPG.result_after (GPG.read_lines h verbose stream result lines printed log)
    = (feed h result (status_events stream)).1
    /\ GPG.ended (GPG.read_lines h verbose stream result lines printed log)
       = match (feed h result (status_events stream)).2 with
         | None => Return tt
         | Some e => Raise e
         end.
Proof.
  induction stream as [|line stream IH]; intros result lines printed log;
    [split; reflexivity|].
  destruct line as [|a line]; [split; reflexivity|].
  rewrite (read_lines_step h verbose (String a line) stream result lines printed log)
    by discriminate.
  cbv zeta. cbn [status_events String.length Nat.eqb]. unfold status_event.
  destruct (Py.startswith "[GNUPG:] " (Py.rstrip (String a line))) eqn:Hprefix;
    [|apply IH].
  pose proof (status_payload_tokens (String a line) Hprefix) as Htokens.
  destruct (Py.split1 (Py.slice_from 9 (Py.rstrip (String a line)))) as [|keyword rest];
    [congruence|].
  cbn [feed].
  destruct (h result keyword match rest with
                             | [] => ""
                             | value :: _ => value
                             end) as [result' [e|]].
  - split; reflexivity.
  - apply IH.
Qed.

(** C6, as the code has it.  The test for the prefix is made on the line
    with its trailing whitespace removed.  A non-empty line that fails the
    test calls no handler: the loop goes on with the same result object,
    the line being kept for [stderr].  A line that passes it is the prefix,
    blanks, a keyword, and either nothing or blanks and a value; the handler
    is called once, with that keyword and value (the empty string when
    nothing follows the keyword), and the loop goes on or ends with the
    handler's exception. *)
Theorem status_line_dispatch {R : Type} (h : R -> string -> string -> R * option exn)
    (verbose : bool) (line : string) (stream : list string) (result : R)
    (lines printed : list string) (log : list log_record) :
  line <> "" ->
  let stripped := Py.rstrip line in
  let printed' := if verbose then printed ++ [stripped] else printed in
  let log' := log ++ [(DEBUG, stripped)] in
  (Py.startswith "[GNUPG:] " stripped = false ->
   GPG.read_lines h verbose (line :: stream) result lines printed log =
   GPG.read_lines h verbose stream result (lines ++ [line]) printed' log')
  /\ (Py.startswith "[GNUPG:] " stripped = true ->
      exists lead keyword sep value,
        stripped = "[GNUPG:] " +:+ lead +:+ keyword +:+ sep +:+ value
        /\ blank lead = true /\ solid keyword = true /\ keyword <> ""
        /\ blank sep = true
        /\ (value = "" -> sep = "")
        /\ (value <> "" -> sep <> "" /\ blank (Py.slice_to 1 value) = false)
        /\ GPG.read_lines h verbose (line :: stream) result lines printed log =
           match h result keyword value with
           | (result', None) =>
               GPG.read_lines h verbose stream result' (lines ++ [line]) printed' log'
           | (result', Some e) => GPG.mk_response (Raise e) result' None printed' log'
           end).
Proof.
  intros Hline stripped printed' log'.
  pose proof (read_lines_step h verbose line stream result lines printed log Hline)
    as Hstep.
  cbv zeta in Hstep. fold stripped in Hstep. fold printed' log' in Hstep.
  split; intros Hprefix; rewrite Hstep, Hprefix; [reflexivity|].
  pose proof (startswith_append _ _ Hprefix) as Hs.
  change (String.length "[GNUPG:] ") with 9%nat in Hs.
  destruct (split1_spec (Py.slice_from 9 stripped))
    as [[Hblank _] | (lead & keyword & sep & value & Hp & Hlead & Hkw & Hne & Hsep & Hv & ->)].
  - exfalso.
    assert (E : Py.rstrip line = "[GNUPG:]" +:+ (" " +:+ Py.slice_from 9 stripped))
      by exact Hs.
    apply rstrip_no_blank_suffix in E; [discriminate | exact Hblank].
  - exists lead, keyword, sep, value.
    split; [rewrite Hs at 1; rewrite Hp; reflexivity|].
    repeat (split; [assumption|]).
    split; [|split].
    + intros ->.
      assert (E : Py.rstrip line = ("[GNUPG:] " +:+ lead +:+ keyword) +:+ sep).
      { fold stripped. rewrite Hs at 1. rewrite Hp, append_nil_r.
        rewrite !append_assoc. reflexivity. }
      exact (rstrip_no_blank_suffix line _ sep E Hsep).
    + intros Hvalue. destruct Hv as [-> | Hv]; [congruence | exact Hv].
    + destruct value; reflexivity.
Qed.

Lemma status_line_dispatch_witness :
  let noise := "gpg: Signature made Tue 12 Feb 2013" +:+ Py.newline in
  let event := "[GNUPG:] GOODSIG ABCD1234 Some One" +:+ Py.newline in
  GPG.read_lines record_event false [noise; event] [] [] [] [] =
  GPG.read_lines record_event false [event] [] [noise] [] [(DEBUG, Py.rstrip noise)]
  /\ exists lead keyword sep value,
      Py.rstrip event = "[GNUPG:] " +:+ lead +:+ keyword +:+ sep +:+ value
      /\ blank lead = true /\ solid keyword = true /\ keyword <> ""
      /\ blank sep = true
      /\ (value = "" -> sep = "")
      /\ (value <> "" -> sep <> "" /\ blank (Py.slice_to 1 value) = false)
      /\ GPG.read_lines record_event false [event] [] [] [] [] =
         match record_event [] keyword value with
         | (result', None) =>
             GPG.read_lines record_event false [] result' [event] []
               [(DEBUG, Py.rstrip event)]
         | (result', Some e) =>
             GPG.mk_response (Raise e) result' None [] [(DEBUG, Py.rstrip event)]
         end.
Proof.
  intros noise event. split.
  - apply (proj1 (status_line_dispatch record_event false noise [event] [] [] [] []
                    ltac:(discriminate))).
    reflexivity.
  - apply (proj2 (status_line_dispatch record_event false event [] [] [] [] []
                    ltac:(discriminate))).
    reflexivity.
Defined.

(** C6, as the claim states it, fails: the line made of the prefix and a
    newline begins with the prefix, yet no handler is called for it. *)
Lemma prefix_only_line_calls_no_handler :
  let line := "[GNUPG:] " +:+ Py.newline in
  let run := GPG._read_response record_event false [line] [] [] in
  Py.startswith "[GNUPG:] " line = true
  /\ GPG.ended run = Return tt
  /\ GPG.result_after run = []
  /\ GPG.stderr run = Some line.
Proof. vm_compute. repeat split; reflexivity. Qed.

(** ** [Crypt]: the truth value over a run *)

(** C9. A [Crypt] object is true exactly when its [ok] flag is, whatever
    the [valid] flag inherited from [Verify]; [ok] starts [False], is set by
    [DECRYPTION_OKAY] and [END_ENCRYPTION], and is left as it is by every
    other keyword, so that a run without these two events ends false, be
    it a sequence of calls of the handler or the reading of a stream of
    status lines by [_read_response]. *)
Theorem crypt_truth_is_ok_flag :
  (forall self, Crypt.__nonzero__ self = Crypt.ok self)
  /\ Crypt.ok Crypt.__init__ = false
  /\ (forall self key value,
        key ∈ ["DECRYPTION_OKAY"; "END_ENCRYPTION"] ->
        Crypt.ok (Crypt.handle_status self key value).1 = true)
  /\ (forall self key value,
        key ∉ ["DECRYPTION_OKAY"; "END_ENCRYPTION"] ->
        Crypt.ok (Crypt.handle_status self key value).1 = Crypt.ok self)
  /\ (forall events,
        Forall (fun event => event.1 ∉ ["DECRYPTION_OKAY"; "END_ENCRYPTION"]) events ->
        Crypt.__nonzero__ (feed Crypt.handle_status Crypt.__init__ events).1 = false)
  /\ (forall verbose stream log,
        Forall (fun event => event.1 ∉ ["DECRYPTION_OKAY"; "END_ENCRYPTION"])
               (status_events stream) ->
        Crypt.__nonzero__
          (GPG.result_after
             (GPG._read_response Crypt.handle_status verbose stream Crypt.__init__ log))
        = false).
Proof.
  assert (Htruth : forall self, Crypt.__nonzero__ self = Crypt.ok self)
    by (intros self; unfold Crypt.__nonzero__; destruct (Crypt.ok self); reflexivity).
  split; [exact Htruth|]. split; [reflexivity|]. split; [|split; [|split]].
  - intros self key value H. rewrite (crypt_ok_set self key value H). reflexivity.
  - apply crypt_ok_frame.
  - intros events H. rewrite Htruth, (feed_keeps_ok events Crypt.__init__ H). reflexivity.
  - intros verbose stream log H. unfold GPG._read_response.
    rewrite (proj1 (read_lines_feed Crypt.handle_status verbose stream
                      Crypt.__init__ [] [] log)).
    rewrite Htruth, (feed_keeps_ok _ Crypt.__init__ H). reflexivity.
Qed.

Lemma crypt_truth_is_ok_flag_witness :
  let events := [("GOODSIG", "ABCD1234 Some One");
                 ("VALIDSIG", "F00D 2013-02-12 1360627200 0 3 0 1 2 00 F00D")] in
  let self := (feed Crypt.handle_status Crypt.__init__ events).1 in
  Crypt.__nonzero__ self = false
  /\ Verify.valid (Crypt.verify self) = true
  /\ Crypt.ok (Crypt.handle_status self "DECRYPTION_OKAY" "").1 = true
  /\ Crypt.__nonzero__
       (GPG.result_after
          (GPG._read_response Crypt.handle_status false
             ["gpg: encrypted with 2048-bit RSA key" +:+ Py.newline;
              "[GNUPG:] GOODSIG ABCD1234 Some One" +:+ Py.newline]
             Crypt.__init__ []))
     = false.
Proof.
  intros events self.
  destruct crypt_truth_is_ok_flag as (_ & _ & Hset & _ & Hrun & Hread).
  split; [|split; [|split]].
  - apply (Hrun events). repeat constructor; by_decision.
  - vm_compute. reflexivity.
  - apply (Hset self "DECRYPTION_OKAY" ""). by_decision.
  - apply Hread. repeat constructor. by_decision.
Defined.


(** ** The stream copier *)

Lemma slice_to_from (n : nat) (s : string) : s = Py.slice_to n s +:+ Py.slice_from n s.
Proof.
  revert s. induction n as [|n IH]; intros s; [reflexivity|].
  destruct s as [|a s]; [reflexivity|].
  cbn [Py.slice_to Py.slice_from]. rewrite append_cons, <- IH. reflexivity.
Qed.

Lemma slice_from_add (p k : nat) (s : string) :
  Py.slice_from (p + k) s = Py.slice_from k (Py.slice_from p s).
Proof.
  revert s. induction p as [|p IH]; intros s; [reflexivity|].
  destruct s as [|a s]; cbn [Nat.add Py.slice_from].
  - destruct k; reflexivity.
  - apply IH.
Qed.

Lemma slice_from_length_slice_to (n : nat) (s : string) :
  Py.slice_from (String.length (Py.slice_to n s)) s = Py.slice_from n s.
Proof.
  revert s. induction n as [|n IH]; intros s; [reflexivity|].
  destruct s as [|a s]; [reflexivity|].
  cbn [Py.slice_to String.length Py.slice_from]. apply IH.
Qed.

Lemma slice_from_shorter (n : nat) (a : ascii) (s : string) :
  (String.length (Py.slice_from (S n) (String a s)) < String.length (String a s))%nat.
Proof.
  cbn [Py.slice_from String.length]. revert s.
  induction n as [|n IH]; intros s; [cbn; lia|].
  destruct s as [|b s]; [cbn; lia|].
  cbn [Py.slice_from String.length]. specialize (IH s). lia.
Qed.

Lemma slice_to_length (n : nat) (s : string) :
  String.length (Py.slice_to n s) = Nat.min n (String.length s).
Proof.
  revert s. induction n as [|n IH]; intros s; [reflexivity|].
  destruct s as [|a s]; [reflexivity|].
  cbn [Py.slice_to String.length]. rewrite IH. reflexivity.
Qed.

(** *** The pieces of [chunks] *)

Lemma chunks_go_fuel (n : nat) (fuel1 : nat) :
  forall fuel2 s,
    (String.length s <= fuel1)%nat -> (String.length s <= fuel2)%nat ->
    chunks_go fuel1 (S n) s = chunks_go fuel2 (S n) s.
Proof.
  induction fuel1 as [|fuel1 IH]; intros fuel2 s H1 H2.
  - destruct s; [|cbn in H1; lia]. destruct fuel2; reflexivity.
  - destruct s as [|a s]; [destruct fuel2; reflexivity|].
    destruct fuel2 as [|fuel2]; [cbn in H2; lia|].
    cbn [chunks_go]. f_equal.
    pose proof (slice_from_shorter n a s) as Hlt. cbn [String.length] in H1, H2, Hlt.
    apply IH; lia.
Qed.

Lemma chunks_cons (n : nat) (a : ascii) (s : string) :
  chunks (S n) (String a s) =
  Py.slice_to (S n) (String a s) :: chunks (S n) (Py.slice_from (S n) (String a s)).
Proof.
  unfold chunks. cbn [String.length chunks_go]. f_equal.
  pose proof (slice_from_shorter n a s) as Hlt. cbn [String.length] in Hlt.
  apply chunks_go_fuel; lia.
Qed.

Lemma chunks_concat (n : nat) (s : string) :
  Py.join "" (chunks (S n) s) = s.
Proof.
  remember (String.length s) as len eqn:Hlen.
  revert s Hlen. induction len as [len IH] using lt_wf_ind. intros s ->.
  destruct s as [|a s]; [reflexivity|].
  rewrite chunks_cons. unfold Py.join in *.
  pose proof (slice_from_shorter n a s) as Hlt.
  specialize (IH _ Hlt _ eq_refl).
  destruct (chunks (S n) (Py.slice_from (S n) (String a s))) as [|c cs] eqn:Hcs.
  - cbn [String.concat] in *. rewrite (slice_to_from (S n) (String a s)) at 2.
    rewrite <- IH, append_nil_r. reflexivity.
  - cbn [String.concat] in *. rewrite append_nil, IH.
    symmetry. apply slice_to_from.
Qed.

Lemma chunks_sizes (n : nat) (s : string) :
  Forall (fun c => (0 < String.length c <= S n)%nat) (chunks (S n) s).
Proof.
  remember (String.length s) as len eqn:Hlen.
  revert s Hlen. induction len as [len IH] using lt_wf_ind. intros s ->.
  destruct s as [|a s]; [constructor|].
  rewrite chunks_cons. constructor.
  - rewrite slice_to_length. cbn [String.length]. lia.
  - exact (IH _ (slice_from_shorter n a s) _ eq_refl).
Qed.

(** *** One turn of the loop *)

Section CopyFacts.

Variable encode : string -> outcome string.

Lemma remaining_advance (b : bytesio) :
  bio_remaining (advance b) = Py.slice_from 1024 (bio_remaining b).
Proof.
  unfold advance, bio_remaining. cbn [bio_buffer bio_pos].
  rewrite slice_from_add. apply slice_from_length_slice_to.
Qed.

Lemma copy_loop_end (fuel : nat) (b : bytesio) (f : pyfile) (sent : nat)
    (log : list log_record) :
  bio_closed b = false -> bio_remaining b = "" ->
  copy_loop encode (S fuel) b f sent log = Some (Return tt, advance b, f, sent, log).
Proof.
  intros Hb Hrem. cbn [copy_loop]. unfold bio_read. rewrite Hb.
  fold (bio_remaining b). fold (advance b). rewrite Hrem. reflexivity.
Qed.

Lemma copy_loop_write (fuel : nat) (b : bytesio) (f : pyfile) (sent : nat)
    (log : list log_record) (a : ascii) (rest : string) :
  bio_closed b = false -> f_closed f = false -> bio_remaining b = String a rest ->
  copy_loop encode (S fuel) b f sent log =
  let data := Py.slice_to 1024 (bio_remaining b) in
  let sent' := (sent + String.length data)%nat in
  let log' := log ++ [chunk_record sent' data] in
  match f_write_error f (f_written f) data with
  | None => copy_loop encode fuel (advance b) (accept data f) sent' log'
  | Some (UnicodeError _) =>
      match encode data with
      | Raise e => Some (Raise e, advance b, f, sent', log')
      | Return encoded =>
          match f_write_error f (f_written f) encoded with
          | None => copy_loop encode fuel (advance b) (accept encoded f) sent' log'
          | Some (IOError _) => Some (Return tt, advance b, f, sent', log' ++ [broken_pipe])
          | Some e => Some (Raise e, advance b, f, sent', log')
          end
      end
  | Some (IOError _) => Some (Return tt, advance b, f, sent', log' ++ [broken_pipe])
  | Some e => Some (Raise e, advance b, f, sent', log')
  end.
Proof.
  intros Hb Hf Hrem. cbn [copy_loop]. unfold bio_read. rewrite Hb.
  fold (bio_remaining b). fold (advance b).
  assert (Hlen : (String.length (Py.slice_to 1024 (bio_remaining b)) =? 0)%nat = false)
    by (rewrite Hrem; reflexivity).
  rewrite Hlen. unfold file_write. rewrite Hf. cbv zeta.
  fold (chunk_record (sent + String.length (Py.slice_to 1024 (bio_remaining b)))
          (Py.slice_to 1024 (bio_remaining b))).
  destruct (f_write_error f (f_written f) (Py.slice_to 1024 (bio_remaining b)))
    as [[]|]; try reflexivity.
  destruct (encode (Py.slice_to 1024 (bio_remaining b))) as [encoded|e]; [|reflexivity].
  rewrite Hf.
  destruct (f_write_error f (f_written f) encoded) as [[]|]; reflexivity.
Qed.

Lemma advance_shorter (b : bytesio) (a : ascii) (rest : string) :
  bio_remaining b = String a rest ->
  (String.length (bio_remaining (advance b)) < String.length (bio_remaining b))%nat.
Proof.
  intros Hrem. rewrite remaining_advance, Hrem. apply (slice_from_shorter 1023).
Qed.

(** The loop ends: [S (length of the remaining bytes)] turns are enough. *)
Lemma copy_loop_total (fuel : nat) :
  forall b f sent log,
    (String.length (bio_remaining b) < fuel)%nat ->
    exists r, copy_loop encode fuel b f sent log = Some r.
Proof.
  induction fuel as [|fuel IH]; intros b f sent log Hfuel; [lia|].
  destruct (bio_closed b) eqn:Hb.
  { cbn [copy_loop]. unfold bio_read. rewrite Hb. eexists. reflexivity. }
  destruct (bio_remaining b) as [|a rest] eqn:Hrem.
  { rewrite (copy_loop_end fuel b f sent log Hb Hrem). eexists. reflexivity. }
  pose proof (advance_shorter b a rest Hrem) as Hlt. rewrite Hrem in Hlt.
  destruct (f_closed f) eqn:Hf.
  { cbn [copy_loop]. unfold bio_read. rewrite Hb. fold (bio_remaining b).
    rewrite Hrem. unfold file_write. rewrite Hf.
    replace (String.length (Py.slice_to 1024 (String a rest)) =? 0)%nat with false
      by reflexivity.
    eexists. reflexivity. }
  rewrite (copy_loop_write fuel b f sent log a rest Hb Hf Hrem). cbv zeta.
  rewrite Hrem.
  destruct (f_write_error f (f_written f) (Py.slice_to 1024 (String a rest)))
    as [[]|]; try (eexists; reflexivity); try (apply IH; lia).
  destruct (encode (Py.slice_to 1024 (String a rest))) as [encoded|e];
    [|eexists; reflexivity].
  destruct (f_write_error f (f_written f) encoded) as [[]|];
    try (eexists; reflexivity); apply IH; lia.
Qed.

End CopyFacts.

Lemma slice_lengths (n : nat) (s : string) :
  (String.length (Py.slice_to n s) + String.length (Py.slice_from n s))%nat
  = String.length s.
Proof.
  revert s. induction n as [|n IH]; intros s; [reflexivity|].
  destruct s as [|a s]; [reflexivity|].
  cbn [Py.slice_to Py.slice_from String.length]. rewrite <- (IH s). reflexivity.
Qed.

Lemma chunks_full (n : nat) (s : string) :
  forall i c,
    chunks (S n) s !! i = Some c -> (S i < length (chunks (S n) s))%nat ->
    String.length c = S n.
Proof.
  remember (String.length s) as len eqn:Hlen.
  revert s Hlen. induction len as [len IH] using lt_wf_ind. intros s -> i c.
  destruct s as [|a s]; [discriminate|].
  rewrite chunks_cons. destruct i as [|i]; cbn [lookup list_lookup length].
  - intros [= <-] Hmore.
    change (String.length (Py.slice_to (S n) (String a s)) = S n).
    pose proof (slice_lengths (S n) (String a s)) as Hsum.
    pose proof (slice_to_length (S n) (String a s)) as Hmin.
    destruct (Py.slice_from (S n) (String a s)) eqn:Hrest; [cbn in Hmore; lia|].
    cbn [String.length] in Hsum, Hmin. cbn [String.length]. lia.
  - intros Hc Hmore.
    apply (IH _ (slice_from_shorter n a s) _ eq_refl i c Hc). lia.
Qed.

Section CopyRuns.

Variable encode : string -> outcome string.

(** A run in which every write succeeds. *)
Lemma copy_loop_all_written (fuel : nat) :
  forall b f sent log,
    bio_closed b = false -> f_closed f = false ->
    (forall written data, f_write_error f written data = None) ->
    (String.length (bio_remaining b) < fuel)%nat ->
    exists b' log',
      copy_loop encode fuel b f sent log =
      Some (Return tt, b',
            mk_pyfile (f_written f ++ chunks 1024 (bio_remaining b)) false
                      (f_write_error f) (f_close_error f),
            (sent + String.length (bio_remaining b))%nat, log')
      /\ bio_remaining b' = "".
Proof.
  induction fuel as [|fuel IH]; intros b f sent log Hb Hf Hok Hfuel; [lia|].
  destruct (bio_remaining b) as [|a rest] eqn:Hrem.
  - rewrite (copy_loop_end encode fuel b f sent log Hb Hrem).
    exists (advance b), log. split.
    + destruct f as [written closed oracle close]. cbn in Hf. subst closed.
      cbn [f_written f_write_error f_close_error String.length chunks chunks_go].
      rewrite app_nil_r, Nat.add_0_r. reflexivity.
    + rewrite remaining_advance, Hrem. reflexivity.
  - pose proof (advance_shorter b a rest Hrem) as Hlt. rewrite Hrem in Hlt.
    rewrite (copy_loop_write encode fuel b f sent log a rest Hb Hf Hrem). cbv zeta.
    rewrite Hok.
    destruct (IH (advance b) (accept (Py.slice_to 1024 (bio_remaining b)) f)
                (sent + String.length (Py.slice_to 1024 (bio_remaining b)))%nat
                (log ++ [chunk_record
                           (sent + String.length (Py.slice_to 1024 (bio_remaining b)))
                           (Py.slice_to 1024 (bio_remaining b))]))
      as (b' & log' & Hrun & Hend); [reflexivity | reflexivity | exact Hok | lia |].
    exists b', log'. split; [|exact Hend].
    rewrite Hrun, remaining_advance, Hrem. cbn [accept f_written f_write_error f_close_error].
    rewrite (chunks_cons 1023 a rest), <- app_assoc.
    pose proof (slice_lengths 1024 (String a rest)) as Hsum.
    rewrite <- Hsum, Nat.add_assoc. reflexivity.
Qed.

(** A run in which the write of the chunk of index [k] is the first to
    fail, with a broken pipe. *)
Lemma copy_loop_broken_pipe (k : nat) :
  forall fuel b f sent log c msg,
    bio_closed b = false -> f_closed f = false ->
    (String.length (bio_remaining b) < fuel)%nat ->
    (forall i d, (i < k)%nat -> chunks 1024 (bio_remaining b) !! i = Some d ->
                 f_write_error f (f_written f ++ take i (chunks 1024 (bio_remaining b))) d
                 = None) ->
    chunks 1024 (bio_remaining b) !! k = Some c ->
    f_write_error f (f_written f ++ take k (chunks 1024 (bio_remaining b))) c
    = Some (IOError msg) ->
    exists b' sent' log',
      copy_loop encode fuel b f sent log =
      Some (Return tt, b',
            mk_pyfile (f_written f ++ take k (chunks 1024 (bio_remaining b))) false
                      (f_write_error f) (f_close_error f),
            sent', log' ++ [broken_pipe]).
Proof.
  induction k as [|k IH]; intros fuel b f sent log c msg Hb Hf Hfuel Hok Hc Hfail;
    (destruct fuel as [|fuel]; [lia|]);
    (destruct (bio_remaining b) as [|a rest] eqn:Hrem; [discriminate|]);
    pose proof (advance_shorter b a rest Hrem) as Hlt;
    pose proof (remaining_advance b) as Hadv;
    rewrite (copy_loop_write encode fuel b f sent log a rest Hb Hf Hrem); cbv zeta;
    rewrite Hrem in Hlt, Hadv |- *; rewrite (chunks_cons 1023 a rest) in *;
    remember (Py.slice_to 1024 (String a rest)) as data eqn:Hdata;
    remember (chunks 1024 (Py.slice_from 1024 (String a rest))) as cs eqn:Hcs.
  - injection Hc as <-. change (take 0 (data :: cs)) with (@nil string) in *.
    rewrite app_nil_r in Hfail. rewrite Hfail.
    do 3 eexists. rewrite app_nil_r.
    destruct f as [written closed oracle close]. cbn in Hf. subst closed. reflexivity.
  - assert (H0 : f_write_error f (f_written f) data = None).
    { specialize (Hok 0%nat data ltac:(lia) eq_refl).
      change (take 0 (data :: cs)) with (@nil string) in Hok.
      rewrite app_nil_r in Hok. exact Hok. }
    rewrite H0.
    change ((data :: cs) !! S k) with (cs !! k) in Hc.
    change (take (S k) (data :: cs)) with (data :: take k cs) in *.
    destruct (IH fuel (advance b) (accept data f) (sent + String.length data)%nat
                (log ++ [chunk_record (sent + String.length data) data]) c msg)
      as (b' & sent' & log' & Hrun); try reflexivity.
    + lia.
    + intros i d Hi Hd. rewrite Hadv, <- Hcs in Hd |- *.
      cbn [accept f_written f_write_error]. rewrite <- app_assoc.
      apply (Hok (S i) d); [lia | exact Hd].
    + rewrite Hadv, <- Hcs. exact Hc.
    + rewrite Hadv, <- Hcs. cbn [accept f_written f_write_error]. rewrite <- app_assoc.
      exact Hfail.
    + exists b', sent', log'. rewrite Hrun, Hadv, <- Hcs.
      cbn [accept f_written f_write_error f_close_error]. rewrite <- app_assoc.
      reflexivity.
Qed.

Lemma file_close_open (f : pyfile) :
  f_closed f = false ->
  file_close f = (f_close_error f, closed_with (f_written f) f).
Proof. intros Hf. unfold file_close. rewrite Hf. reflexivity. Qed.

(** After the loop, on an open file. *)
Lemma copy_data_after_loop (b b' : bytesio) (f f' : pyfile) (sent : nat)
    (log log' : list log_record) :
  f_closed f' = false ->
  copy_loop encode (S (String.length (bio_remaining b))) b f 0 log =
  Some (Return tt, b', f', sent, log') ->
  exists log'',
    _copy_data encode (BytesIO b) (File f) log =
    Some (mk_copied (close_outcome f') (BytesIO b') (File (closed_with (f_written f') f'))
            sent log'')
    /\ forall record, record ∈ log' -> record ∈ log''.
Proof.
  intros Hf' Hloop. unfold _copy_data. rewrite Hloop, (file_close_open f' Hf').
  unfold close_outcome.
  destruct (f_close_error f') as [[]|]; eexists; (split; [reflexivity|]);
    intros record Hin; try exact Hin; apply elem_of_app; left; exact Hin.
Qed.

Lemma copy_data_closes (b : bytesio) (f : pyfile) (log : list log_record) (r : copied) :
  _copy_data encode (BytesIO b) (File f) log = Some r ->
  c_outcome r = Return tt ->
  exists f', c_outstream r = File f' /\ f_closed f' = true.
Proof.
  unfold _copy_data.
  destruct (copy_loop encode _ b f 0 log) as [[[[[[[]|e] b'] f'] sent] log']|];
    [|intros [= <-]; discriminate | discriminate].
  unfold file_close. destruct (f_closed f') eqn:Hf'.
  - intros [= <-] _. exists f'. split; [reflexivity | exact Hf'].
  - destruct (f_close_error f') as [[]|]; intros [= <-]; try discriminate;
      intros _; eexists; split; reflexivity.
Qed.

End CopyRuns.

(** C4, as the code has it.  [_copy_data] always returns or raises (the
    loop ends).  Given a [BytesIO] and a [file]: when every write succeeds
    the sink receives the remaining bytes of the source in pieces of 1024
    bytes, the last one possibly shorter, and is closed; when a write fails
    with [IOError] the failure is logged, the loop ends, the sink holds the
    pieces written before and is closed, and the error is not raised; and
    whenever the function returns the sink is closed.  When the source is
    not a [BytesIO] or the sink not a [file], the function logs the failed
    assertion and returns with both objects as they were: nothing is read,
    written or closed. *)
Theorem copy_data_runs (encode : string -> outcome string) :
  (forall instream outstream log,
      exists r, _copy_data encode instream outstream log = Some r)
  /\ (forall b f log,
        bio_closed b = false -> f_closed f = false ->
        (forall written data, f_write_error f written data = None) ->
        exists b' log',
          _copy_data encode (BytesIO b) (File f) log =
          Some (mk_copied (close_outcome f) (BytesIO b')
                  (File (closed_with (f_written f ++ chunks 1024 (bio_remaining b)) f))
                  (String.length (bio_remaining b)) log')
          /\ bio_remaining b' = "")
  /\ (forall b f log k c msg,
        bio_closed b = false -> f_closed f = false ->
        (forall i d, (i < k)%nat -> chunks 1024 (bio_remaining b) !! i = Some d ->
                     f_write_error f (f_written f ++ take i (chunks 1024 (bio_remaining b))) d
                     = None) ->
        chunks 1024 (bio_remaining b) !! k = Some c ->
        f_write_error f (f_written f ++ take k (chunks 1024 (bio_remaining b))) c
        = Some (IOError msg) ->
        exists b' sent log',
          _copy_data encode (BytesIO b) (File f) log =
          Some (mk_copied (close_outcome f) (BytesIO b')
                  (File (closed_with
                           (f_written f ++ take k (chunks 1024 (bio_remaining b))) f))
                  sent log')
          /\ broken_pipe ∈ log')
  /\ (forall b f log r,
        _copy_data encode (BytesIO b) (File f) log = Some r ->
        c_outcome r = Return tt ->
        exists f', c_outstream r = File f' /\ f_closed f' = true)
  /\ (forall instream outstream log,
        streams_accepted instream outstream = false ->
        exists msg,
          _copy_data encode instream outstream log =
          Some (mk_copied (Return tt) instream outstream 0 (log ++ [(ERROR, msg)])))
  /\ (forall s,
        Py.join "" (chunks 1024 s) = s
        /\ Forall (fun c => (0 < String.length c <= 1024)%nat) (chunks 1024 s)
        /\ forall i c, chunks 1024 s !! i = Some c ->
                       (S i < length (chunks 1024 s))%nat -> String.length c = 1024%nat).
Proof.
  split; [|split; [|split; [|split; [|split]]]].
  - intros instream outstream log.
    destruct instream as [b|g|]; try (eexists; reflexivity).
    destruct outstream as [b0|f|]; try (eexists; reflexivity).
    unfold _copy_data.
    destruct (copy_loop_total encode (S (String.length (bio_remaining b))) b f 0%nat log)
      as [[[[[[[]|e] b'] f'] sent] log'] ->]; [lia| |eexists; reflexivity].
    destruct (file_close f') as [[[]|] f'']; eexists; reflexivity.
  - intros b f log Hb Hf Hok.
    destruct (copy_loop_all_written encode (S (String.length (bio_remaining b)))
                b f 0%nat log Hb Hf Hok) as (b' & log' & Hloop & Hend); [lia|].
    destruct (copy_data_after_loop encode b b' f
                (mk_pyfile (f_written f ++ chunks 1024 (bio_remaining b)) false
                           (f_write_error f) (f_close_error f))
                _ log log' eq_refl Hloop)
      as (log'' & Hrun & _).
    exists b', log''. split; [exact Hrun | exact Hend].
  - intros b f log k c msg Hb Hf Hok Hc Hfail.
    destruct (copy_loop_broken_pipe encode k (S (String.length (bio_remaining b)))
                b f 0%nat log c msg Hb Hf ltac:(lia) Hok Hc Hfail)
      as (b' & sent & log' & Hloop).
    destruct (copy_data_after_loop encode b b' f
                (mk_pyfile (f_written f ++ take k (chunks 1024 (bio_remaining b))) false
                           (f_write_error f) (f_close_error f))
                _ log _ eq_refl Hloop)
      as (log'' & Hrun & Hlog).
    exists b', sent, log''. split; [exact Hrun|].
    apply Hlog, elem_of_app. right. apply list_elem_of_singleton. reflexivity.
  - apply copy_data_closes.
  - intros instream outstream log Hrejected.
    destruct instream as [b|g|]; destruct outstream as [b0|f|]; try discriminate;
      eexists; reflexivity.
  - intros s. split; [apply (chunks_concat 1023)|].
    split; [apply (chunks_sizes 1023) | apply (chunks_full 1023)].
Qed.

Lemma copy_data_runs_witness :
  (exists b' log',
      _copy_data ascii_encode (BytesIO sample_stream) (File open_pipe) [] =
      Some (mk_copied (Return tt) (BytesIO b')
              (File (closed_with
                       ([] ++ chunks 1024 (bio_remaining sample_stream)) open_pipe))
              (String.length (bio_remaining sample_stream)) log')
      /\ bio_remaining b' = "")
  /\ (exists b' sent log',
        _copy_data ascii_encode (BytesIO sample_stream) (File (pipe_broken_after 1)) [] =
        Some (mk_copied (Return tt) (BytesIO b')
                (File (closed_with
                         ([] ++ take 1 (chunks 1024 (bio_remaining sample_stream)))
                         (pipe_broken_after 1)))
                sent log')
        /\ broken_pipe ∈ log')
  /\ (exists msg,
        _copy_data ascii_encode (BytesIO sample_stream) OtherObject [] =
        Some (mk_copied (Return tt) (BytesIO sample_stream) OtherObject 0
                ([] ++ [(ERROR, msg)]))).
Proof.
  destruct (copy_data_runs ascii_encode) as (_ & Hall & Hbroken & _ & Hrejected & _).
  split; [|split].
  - apply (Hall sample_stream open_pipe []); [reflexivity | reflexivity |].
    intros written data. reflexivity.
  - apply (Hbroken sample_stream (pipe_broken_after 1) [] 1%nat
             (Py.slice_to 1024 (Py.slice_from 1024 sample_data))
             "[Errno 32] Broken pipe");
      [reflexivity | reflexivity | | vm_compute; reflexivity | vm_compute; reflexivity].
    intros [|i] d Hi Hd; [reflexivity | lia].
  - apply (Hrejected (BytesIO sample_stream) OtherObject []). reflexivity.
Defined.

(** C4, as the claim states it, fails: handed a [file] as its source,
    [_copy_data] logs the failed assertion and returns, and the sink, an
    open [file], is still open. *)
Lemma copy_data_rejected_leaves_sink_open :
  _copy_data ascii_encode (File open_pipe) (File open_pipe) [] =
  Some (mk_copied (Return tt) (File open_pipe) (File open_pipe) 0
          [(ERROR, "instream is not a file")])
  /\ f_closed open_pipe = false.
Proof. split; reflexivity. Qed.

(** * Further properties *)

(** ** The sanitiser: what reaches the command line *)

Lemma is_allowed_outcomes (s : string) (log : list log_record) :
  _is_allowed (PyStr s) log =
  if 0 <? Py.find "_" s then (Return None, log)
  else if bool_decide (s ∈ _allowed) then
    (Return (Some s),
     log ++ [(DEBUG, "Got allowed option '"
                     +:+ str_of_option (_fix_unsafe (PyStr s)) +:+ "'.")])
  else
    (Raise (ProtectedOption ("Option '" +:+ str_of_option (_fix_unsafe (PyStr s))
                             +:+ "' not supported.")),
     log ++ [(WARNING, "Dropping option '"
                       +:+ str_of_option (_fix_unsafe (PyStr s)) +:+ "'...")]).
Proof.
  unfold _is_allowed. rewrite allowed_subset_possible.
  unfold bind at 1. unfold ret at 1. unfold bind at 1. unfold ret at 1.
  destruct (0 <? Py.find "_" s); [reflexivity|].
  destruct (bool_decide (s ∈ _allowed)); reflexivity.
Qed.

Lemma is_allowed_joins_lists (l : list string) (log : list log_record) :
  _is_allowed (PyList l) log = _is_allowed (PyStr (Py.join " " l)) log.
Proof.
  unfold _is_allowed. rewrite allowed_subset_possible. reflexivity.
Qed.

(** X1. [_is_allowed] never raises [UsageError]: every allowed option is a
    known option.  What it returns, when it returns an option, is its input
    unmodified (a list joined by spaces), and that input is in the
    allow-list. *)
Theorem is_allowed_sound (input : pyval) (log log' : list log_record) :
  (forall msg, _is_allowed input log <> (Raise (UsageError msg), log'))
  /\ (forall s, _is_allowed input log = (Return (Some s), log') ->
                s ∈ _allowed
                /\ match input with
                   | PyStr i => i = s
                   | PyList l => Py.join " " l = s
                   | PyNone => False
                   end).
Proof.
  assert (Hstr : forall i,
             (forall msg, _is_allowed (PyStr i) log <> (Raise (UsageError msg), log'))
             /\ (forall s, _is_allowed (PyStr i) log = (Return (Some s), log') ->
                           s ∈ _allowed /\ i = s)).
  { intros i. rewrite is_allowed_outcomes.
    destruct (0 <? Py.find "_" i); [split; [discriminate | intros; discriminate]|].
    destruct (bool_decide (i ∈ _allowed)) eqn:Hin.
    - apply bool_decide_eq_true in Hin.
      split; [discriminate | intros s [= <- _]; split; [exact Hin | reflexivity]].
    - split; [discriminate | intros; discriminate]. }
  destruct input as [|i|l].
  - split; [intros msg; vm_compute; discriminate | intros s; vm_compute; discriminate].
  - apply Hstr.
  - rewrite is_allowed_joins_lists. apply Hstr.
Qed.

Lemma is_allowed_sound_witness :
  "--version" ∈ _allowed /\ "--version" = "--version".
Proof.
  apply (proj2 (is_allowed_sound (PyStr "--version") []
                  [(DEBUG, "Got allowed option '--version'.")]) "--version").
  vm_compute. reflexivity.
Defined.

Lemma check_arg_plain (lstat_size : string -> option Z) (arg : string)
    (value : option string) (log : list log_record) :
  value = None \/ value = Some "" ->
  exists entry log',
    _check_arg_and_value lstat_size arg value log = (Return entry, log')
    /\ allowed_entry entry.
Proof.
  intros Hvalue. unfold _check_arg_and_value, bind, try.
  rewrite is_allowed_outcomes.
  destruct (0 <? Py.find "_" arg).
  { do 2 eexists. split; [reflexivity | left; reflexivity]. }
  destruct (bool_decide (arg ∈ _allowed)) eqn:Hin.
  - apply bool_decide_eq_true in Hin.
    destruct Hvalue as [-> | ->]; do 2 eexists;
      (split; [reflexivity | right; exists arg; split; [exact Hin | reflexivity]]).
  - do 2 eexists. split; [reflexivity | left; reflexivity].
Qed.

Lemma pop_last (l : list string) (x : string) (log : list log_record) :
  pop (l ++ [x]) log = (Return (x, l), log).
Proof. unfold pop. rewrite rev_unit, rev_involutive. reflexivity. Qed.

(** The loop over the tokens of one string: nothing is raised, the
    value stays empty, the entries stay allowed. *)
Lemma while_filo_entries (lstat_size : string -> option Z) (fuel : nat) :
  forall filo new_arg checked log,
    Forall allowed_entry checked ->
    exists checked' log',
      while_filo lstat_size fuel filo new_arg "" checked log = (Return checked', log')
      /\ Forall allowed_entry checked'.
Proof.
  induction fuel as [|fuel IH]; intros filo new_arg checked log Hchecked.
  { exists checked, log. split; [reflexivity | exact Hchecked]. }
  cbn [while_filo].
  destruct filo as [|head tail].
  { exists checked, log. split; [reflexivity | exact Hchecked]. }
  replace (bool_decide (0 < length (head :: tail))%nat) with true
    by (symmetry; apply bool_decide_eq_true; cbn; lia).
  unfold bind at 1. unfold first at 1. unfold ret at 1.
  assert (Hstep : exists filo' new_arg' log1,
    (if is_flag head
     then ' (new_arg0, filo0) <- pop (head :: tail);;
          (if bool_decide (0 < length filo0)%nat
           then ' (filo1, new_value) <- while_not_flag (length filo0) filo0 "";;
                ret (filo1, new_arg0, new_value)
           else ret (filo0, new_arg0, ""))
     else logger DEBUG ("Got non-flag argument: " +:+ head);;
          ' (_, filo0) <- pop (head :: tail);; ret (filo0, new_arg, "")) log
    = (Return (filo', new_arg', ""), log1)).
  { destruct (exists_last (l := head :: tail) ltac:(discriminate)) as (init & x & Hsplit).
    rewrite Hsplit.
    destruct (is_flag head) eqn:Hflag.
    - unfold bind at 1. rewrite pop_last.
      destruct init as [|head' init'].
      + do 3 eexists. reflexivity.
      + assert (head' = head) as -> by (cbn in Hsplit; congruence).
        replace (bool_decide (0 < length (head :: init'))%nat) with true
          by (symmetry; apply bool_decide_eq_true; cbn; lia).
        cbn [length while_not_flag]. unfold bind, first, ret. rewrite Hflag. cbn [negb].
        do 3 eexists. reflexivity.
    - unfold bind at 1. unfold logger at 1. unfold bind at 1. rewrite pop_last.
      do 3 eexists. reflexivity. }
  destruct Hstep as (filo' & new_arg' & log1 & Hstep).
  unfold bind at 1. rewrite Hstep.
  destruct (check_arg_plain lstat_size new_arg' (Some "") log1 (or_intror eq_refl))
    as (entry & log2 & Hcheck & Hentry).
  unfold bind at 1. rewrite Hcheck.
  unfold bind at 1.
  destruct (negb (String.eqb (Py.strip entry) "")).
  - unfold bind at 1. unfold logger at 1. unfold ret at 1.
    apply IH. apply Forall_app. split; [exact Hchecked | constructor; [exact Hentry | constructor]].
  - unfold ret at 1. apply IH. exact Hchecked.
Qed.

Lemma for_each_entries {A : Type} (body : A -> list string -> M (list string)) :
  (forall a checked log,
      Forall allowed_entry checked ->
      exists checked' log',
        body a checked log = (Return checked', log') /\ Forall allowed_entry checked') ->
  forall xs checked log,
    Forall allowed_entry checked ->
    exists checked' log',
      for_each xs body checked log = (Return checked', log')
      /\ Forall allowed_entry checked'.
Proof.
  intros Hbody xs. induction xs as [|x xs IH]; intros checked log Hchecked.
  - exists checked, log. split; [reflexivity | exact Hchecked].
  - cbn [for_each]. unfold bind.
    destruct (Hbody x checked log Hchecked) as (checked1 & log1 & -> & Hchecked1).
    apply IH, Hchecked1.
Qed.

Lemma append_checked_entries (lstat_size : string -> option Z) (arg : string)
    (checked : list string) (log : list log_record) :
  Forall allowed_entry checked ->
  exists checked' log',
    (safe <- _check_arg_and_value lstat_size arg None ;;
     logger DEBUG ("_sanitise(): appending args: " +:+ safe) ;;
     ret (checked ++ [safe])) log = (Return checked', log')
    /\ Forall allowed_entry checked'.
Proof.
  intros Hchecked.
  destruct (check_arg_plain lstat_size arg None log (or_introl eq_refl))
    as (entry & log1 & Hcheck & Hentry).
  unfold bind at 1. rewrite Hcheck. unfold bind, logger, ret.
  do 2 eexists. split; [reflexivity|].
  apply Forall_app. split; [exact Hchecked | constructor; [exact Hentry | constructor]].
Qed.

Lemma sanitise_arg_entries (lstat_size : string -> option Z) (arg : pyval)
    (checked : list string) (log : list log_record) :
  Forall allowed_entry checked ->
  exists checked' log',
    _sanitise_arg lstat_size arg checked log = (Return checked', log')
    /\ Forall allowed_entry checked'.
Proof.
  intros Hchecked. destruct arg as [|s|l]; cbn [_sanitise_arg].
  - do 2 eexists. split; [reflexivity | exact Hchecked].
  - unfold bind at 1. unfold logger at 1.
    destruct (0 <? Py.find " " s).
    + apply while_filo_entries, Hchecked.
    + apply append_checked_entries, Hchecked.
  - unfold bind at 1. unfold logger at 1.
    apply for_each_entries; [|exact Hchecked].
    intros a checked0 log0 Hchecked0.
    destruct (Py.startswith "--" a).
    + apply append_checked_entries, Hchecked0.
    + do 2 eexists. split; [reflexivity | exact Hchecked0].
Qed.

Lemma allowed_flags_solid (f : string) :
  f ∈ _allowed -> solid f = true /\ f <> "".
Proof.
  intros Hf. unfold _allowed in Hf.
  repeat (apply elem_of_cons in Hf as [->|Hf]; [split; [reflexivity | discriminate]|]).
  apply elem_of_nil in Hf. destruct Hf.
Qed.

Lemma split_go_space (rest : string) :
  Py.split_go [] (" " +:+ rest) = Py.split_go [] rest.
Proof. reflexivity. Qed.

Lemma split_go_entry (entry rest : string) :
  allowed_entry entry ->
  exists flags,
    Py.split_go [] (entry +:+ rest) = flags ++ Py.split_go [] rest
    /\ Forall (fun f => f ∈ _allowed) flags.
Proof.
  intros [-> | (flag & Hflag & ->)].
  - exists []. split; [reflexivity | constructor].
  - destruct (allowed_flags_solid flag Hflag) as [Hsolid Hne].
    exists [flag]. split; [|constructor; [exact Hflag | constructor]].
    rewrite append_assoc, (split_go_solid flag (" " +:+ rest) [] Hsolid), app_nil_r.
    destruct (rev (list_ascii_of_string flag)) as [|c cur] eqn:Hrev.
    + destruct flag; [congruence|]. cbn [list_ascii_of_string rev] in Hrev.
      apply app_eq_nil in Hrev as [_ Hrev]. discriminate.
    + change (Py.split_go (c :: cur) (" " +:+ rest))
        with (string_of_list_ascii (rev (c :: cur)) :: Py.split_go [] rest).
      rewrite <- Hrev, rev_involutive, string_of_list_ascii_of_string. reflexivity.
Qed.

(** The tokens of the joined entries are allowed flags. *)
Lemma split_join_entries (entries : list string) :
  Forall allowed_entry entries ->
  Forall (fun f => f ∈ _allowed) (Py.split (Py.join " " entries)).
Proof.
  unfold Py.split, Py.join.
  induction entries as [|entry entries IH]; intros Hentries; [constructor|].
  apply Forall_cons in Hentries as [Hentry Hentries].
  destruct entries as [|entry' entries].
  - cbn [String.concat]. destruct (split_go_entry entry "" Hentry) as (flags & Hsplit & Hflags).
    rewrite append_nil_r in Hsplit. rewrite Hsplit. cbn [Py.split_go].
    rewrite app_nil_r. exact Hflags.
  - change (String.concat " " (entry :: entry' :: entries))
      with (entry +:+ " " +:+ String.concat " " (entry' :: entries)).
    destruct (split_go_entry entry (" " +:+ String.concat " " (entry' :: entries)) Hentry)
      as (flags & -> & Hflags).
    rewrite split_go_space. apply Forall_app. split; [exact Hflags | apply IH, Hentries].
Qed.

Lemma sanitise_tokens_allowed (lstat_size : string -> option Z)
    (args : list pyval) (log : list log_record) :
  exists sanitised log',
    _sanitise lstat_size args log = (Return sanitised, log')
    /\ Forall (fun flag => flag ∈ _allowed) (Py.split sanitised).
Proof.
  unfold _sanitise, _sanitise_checked.
  destruct (for_each_entries (_sanitise_arg lstat_size)
              (sanitise_arg_entries lstat_size) args [] log (List.Forall_nil _))
    as (checked & log' & Hrun & Hchecked).
  unfold bind. rewrite Hrun. exists (Py.join " " checked), log'.
  split; [reflexivity | apply split_join_entries, Hchecked].
Qed.

(** X2. Called with arguments that are each a [str], a [list] of [str] or
    [None], and whatever the file system holds, [_sanitise] raises nothing,
    and every whitespace-delimited token of the string it returns is a flag
    of the allow-list: no value, file name or unknown option survives. *)
Theorem sanitise_returns_allowed_flags (lstat_size : string -> option Z)
    (args : list pyval) (log : list log_record) :
  exists sanitised log',
    _sanitise lstat_size args log = (Return sanitised, log')
    /\ Forall (fun flag => flag ∈ _allowed) (Py.split sanitised).
Proof. apply sanitise_tokens_allowed. Qed.

(** ** The sanitiser in closed form *)

Lemma check_arg_kept (lstat_size : string -> option Z) (arg : string)
    (value : option string) (log : list log_record) :
  value = None \/ value = Some "" ->
  exists log',
    _check_arg_and_value lstat_size arg value log =
    (Return (if bool_decide (arg ∈ _allowed) then arg +:+ " " else ""), log').
Proof.
  intros Hvalue. unfold _check_arg_and_value, bind, try.
  rewrite is_allowed_outcomes.
  destruct (bool_decide (arg ∈ _allowed)) eqn:Hin.
  - pose proof Hin as Hin'. apply bool_decide_eq_true in Hin'.
    destruct (allowed_flags_plain arg Hin') as (-> & _ & _).
    change (0 <? -1) with false. cbv iota.
    destruct Hvalue as [-> | ->]; eexists; reflexivity.
  - destruct (0 <? Py.find "_" arg); eexists; reflexivity.
Qed.

Lemma allowed_entry_not_blank (f : string) :
  f ∈ _allowed -> String.eqb (Py.strip (f +:+ " ")) "" = false.
Proof.
  intros Hf. unfold _allowed in Hf.
  repeat (apply elem_of_cons in Hf as [->|Hf]; [vm_compute; reflexivity|]).
  apply elem_of_nil in Hf. destruct Hf.
Qed.

Lemma kept_flags_cons (token : string) (tokens : list string) :
  kept_flags (token :: tokens) =
  (if bool_decide (token ∈ _allowed) then [token +:+ " "] else []) ++ kept_flags tokens.
Proof.
  unfold kept_flags. rewrite filter_cons.
  destruct (decide (token ∈ _allowed)) as [Hin|Hout].
  - rewrite bool_decide_eq_true_2 by exact Hin. reflexivity.
  - rewrite bool_decide_eq_false_2 by exact Hout. reflexivity.
Qed.

(** The entry of one token, appended when it is not blank. *)
Lemma append_kept (lstat_size : string -> option Z) (token : string)
    (checked : list string) (log : list log_record) :
  exists log',
    (safe <- _check_arg_and_value lstat_size token (Some "") ;;
     (if negb (String.eqb (Py.strip safe) "") then
        logger DEBUG ("_sanitise(): appending args: " +:+ safe) ;;
        ret (checked ++ [safe])
      else ret checked)) log
    = (Return (checked ++ kept_flags [token]), log').
Proof.
  destruct (check_arg_kept lstat_size token (Some "") log (or_intror eq_refl))
    as (log1 & Hcheck).
  unfold bind at 1. rewrite Hcheck. rewrite kept_flags_cons.
  destruct (bool_decide (token ∈ _allowed)) eqn:Hin.
  - apply bool_decide_eq_true in Hin.
    rewrite (allowed_entry_not_blank token Hin). cbn [negb].
    unfold bind, logger, ret. eexists. reflexivity.
  - change (Py.strip "") with "". cbn [String.eqb negb app]. rewrite app_nil_r.
    unfold ret. eexists. reflexivity.
Qed.

Lemma bind_assoc {A B C} (m : M A) (f : A -> M B) (k : B -> M C) (log : list log_record) :
  bind m (fun x => bind (f x) k) log = bind (bind m f) k log.
Proof. unfold bind. destruct (m log) as [[a|e] log1]; reflexivity. Qed.

(** One turn of the loop takes the first remaining token, whatever the
    list still holds, and leaves the value empty: the test of the inner
    loop looks at the last token, which a flag stops at once. *)
Lemma filo_turn (head : string) (tail init : list string) (x new_arg : string)
    (log : list log_record) :
  head :: tail = init ++ [x] ->
  exists log1,
    (if is_flag head
     then ' (new_arg0, filo0) <- pop (head :: tail);;
          (if bool_decide (0 < length filo0)%nat
           then ' (filo1, new_value) <- while_not_flag (length filo0) filo0 "";;
                ret (filo1, new_arg0, new_value)
           else ret (filo0, new_arg0, ""))
     else logger DEBUG ("Got non-flag argument: " +:+ head);;
          ' (_, filo0) <- pop (head :: tail);; ret (filo0, new_arg, "")) log
    = (Return (init, (if is_flag head then x else new_arg), ""), log1).
Proof.
  intros Hsplit. rewrite Hsplit.
  destruct (is_flag head) eqn:Hflag.
  - unfold bind at 1. rewrite pop_last.
    destruct init as [|head' init'].
    + eexists. reflexivity.
    + assert (head' = head) as -> by (cbn in Hsplit; congruence).
      replace (bool_decide (0 < length (head :: init'))%nat) with true
        by (symmetry; apply bool_decide_eq_true; cbn; lia).
      cbn [length while_not_flag]. unfold bind, first, ret. rewrite Hflag. cbn [negb].
      eexists. reflexivity.
  - unfold bind at 1. unfold logger at 1. unfold bind at 1. rewrite pop_last.
    eexists. reflexivity.
Qed.

Lemma while_filo_turn (lstat_size : string -> option Z) (fuel : nat) (head : string)
    (tail init : list string) (x new_arg : string) (checked : list string)
    (log : list log_record) :
  head :: tail = init ++ [x] ->
  exists log1,
    while_filo lstat_size (S fuel) (head :: tail) new_arg "" checked log =
    while_filo lstat_size fuel init (if is_flag head then x else new_arg) ""
      (checked ++ kept_flags [if is_flag head then x else new_arg]) log1.
Proof.
  intros Hsplit. cbn [while_filo].
  replace (bool_decide (0 < length (head :: tail))%nat) with true
    by (symmetry; apply bool_decide_eq_true; cbn; lia).
  unfold bind at 1. unfold first at 1. unfold ret at 1.
  destruct (filo_turn head tail init x new_arg log Hsplit) as (log1 & Hturn).
  unfold bind at 1. rewrite Hturn.
  destruct (append_kept lstat_size (if is_flag head then x else new_arg) checked log1)
    as (log2 & Hkept).
  rewrite bind_assoc. unfold bind at 1. rewrite Hkept.
  exists log2. reflexivity.
Qed.

Lemma while_filo_done (lstat_size : string -> option Z) (fuel : nat)
    (new_arg new_value : string) (checked : list string) (log : list log_record) :
  while_filo lstat_size fuel [] new_arg new_value checked log = (Return checked, log).
Proof. destruct fuel; reflexivity. Qed.

(** The loop over the reversed tokens when the last token is a flag:
    every token is checked in its turn, from the first one on. *)
Lemma while_filo_flag (lstat_size : string -> option Z) (final : string) :
  is_flag final = true ->
  forall rest fuel new_arg checked log,
    (length rest < fuel)%nat ->
    exists log',
      while_filo lstat_size fuel (final :: rev rest) new_arg "" checked log
      = (Return (checked ++ kept_flags (rest ++ [final])), log').
Proof.
  intros Hflag rest.
  induction rest as [|token rest IH]; intros fuel new_arg checked log Hfuel;
    (destruct fuel as [|fuel]; [cbn in Hfuel; lia|]).
  - cbn [rev app].
    destruct (while_filo_turn lstat_size fuel final [] [] final new_arg checked log eq_refl)
      as (log1 & ->).
    rewrite Hflag, while_filo_done. exists log1. reflexivity.
  - cbn [rev].
    destruct (while_filo_turn lstat_size fuel final (rev rest ++ [token])
                (final :: rev rest) token new_arg checked log eq_refl)
      as (log1 & ->).
    rewrite Hflag.
    destruct (IH fuel token (checked ++ kept_flags [token]) log1 ltac:(cbn in Hfuel; lia))
      as (log2 & ->).
    exists log2. rewrite <- app_assoc.
    change ((token :: rest) ++ [final]) with (token :: (rest ++ [final])).
    rewrite (kept_flags_cons token (rest ++ [final])), (kept_flags_cons token []).
    unfold kept_flags at 2. cbn [filter fmap list_fmap]. rewrite app_nil_r. reflexivity.
Qed.

Lemma kept_flags_empty_name : kept_flags [""] = [].
Proof. vm_compute. reflexivity. Qed.

(** When the last token is no flag, no token is ever taken for an option:
    every turn checks the empty name, and nothing is appended. *)
Lemma while_filo_value (lstat_size : string -> option Z) (final : string) :
  is_flag final = false ->
  forall rest fuel checked log,
    (length rest < fuel)%nat ->
    exists log',
      while_filo lstat_size fuel (final :: rev rest) "" "" checked log
      = (Return checked, log').
Proof.
  intros Hflag rest.
  induction rest as [|token rest IH]; intros fuel checked log Hfuel;
    (destruct fuel as [|fuel]; [cbn in Hfuel; lia|]).
  - cbn [rev app].
    destruct (while_filo_turn lstat_size fuel final [] [] final "" checked log eq_refl)
      as (log1 & ->).
    rewrite Hflag, while_filo_done, kept_flags_empty_name, app_nil_r.
    exists log1. reflexivity.
  - cbn [rev].
    destruct (while_filo_turn lstat_size fuel final (rev rest ++ [token])
                (final :: rev rest) token "" checked log eq_refl)
      as (log1 & ->).
    rewrite Hflag, kept_flags_empty_name, app_nil_r.
    apply IH. cbn in Hfuel. lia.
Qed.

Lemma sanitise_arg_string (lstat_size : string -> option Z) (arg : string)
    (checked : list string) (log : list log_record) :
  exists log',
    _sanitise_arg lstat_size (PyStr arg) checked log =
    (Return (checked ++
             (if 0 <? Py.find " " arg then
                match last (Py.split arg) with
                | Some final => if is_flag final then kept_flags (Py.split arg) else []
                | None => []
                end
              else [if bool_decide (arg ∈ _allowed) then arg +:+ " " else ""])), log').
Proof.
  cbn [_sanitise_arg]. unfold bind at 1. unfold logger at 1.
  destruct (0 <? Py.find " " arg).
  - destruct (Py.split arg) as [|token tokens] eqn:Htokens.
    { cbn [rev length while_filo last]. rewrite app_nil_r. eexists. reflexivity. }
    destruct (exists_last (l := token :: tokens) ltac:(discriminate)) as (rest & final & ->).
    rewrite last_snoc, rev_unit, length_cons, length_rev.
    destruct (is_flag final) eqn:Hflag.
    + apply (while_filo_flag lstat_size final Hflag). lia.
    + rewrite app_nil_r. apply (while_filo_value lstat_size final Hflag). lia.
  - destruct (check_arg_kept lstat_size arg None
                (log ++ [(DEBUG, "_sanitise(): Got arg string: " +:+ arg)])
                (or_introl eq_refl)) as (log1 & Hcheck).
    unfold bind at 1. rewrite Hcheck. unfold bind, logger, ret.
    eexists. reflexivity.
Qed.

Lemma sanitise_string_run (lstat_size : string -> option Z) (arg : string)
    (log : list log_record) :
  exists log', _sanitise lstat_size [PyStr arg] log = (Return (sanitised_string arg), log').
Proof.
  unfold _sanitise, _sanitise_checked. cbn [for_each].
  destruct (sanitise_arg_string lstat_size arg [] log) as (log1 & Harg).
  unfold bind at 1. unfold bind at 1. rewrite Harg. unfold ret, bind. cbn [app].
  exists log1. unfold sanitised_string. do 2 f_equal.
  destruct (0 <? Py.find " " arg).
  - destruct (last (Py.split arg)) as [final|]; [|reflexivity].
    destruct (is_flag final); reflexivity.
  - destruct (bool_decide (arg ∈ _allowed)); [|reflexivity].
    unfold Py.join. cbn [String.concat]. reflexivity.
Qed.

(** X3. [_sanitise] of one [str] in closed form.  A string without an inner
    space gives itself and a space when it is an allowed flag, and the empty
    string otherwise.  A string of several tokens gives the allowed flags
    among its tokens, each followed by a space, joined by spaces, when its
    last token starts with a hyphen; when its last token does not, it gives
    the empty string, whatever flags come before. *)
Theorem sanitise_string_closed_form (lstat_size : string -> option Z) (arg : string)
    (log : list log_record) :
  fst (_sanitise lstat_size [PyStr arg] log) = Return (sanitised_string arg).
Proof.
  destruct (sanitise_string_run lstat_size arg log) as (log' & ->). reflexivity.
Qed.

(** ** [make_args]: the command of the child process *)

Lemma sanitise_list_loop (lstat_size : string -> option Z) (l : list string) :
  forall yielded log,
    exists log',
      for_each l
        (fun arg yielded =>
           safe_arg <- _sanitise lstat_size [PyStr arg] ;;
           if negb (String.eqb safe_arg "") then ret (yielded ++ [safe_arg])
           else ret yielded)
        yielded log
      = (Return (yielded ++ sanitised_list (PyList l)), log').
Proof.
  induction l as [|arg l IH]; intros yielded log.
  - exists log. cbn. rewrite app_nil_r. reflexivity.
  - cbn [for_each]. unfold bind at 1. unfold bind at 1.
    pose proof (sanitise_string_run lstat_size arg log) as (log1 & Hrun).
    rewrite Hrun. cbn [sanitised_list fmap list_fmap]. rewrite filter_cons.
    destruct (String.eqb_spec (sanitised_string arg) "") as [Hempty|Hfull];
      cbn [negb]; unfold ret at 1.
    + destruct (IH yielded log1) as (log' & ->). exists log'.
      destruct (decide (sanitised_string arg <> "")) as [Hne|_]; [contradiction|].
      reflexivity.
    + destruct (IH (yielded ++ [sanitised_string arg]) log1) as (log' & ->). exists log'.
      destruct (decide (sanitised_string arg <> "")) as [_|He]; [|contradiction].
      rewrite <- app_assoc. reflexivity.
Qed.

Lemma sanitise_list_closed_form (lstat_size : string -> option Z) (arg_list : pyval)
    (log : list log_record) :
  exists log',
    _sanitise_list lstat_size arg_list log = (Return (sanitised_list arg_list), log').
Proof.
  destruct arg_list as [|s|l]; cbn [_sanitise_list sanitised_list].
  - exists log. reflexivity.
  - exists log. reflexivity.
  - apply (sanitise_list_loop lstat_size l []).
Qed.

Lemma sanitised_list_falsy (v : pyval) : truthy_val v = false -> sanitised_list v = [].
Proof.
  destruct v as [|s|l]; [reflexivity | reflexivity |].
  destruct l; [reflexivity | discriminate].
Qed.

Lemma sanitised_list_elements (v : pyval) : Forall sanitised_element (sanitised_list v).
Proof.
  destruct v as [|s|l]; [constructor | constructor |].
  cbn [sanitised_list]. apply Forall_forall. intros element Hin.
  apply list_elem_of_filter in Hin as [Hne Hin].
  apply list_elem_of_fmap in Hin as (arg & -> & _).
  split; [exact Hne|].
  destruct (sanitise_tokens_allowed (fun _ => None) [PyStr arg] [])
    as (sanitised & log' & Hrun & Htokens).
  destruct (sanitise_string_run (fun _ => None) arg []) as (log1 & Hclosed).
  rewrite Hrun in Hclosed. injection Hclosed as <- _.
  exact Htokens.
Qed.

Lemma make_args_fixed (lstat_size : string -> option Z) (self : gpg) (args : pyval)
    (passphrase : bool) :
  make_args lstat_size self args passphrase =
  (cmd <- (if truthy_val self.(options) then
             opts <- _sanitise_list lstat_size self.(options) ;;
             ret (fixed_args self passphrase ++ opts)
           else ret (fixed_args self passphrase)) ;;
   cmd <- (if truthy_val args then
             safe_args <- _sanitise_list lstat_size args ;;
             ret (cmd ++ safe_args)
           else ret cmd) ;;
   logger DEBUG ("make_args(): Using command: " +:+ str_of (PyList cmd)) ;;
   ret cmd)%py.
Proof.
  unfold make_args, fixed_args. cbv zeta.
  destruct (truthy_option (gpghome self)), (truthy_option (keyring self)),
    passphrase, (use_agent self); reflexivity.
Qed.

Lemma extend_sanitised (lstat_size : string -> option Z) (cmd : list string) (v : pyval)
    (log : list log_record) :
  exists log',
    (if truthy_val v then
       safe_args <- _sanitise_list lstat_size v ;;
       ret (cmd ++ safe_args)
     else ret cmd) log = (Return (cmd ++ sanitised_list v), log').
Proof.
  destruct (truthy_val v) eqn:Htruth.
  - destruct (sanitise_list_closed_form lstat_size v log) as (log' & Hrun).
    unfold bind. rewrite Hrun. exists log'. reflexivity.
  - rewrite (sanitised_list_falsy v Htruth), app_nil_r. exists log. reflexivity.
Qed.

Lemma make_args_run (lstat_size : string -> option Z) (self : gpg) (args : pyval)
    (passphrase : bool) (log : list log_record) :
  exists log',
    make_args lstat_size self args passphrase log =
    (Return (fixed_args self passphrase
             ++ sanitised_list self.(options) ++ sanitised_list args), log').
Proof.
  rewrite (make_args_fixed lstat_size self args passphrase).
  destruct (extend_sanitised lstat_size (fixed_args self passphrase) self.(options) log)
    as (log1 & Hopts).
  unfold bind at 1. rewrite Hopts.
  destruct (extend_sanitised lstat_size
              (fixed_args self passphrase ++ sanitised_list self.(options)) args log1)
    as (log2 & Hargs).
  unfold bind at 1. rewrite Hargs. unfold bind, logger, ret.
  rewrite <- app_assoc. eexists. reflexivity.
Qed.

(** X4. The command that [make_args] builds is its fixed part (the binary,
    the status and tty flags, then the home directory, the keyring, the
    passphrase and the agent flags that apply), followed by what the
    sanitiser leaves of each element of the options and of the arguments,
    the empty results left out.  No such element is empty and each is made
    of allow-listed flags only; options or arguments that are not a list (a
    [str], as [__init__] binds [options]) contribute nothing. *)
Theorem make_args_command (lstat_size : string -> option Z) (self : gpg) (args : pyval)
    (passphrase : bool) (log : list log_record) :
  fst (make_args lstat_size self args passphrase log) =
  Return (fixed_args self passphrase
          ++ sanitised_list self.(options) ++ sanitised_list args)
  /\ Forall sanitised_element (sanitised_list self.(options) ++ sanitised_list args)
  /\ (forall s, sanitised_list (PyStr s) = []).
Proof.
  destruct (make_args_run lstat_size self args passphrase log) as (log' & ->).
  split; [reflexivity|]. split; [|reflexivity].
  apply Forall_app. split; apply sanitised_list_elements.
Qed.

(** ** The commands of the public methods *)

Lemma command_line_run (lstat_size : string -> option Z) (self : gpg) (args : pyval)
    (passphrase : bool) (log : list log_record) :
  fst (command_line lstat_size self args passphrase log) =
  Return (Py.join " " (fixed_args self passphrase
                       ++ sanitised_list self.(options) ++ sanitised_list args)).
Proof.
  unfold command_line.
  destruct (make_args_run lstat_size self args passphrase log) as (log' & Hrun).
  unfold bind at 1. rewrite Hrun. reflexivity.
Qed.

Lemma list_keys_args_kept (secret : bool) :
  sanitised_list (list_keys_args secret) =
  [if secret then "--fingerprint  --with-colons "
   else "--list-keys  --fingerprint  --with-colons "].
Proof. destruct secret; vm_compute; reflexivity. Qed.

(** X5. The command line of [list_keys]: of the four options the method
    asks for, [--fixed-list-mode] is dropped by the sanitiser, and so is
    [--list-secret-keys], so that listing the secret keys runs the command
    of a bare [--fingerprint --with-colons]. *)
Theorem list_keys_command (lstat_size : string -> option Z) (self : gpg) (secret : bool)
    (log : list log_record) :
  fst (command_line lstat_size self (list_keys_args secret) false log) =
  Return (Py.join " "
            (fixed_args self false ++ sanitised_list self.(options)
             ++ [if secret then "--fingerprint  --with-colons "
                 else "--list-keys  --fingerprint  --with-colons "])).
Proof.
  rewrite command_line_run, list_keys_args_kept. reflexivity.
Qed.

Lemma solid_append (s t : string) : solid (s +:+ t) = solid s && solid t.
Proof.
  induction s as [|a s IH]; [reflexivity|].
  rewrite append_cons. unfold solid in *. cbn [string_forall]. rewrite IH.
  rewrite andb_assoc. reflexivity.
Qed.

Lemma solid_dquoted (s : string) : solid s = true -> solid (dquoted s) = true.
Proof.
  intros Hs. unfold dquoted.
  change (String Py.dquote (s +:+ String Py.dquote ""))
    with (String Py.dquote "" +:+ (s +:+ String Py.dquote "")).
  rewrite !solid_append, Hs. reflexivity.
Qed.

Lemma split_solid (token : string) :
  solid token = true -> token <> "" -> Py.split token = [token].
Proof.
  intros Hsolid Hne. unfold Py.split.
  rewrite <- (append_nil_r token) at 1.
  rewrite (split_go_solid token "" [] Hsolid), app_nil_r.
  destruct (rev (list_ascii_of_string token)) as [|c cur] eqn:Hrev.
  - destruct token; [congruence|]. cbn [list_ascii_of_string rev] in Hrev.
    apply app_eq_nil in Hrev as [_ Hrev]. discriminate.
  - cbn [Py.split_go]. rewrite <- Hrev, rev_involutive, string_of_list_ascii_of_string.
    reflexivity.
Qed.

Lemma split_dquoted (s : string) : solid s = true -> Py.split (dquoted s) = [dquoted s].
Proof.
  intros Hs. apply split_solid; [apply solid_dquoted, Hs | discriminate].
Qed.

Lemma default_key_dropped (k : string) :
  solid k = true -> sanitised_string ("--default-key " +:+ dquoted k) = "".
Proof.
  intros Hk. unfold sanitised_string.
  change (0 <? Py.find " " ("--default-key " +:+ dquoted k)) with true. cbv iota.
  change (Py.split ("--default-key " +:+ dquoted k))
    with ("--default-key" :: Py.split (dquoted k)).
  rewrite (split_dquoted k Hk). reflexivity.
Qed.

(** X6. Nothing that [sign_file] asks for reaches the command line: [-s]
    and [-sa], [--clearsign], [--detach-sign] and the default key (a key id
    without white space) are all dropped by the sanitiser, and the command
    is the one of [make_args] without arguments. *)
Theorem sign_file_command (lstat_size : string -> option Z) (self : gpg)
    (keyid : option string) (clearsign detach binary passphrase : bool)
    (log : list log_record) :
  (forall k, keyid = Some k -> solid k = true) ->
  exists args log1,
    sign_file_args keyid clearsign detach binary log = (Return args, log1)
    /\ sanitised_list args = []
    /\ fst (command_line lstat_size self args passphrase log1) =
       Return (Py.join " " (fixed_args self passphrase ++ sanitised_list self.(options))).
Proof.
  intros Hkeyid.
  assert (Hdropped : forall args, sanitised_list (PyList args) = [] ->
            sanitised_list
              (PyList (if truthy_option keyid
                       then args ++ ["--default-key " +:+ dquoted (str_of_option keyid)]
                       else args)) = []).
  { intros args Hargs. destruct keyid as [k|]; [|exact Hargs].
    cbn [truthy_option str_of_option]. destruct (truthy k); [|exact Hargs].
    cbn [sanitised_list] in *. rewrite fmap_app, filter_app, Hargs.
    cbn [fmap list_fmap]. rewrite (default_key_dropped k (Hkeyid k eq_refl)).
    reflexivity. }
  assert (Hrun : exists args log1,
            sign_file_args keyid clearsign detach binary log = (Return (PyList args), log1)
            /\ sanitised_list (PyList args) = []).
  { unfold sign_file_args.
    destruct binary, clearsign, detach; cbn [andb negb]; unfold bind, logger, ret;
      do 2 eexists; (split; [reflexivity | apply Hdropped; vm_compute; reflexivity]). }
  destruct Hrun as (args & log1 & Hrun & Hnone).
  exists (PyList args), log1. split; [exact Hrun|]. split; [exact Hnone|].
  rewrite command_line_run, Hnone, app_nil_r. reflexivity.
Qed.

Lemma sign_file_command_witness :
  exists args log1,
    sign_file_args (Some "3FF0DB166A7476EA") false true false [] = (Return args, log1)
    /\ sanitised_list args = []
    /\ fst (command_line (fun _ => None)
              (mk_gpg "gpg" (Some "keys") None false PyNone) args true log1) =
       Return (Py.join " " (fixed_args (mk_gpg "gpg" (Some "keys") None false PyNone) true
                            ++ sanitised_list
                                 (options (mk_gpg "gpg" (Some "keys") None false PyNone)))).
Proof.
  apply (sign_file_command (fun _ => None) (mk_gpg "gpg" (Some "keys") None false PyNone)
           (Some "3FF0DB166A7476EA") false true false true []).
  intros k [= <-]. reflexivity.
Defined.

(** ** The status handlers over a run *)

Lemma feed_handled {R : Type} (h : R -> string -> string -> R * option exn)
    (events : list (string * string)) :
  forall result,
    (feed h result events).2 = None -> handled h result events = events.
Proof.
  induction events as [|[keyword value] events IH]; intros result Hrun; [reflexivity|].
  cbn [feed handled] in *.
  destruct (h result keyword value) as [result' [e|]]; [discriminate|].
  rewrite (IH result' Hrun). reflexivity.
Qed.

Lemma trust_levels_known (key : string) (trust : Z) :
  Verify.TRUST_LEVELS !! key = Some trust ->
  key ∈ ["TRUST_UNDEFINED"; "TRUST_NEVER"; "TRUST_MARGINAL"; "TRUST_FULLY";
         "TRUST_ULTIMATE"].
Proof.
  intros Hsome.
  destruct (decide (key ∈ ["TRUST_UNDEFINED"; "TRUST_NEVER"; "TRUST_MARGINAL";
                           "TRUST_FULLY"; "TRUST_ULTIMATE"])) as [Hin|Hout];
    [exact Hin|].
  rewrite (trust_levels_unknown key Hout) in Hsome. discriminate.
Qed.

(** The right-hand side of a goal, once the keyword is known, evaluated. *)
Ltac eval_rhs :=
  match goal with
  | |- _ = ?rhs => let r := eval vm_compute in rhs in change rhs with r
  end.

(** From [H : key ∈ [k1; k2; ...]] to one goal per keyword. *)
Ltac each_keyword H tac :=
  repeat (apply elem_of_cons in H as [->|H]; [tac|]);
  apply elem_of_nil in H; destruct H.

(** What one call does to [valid]: the keyword alone decides. *)
Lemma verify_step_valid (self : Verify.t) (key value : string) :
  Verify.valid (Verify.handle_status self key value).1 =
  if String.eqb key "GOODSIG" then true
  else if key_in key rejecting_keywords then false
  else Verify.valid self.
Proof.
  unfold Verify.handle_status.
  destruct (Verify.TRUST_LEVELS !! key) as [trust|] eqn:Htrust.
  { apply trust_levels_known in Htrust. each_keyword Htrust ltac:(reflexivity). }
  destruct (key_in key ["RSA_OR_IDEA"; "NODATA"; "IMPORT_RES"; "PLAINTEXT";
                        "PLAINTEXT_LENGTH"; "POLICY_URL"; "DECRYPTION_INFO";
                        "DECRYPTION_OKAY"; "INV_SGNR"]) eqn:Hignored.
  { apply bool_decide_eq_true in Hignored. each_keyword Hignored ltac:(reflexivity). }
  destruct (String.eqb_spec key "BADSIG") as [->|Hbadsig].
  { eval_rhs. repeat case_match; reflexivity. }
  destruct (String.eqb_spec key "GOODSIG") as [->|Hgoodsig].
  { repeat case_match; reflexivity. }
  destruct (String.eqb_spec key "VALIDSIG") as [->|Hvalidsig].
  { eval_rhs. repeat case_match; reflexivity. }
  destruct (String.eqb_spec key "SIG_ID") as [->|Hsigid].
  { eval_rhs. repeat case_match; reflexivity. }
  destruct (String.eqb_spec key "ERRSIG") as [->|Herrsig].
  { eval_rhs. repeat case_match; reflexivity. }
  destruct (String.eqb_spec key "DECRYPTION_FAILED") as [->|Hfailed].
  { reflexivity. }
  destruct (String.eqb_spec key "NO_PUBKEY") as [->|Hnopubkey].
  { reflexivity. }
  destruct (key_in key ["KEYEXPIRED"; "SIGEXPIRED"]) eqn:Hexpired.
  { apply bool_decide_eq_true in Hexpired. each_keyword Hexpired ltac:(reflexivity). }
  destruct (key_in key ["EXPKEYSIG"; "REVKEYSIG"]) eqn:Hsig.
  { apply bool_decide_eq_true in Hsig.
    each_keyword Hsig ltac:(eval_rhs; repeat case_match; reflexivity). }
  apply bool_decide_eq_false in Hsig. split_not_in Hsig.
  unfold rejecting_keywords. skip_branches. reflexivity.
Qed.

(** X7. Whether a [Verify] object is valid after a run depends on the
    keywords handled alone: the last of [GOODSIG] and of the rejecting
    keywords ([BADSIG], [ERRSIG], [DECRYPTION_FAILED], [NO_PUBKEY],
    [EXPKEYSIG], [REVKEYSIG]) decides, also when the call for it raises on a
    malformed value; every other keyword leaves the flag as it is. *)
Theorem verify_valid_is_last_verdict (events : list (string * string)) :
  forall self,
    Verify.valid (feed Verify.handle_status self events).1 =
    verdict (Verify.valid self) (handled Verify.handle_status self events)
    /\ ((feed Verify.handle_status self events).2 = None ->
        Verify.valid (feed Verify.handle_status self events).1 =
        verdict (Verify.valid self) events).
Proof.
  assert (Hrun : forall self,
             Verify.valid (feed Verify.handle_status self events).1 =
             verdict (Verify.valid self) (handled Verify.handle_status self events)).
  { induction events as [|[keyword value] events IH]; intros self; [reflexivity|].
    cbn [feed handled verdict].
    pose proof (verify_step_valid self keyword value) as Hstep.
    destruct (Verify.handle_status self keyword value) as [self' [e|]];
      cbn [fst verdict] in *; rewrite <- Hstep; [reflexivity | apply IH]. }
  intros self. split; [apply Hrun|].
  intros Hnone. rewrite Hrun, (feed_handled _ events self Hnone). reflexivity.
Qed.

Lemma verify_valid_is_last_verdict_witness :
  let events := [("BADSIG", "ABCD1234 Some One"); ("SIG_ID", "a b c");
                 ("GOODSIG", "ABCD1234 Some One"); ("TRUST_FULLY", "")] in
  Verify.valid (feed Verify.handle_status Verify.__init__ events).1 =
  verdict (Verify.valid Verify.__init__) events.
Proof.
  intros events. apply (proj2 (verify_valid_is_last_verdict events Verify.__init__)).
  vm_compute. reflexivity.
Defined.

(** What one call does to the trust attributes: a trust keyword binds
    both, any other keyword leaves both. *)
Lemma verify_step_trust (self : Verify.t) (key value : string) :
  (Verify.trust_text (Verify.handle_status self key value).1,
   Verify.trust_level (Verify.handle_status self key value).1) =
  match Verify.TRUST_LEVELS !! key with
  | Some trust => (Some key, Some trust)
  | None => (Verify.trust_text self, Verify.trust_level self)
  end.
Proof.
  unfold Verify.handle_status.
  destruct (Verify.TRUST_LEVELS !! key) as [trust|] eqn:Htrust; [reflexivity|].
  repeat case_match; reflexivity.
Qed.

Lemma trust_levels_range (text : string) (trust : Z) :
  Verify.TRUST_LEVELS !! text = Some trust -> 0 <= trust <= 4.
Proof.
  intros Hsome. pose proof (trust_levels_known text trust Hsome) as Hin.
  each_keyword Hin ltac:(vm_compute in Hsome; injection Hsome as <-; lia).
Qed.

(** X8. After any run on a fresh [Verify] object the two trust attributes
    agree: either none is bound, or [trust_text] is one of the five trust
    keywords and [trust_level] is the level of [TRUST_LEVELS] for it, a
    number from 0 to 4. *)
Theorem verify_trust_consistent (events : list (string * string)) :
  let final := (feed Verify.handle_status Verify.__init__ events).1 in
  (Verify.trust_text final = None /\ Verify.trust_level final = None)
  \/ exists text trust,
       Verify.trust_text final = Some text
       /\ Verify.trust_level final = Some trust
       /\ Verify.TRUST_LEVELS !! text = Some trust
       /\ 0 <= trust <= 4.
Proof.
  cbv zeta.
  assert (Hinv : forall self,
    ((Verify.trust_text self = None /\ Verify.trust_level self = None)
     \/ exists text trust,
          Verify.trust_text self = Some text /\ Verify.trust_level self = Some trust
          /\ Verify.TRUST_LEVELS !! text = Some trust /\ 0 <= trust <= 4) ->
    let final := (feed Verify.handle_status self events).1 in
    (Verify.trust_text final = None /\ Verify.trust_level final = None)
    \/ exists text trust,
         Verify.trust_text final = Some text /\ Verify.trust_level final = Some trust
         /\ Verify.TRUST_LEVELS !! text = Some trust /\ 0 <= trust <= 4).
  { induction events as [|[keyword value] events IH]; intros self Hself; [exact Hself|].
    cbn [feed].
    pose proof (verify_step_trust self keyword value) as Hstep.
    assert (Hnext :
      (Verify.trust_text (Verify.handle_status self keyword value).1 = None
       /\ Verify.trust_level (Verify.handle_status self keyword value).1 = None)
      \/ exists text trust,
           Verify.trust_text (Verify.handle_status self keyword value).1 = Some text
           /\ Verify.trust_level (Verify.handle_status self keyword value).1 = Some trust
           /\ Verify.TRUST_LEVELS !! text = Some trust /\ 0 <= trust <= 4).
    { destruct (Verify.TRUST_LEVELS !! keyword) as [trust|] eqn:Htrust;
        injection Hstep as -> ->; [|exact Hself].
      right. exists keyword, trust.
      repeat split; try assumption; apply (trust_levels_range keyword trust Htrust). }
    destruct (Verify.handle_status self keyword value) as [self' [e|]];
      [exact Hnext | apply IH, Hnext]. }
  apply Hinv. left. split; reflexivity.
Qed.

(** ** [GenKey], [Sign] and [DeleteResult] over a run *)

Lemma string_of_list_nonempty (c : ascii) (cur : list ascii) :
  string_of_list_ascii (rev (c :: cur)) <> "".
Proof.
  cbn [rev]. destruct (rev cur) as [|d l]; discriminate.
Qed.

Lemma split_go_nonempty (s : string) :
  forall cur, Forall (fun token => token <> "") (Py.split_go cur s).
Proof.
  induction s as [|a s IH]; intros cur.
  - destruct cur as [|c cur]; [constructor|].
    constructor; [apply string_of_list_nonempty | constructor].
  - cbn [Py.split_go]. destruct (Py.isspace a); [|apply IH].
    destruct cur as [|c cur]; [apply IH|].
    constructor; [apply string_of_list_nonempty | apply IH].
Qed.

(** No token of [s.split()] is empty. *)
Lemma split_tokens_nonempty (s : string) :
  Forall (fun token => token <> "") (Py.split s).
Proof. apply split_go_nonempty. Qed.

Lemma genkey_step (self : GenKey.t) (key value : string) :
  (key <> "KEY_CREATED" /\ (GenKey.handle_status self key value).1 = self)
  \/ (key = "KEY_CREATED"
      /\ ((exists type fingerprint,
              Py.split value = [type; fingerprint]
              /\ GenKey.handle_status self key value =
                 (GenKey.mk (Some type) (Some fingerprint), None))
          \/ ((GenKey.handle_status self key value).1 = self
              /\ (GenKey.handle_status self key value).2 <> None))).
Proof.
  unfold GenKey.handle_status.
  destruct (key_in key ["PROGRESS"; "GOOD_PASSPHRASE"; "NODATA"; "KEY_NOT_CREATED"])
    eqn:Hignored.
  { left. apply bool_decide_eq_true in Hignored.
    each_keyword Hignored ltac:(split; [discriminate | reflexivity]). }
  destruct (String.eqb_spec key "KEY_CREATED") as [->|Hother];
    [|left; split; [exact Hother | reflexivity]].
  right. split; [reflexivity|].
  destruct (Py.split value) as [|a [|b [|c l]]];
    [right; split; [reflexivity | discriminate]
    |right; split; [reflexivity | discriminate]
    |left; exists a, b; split; reflexivity
    |right; split; [reflexivity | discriminate]].
Qed.

Lemma genkey_feed_sound (events : list (string * string)) :
  forall self,
    (feed GenKey.handle_status self events).1 = self
    \/ exists value type fingerprint,
         ("KEY_CREATED", value) ∈ events
         /\ Py.split value = [type; fingerprint]
         /\ (feed GenKey.handle_status self events).1 =
            GenKey.mk (Some type) (Some fingerprint).
Proof.
  induction events as [|[keyword value] events IH]; intros self; [left; reflexivity|].
  cbn [feed].
  destruct (genkey_step self keyword value)
    as [[Hother Hsame] | [-> [(type & fingerprint & Hsplit & Hrun) | [Hsame Hraise]]]].
  - destruct (GenKey.handle_status self keyword value) as [self' [e|]];
      cbn [fst] in Hsame; subst self'; [left; reflexivity|].
    destruct (IH self) as [Hkeep | (v & t & f & Hin & Hsplit & Hfinal)];
      [left; exact Hkeep|].
    right. exists v, t, f. split; [apply elem_of_cons; right; exact Hin|].
    split; assumption.
  - rewrite Hrun.
    destruct (IH (GenKey.mk (Some type) (Some fingerprint)))
      as [Hkeep | (v & t & f & Hin & Hsplit' & Hfinal)].
    + right. exists value, type, fingerprint.
      split; [apply elem_of_cons; left; reflexivity|]. split; assumption.
    + right. exists v, t, f. split; [apply elem_of_cons; right; exact Hin|].
      split; assumption.
  - destruct (GenKey.handle_status self "KEY_CREATED" value) as [self' [e|]];
      cbn [fst snd] in *; [left; exact Hsame | congruence].
Qed.

Lemma genkey_feed_complete (events : list (string * string)) :
  forall self,
    (feed GenKey.handle_status self events).2 = None ->
    GenKey.__nonzero__ self = true \/ (exists value, ("KEY_CREATED", value) ∈ events) ->
    GenKey.__nonzero__ (feed GenKey.handle_status self events).1 = true.
Proof.
  induction events as [|[keyword value] events IH]; intros self Hrun Hsome.
  { destruct Hsome as [Htrue | (value & Hin)]; [exact Htrue|].
    apply elem_of_nil in Hin. destruct Hin. }
  cbn [feed] in *.
  destruct (genkey_step self keyword value)
    as [[Hother Hsame] | [-> [(type & fingerprint & Hsplit & Hstep) | [Hsame Hraise]]]].
  - destruct (GenKey.handle_status self keyword value) as [self' [e|]];
      [discriminate|]. cbn [fst] in Hsame. subst self'.
    apply IH; [exact Hrun|].
    destruct Hsome as [Htrue | (v & Hin)]; [left; exact Htrue|].
    apply elem_of_cons in Hin as [[= <- _] | Hin]; [congruence|].
    right. exists v. exact Hin.
  - rewrite Hstep in *. apply IH; [exact Hrun|]. left.
    pose proof (split_tokens_nonempty value) as Htokens. rewrite Hsplit in Htokens.
    apply Forall_cons in Htokens as [_ Htokens].
    apply Forall_cons in Htokens as [Hne _].
    unfold GenKey.__nonzero__, truthy. cbn [GenKey.fingerprint].
    rewrite (proj2 (String.eqb_neq fingerprint "") Hne). reflexivity.
  - destruct (GenKey.handle_status self "KEY_CREATED" value) as [self' [e|]];
      [discriminate | cbn [snd] in Hraise; congruence].
Qed.

(** X9. A [GenKey] object is true after a run only if a [KEY_CREATED] event
    of two tokens was handled, and its type and fingerprint are those two
    tokens; and it is true after every run that raises nothing and handles a
    [KEY_CREATED] event. *)
Theorem genkey_truth_is_key_created (events : list (string * string)) :
  let final := (feed GenKey.handle_status GenKey.__init__ events).1 in
  (GenKey.__nonzero__ final = true ->
   exists value type fingerprint,
     ("KEY_CREATED", value) ∈ events
     /\ Py.split value = [type; fingerprint]
     /\ final = GenKey.mk (Some type) (Some fingerprint))
  /\ ((feed GenKey.handle_status GenKey.__init__ events).2 = None ->
      (exists value, ("KEY_CREATED", value) ∈ events) ->
      GenKey.__nonzero__ final = true).
Proof.
  cbv zeta. split.
  - intros Htrue.
    destruct (genkey_feed_sound events GenKey.__init__) as [Hkeep | Hcreated];
      [|exact Hcreated].
    rewrite Hkeep in Htrue. discriminate.
  - intros Hrun Hsome. apply genkey_feed_complete; [exact Hrun | right; exact Hsome].
Qed.

Lemma genkey_truth_is_key_created_witness :
  let events := [("PROGRESS", "primegen"); ("KEY_CREATED", "B 0123456789ABCDEF")] in
  (exists value type fingerprint,
      ("KEY_CREATED", value) ∈ events
      /\ Py.split value = [type; fingerprint]
      /\ (feed GenKey.handle_status GenKey.__init__ events).1 =
         GenKey.mk (Some type) (Some fingerprint))
  /\ GenKey.__nonzero__ (feed GenKey.handle_status GenKey.__init__ events).1 = true.
Proof.
  intros events. split.
  - apply (proj1 (genkey_truth_is_key_created events)). reflexivity.
  - apply (proj2 (genkey_truth_is_key_created events)); [reflexivity|].
    exists "B 0123456789ABCDEF". apply elem_of_cons. right.
    apply elem_of_cons. left. reflexivity.
Defined.

Lemma sign_step (self : Sign.t) (key value : string) :
  (key <> "SIG_CREATED" /\ (Sign.handle_status self key value).1 = self)
  \/ (key = "SIG_CREATED"
      /\ ((exists type algo hashalgo cls timestamp fingerprint,
              Py.split value = [type; algo; hashalgo; cls; timestamp; fingerprint]
              /\ Sign.handle_status self key value =
                 (Sign.mk (Some type) (Some fingerprint) (Some timestamp), None))
          \/ ((Sign.handle_status self key value).1 = self
              /\ (Sign.handle_status self key value).2 <> None))).
Proof.
  unfold Sign.handle_status.
  destruct (key_in key ["USERID_HINT"; "NEED_PASSPHRASE"; "BAD_PASSPHRASE";
                        "GOOD_PASSPHRASE"; "BEGIN_SIGNING"; "CARDCTRL";
                        "INV_SGNR"; "NODATA"]) eqn:Hignored.
  { left. apply bool_decide_eq_true in Hignored.
    each_keyword Hignored ltac:(split; [discriminate | reflexivity]). }
  destruct (String.eqb_spec key "SIG_CREATED") as [->|Hother];
    [|left; split; [exact Hother | reflexivity]].
  right. split; [reflexivity|].
  destruct (Py.split value) as [|a [|b [|c [|d [|e [|f [|g l]]]]]]];
    try (right; split; [reflexivity | discriminate]).
  left. exists a, b, c, d, e, f. split; reflexivity.
Qed.

Lemma sign_feed_sound (events : list (string * string)) :
  forall self,
    (feed Sign.handle_status self events).1 = self
    \/ exists value type algo hashalgo cls timestamp fingerprint,
         ("SIG_CREATED", value) ∈ events
         /\ Py.split value = [type; algo; hashalgo; cls; timestamp; fingerprint]
         /\ (feed Sign.handle_status self events).1 =
            Sign.mk (Some type) (Some fingerprint) (Some timestamp).
Proof.
  induction events as [|[keyword value] events IH]; intros self; [left; reflexivity|].
  cbn [feed].
  destruct (sign_step self keyword value)
    as [[Hother Hsame]
       | [-> [(t & al & ha & cl & ts & fp & Hsplit & Hrun) | [Hsame Hraise]]]].
  - destruct (Sign.handle_status self keyword value) as [self' [e|]];
      cbn [fst] in Hsame; subst self'; [left; reflexivity|].
    destruct (IH self) as [Hkeep | (v & Hlater)]; [left; exact Hkeep|].
    destruct Hlater as (t & al & ha & cl & ts & fp & Hin & Hsplit & Hfinal).
    right. exists v, t, al, ha, cl, ts, fp.
    split; [apply elem_of_cons; right; exact Hin|]. split; assumption.
  - rewrite Hrun.
    destruct (IH (Sign.mk (Some t) (Some fp) (Some ts))) as [Hkeep | (v & Hlater)].
    + right. exists value, t, al, ha, cl, ts, fp.
      split; [apply elem_of_cons; left; reflexivity|]. split; assumption.
    + destruct Hlater as (t' & al' & ha' & cl' & ts' & fp' & Hin & Hsplit' & Hfinal).
      right. exists v, t', al', ha', cl', ts', fp'.
      split; [apply elem_of_cons; right; exact Hin|]. split; assumption.
  - destruct (Sign.handle_status self "SIG_CREATED" value) as [self' [e|]];
      cbn [fst snd] in *; [left; exact Hsame | congruence].
Qed.

Lemma sign_feed_complete (events : list (string * string)) :
  forall self,
    (feed Sign.handle_status self events).2 = None ->
    Sign.__nonzero__ self = true \/ (exists value, ("SIG_CREATED", value) ∈ events) ->
    Sign.__nonzero__ (feed Sign.handle_status self events).1 = true.
Proof.
  induction events as [|[keyword value] events IH]; intros self Hrun Hsome.
  { destruct Hsome as [Htrue | (value & Hin)]; [exact Htrue|].
    apply elem_of_nil in Hin. destruct Hin. }
  cbn [feed] in *.
  destruct (sign_step self keyword value)
    as [[Hother Hsame]
       | [-> [(t & al & ha & cl & ts & fp & Hsplit & Hstep) | [Hsame Hraise]]]].
  - destruct (Sign.handle_status self keyword value) as [self' [e|]];
      [discriminate|]. cbn [fst] in Hsame. subst self'.
    apply IH; [exact Hrun|].
    destruct Hsome as [Htrue | (v & Hin)]; [left; exact Htrue|].
    apply elem_of_cons in Hin as [[= <- _] | Hin]; [congruence|].
    right. exists v. exact Hin.
  - rewrite Hstep in *. apply IH; [exact Hrun | left; reflexivity].
  - destruct (Sign.handle_status self "SIG_CREATED" value) as [self' [e|]];
      [discriminate | cbn [snd] in Hraise; congruence].
Qed.

(** X10. A [Sign] object is true after a run only if a [SIG_CREATED] event
    of six tokens was handled, whose first, fifth and sixth tokens are its
    type, timestamp and fingerprint; and it is true after every run that
    raises nothing and handles a [SIG_CREATED] event. *)
Theorem sign_truth_is_sig_created (events : list (string * string)) :
  let final := (feed Sign.handle_status Sign.__init__ events).1 in
  (Sign.__nonzero__ final = true ->
   exists value type algo hashalgo cls timestamp fingerprint,
     ("SIG_CREATED", value) ∈ events
     /\ Py.split value = [type; algo; hashalgo; cls; timestamp; fingerprint]
     /\ final = Sign.mk (Some type) (Some fingerprint) (Some timestamp))
  /\ ((feed Sign.handle_status Sign.__init__ events).2 = None ->
      (exists value, ("SIG_CREATED", value) ∈ events) ->
      Sign.__nonzero__ final = true).
Proof.
  cbv zeta. split.
  - intros Htrue.
    destruct (sign_feed_sound events Sign.__init__) as [Hkeep | Hcreated];
      [|exact Hcreated].
    rewrite Hkeep in Htrue. discriminate.
  - intros Hrun Hsome. apply sign_feed_complete; [exact Hrun | right; exact Hsome].
Qed.

Lemma sign_truth_is_sig_created_witness :
  let events := [("BEGIN_SIGNING", "");
                 ("SIG_CREATED", "S 1 2 00 1360000000 0123456789ABCDEF")] in
  (exists value type algo hashalgo cls timestamp fingerprint,
      ("SIG_CREATED", value) ∈ events
      /\ Py.split value = [type; algo; hashalgo; cls; timestamp; fingerprint]
      /\ (feed Sign.handle_status Sign.__init__ events).1 =
         Sign.mk (Some type) (Some fingerprint) (Some timestamp))
  /\ Sign.__nonzero__ (feed Sign.handle_status Sign.__init__ events).1 = true.
Proof.
  intros events. split.
  - apply (proj1 (sign_truth_is_sig_created events)). reflexivity.
  - apply (proj2 (sign_truth_is_sig_created events)); [reflexivity|].
    exists "S 1 2 00 1360000000 0123456789ABCDEF". apply elem_of_cons. right.
    apply elem_of_cons. left. reflexivity.
Defined.

Lemma delete_problem_text (value : string) :
  default ("Unknown error: " +:+ Py.repr value) (DeleteResult.problem_reason !! value)
  <> "ok".
Proof.
  destruct (decide (value ∈ ["1"; "2"; "3"])) as [Hin|Hout].
  - each_keyword Hin ltac:(vm_compute; discriminate).
  - unfold DeleteResult.problem_reason.
    rewrite (not_elem_of_list_to_map_1 _ value) by exact Hout.
    discriminate.
Qed.

(** X11. A run on a fresh [DeleteResult] handles a row of [DELETE_PROBLEM]
    events and raises on the first event of another keyword.  The status is
    the text for the value of the last [DELETE_PROBLEM] handled (the text of
    the table, or the unknown-error text with the value), and it is [ok]
    exactly when none was handled. *)
Theorem delete_status_is_last_problem (events : list (string * string)) :
  exists problems rest,
    events = ((fun value => ("DELETE_PROBLEM", value)) <$> problems) ++ rest
    /\ head (fst <$> rest) <> Some "DELETE_PROBLEM"
    /\ DeleteResult.status (feed DeleteResult.handle_status DeleteResult.__init__ events).1
       = match last problems with
         | Some value => default ("Unknown error: " +:+ Py.repr value)
                           (DeleteResult.problem_reason !! value)
         | None => "ok"
         end
    /\ (DeleteResult.status
          (feed DeleteResult.handle_status DeleteResult.__init__ events).1 = "ok"
        <-> problems = [])
    /\ ((feed DeleteResult.handle_status DeleteResult.__init__ events).2 = None
        <-> rest = []).
Proof.
  assert (Hgen : forall self,
    exists problems rest,
      events = ((fun value => ("DELETE_PROBLEM", value)) <$> problems) ++ rest
      /\ head (fst <$> rest) <> Some "DELETE_PROBLEM"
      /\ DeleteResult.status (feed DeleteResult.handle_status self events).1
         = match last problems with
           | Some value => default ("Unknown error: " +:+ Py.repr value)
                             (DeleteResult.problem_reason !! value)
           | None => DeleteResult.status self
           end
      /\ ((feed DeleteResult.handle_status self events).2 = None <-> rest = [])).
  { induction events as [|[keyword value] events IH]; intros self.
    { exists [], []. repeat split; discriminate. }
    cbn [feed].
    assert (Hstep : DeleteResult.handle_status self keyword value =
                    if String.eqb keyword "DELETE_PROBLEM"
                    then (DeleteResult.mk
                            (default ("Unknown error: " +:+ Py.repr value)
                               (DeleteResult.problem_reason !! value)), None)
                    else (self, Some (unknown_status_message keyword)))
      by reflexivity.
    rewrite Hstep. clear Hstep.
    destruct (String.eqb_spec keyword "DELETE_PROBLEM") as [->|Hother].
    - destruct (IH (DeleteResult.mk
                      (default ("Unknown error: " +:+ Py.repr value)
                         (DeleteResult.problem_reason !! value))))
        as (problems & rest & -> & Hhead & Hstatus & Hrun).
      exists (value :: problems), rest.
      split; [reflexivity|]. split; [exact Hhead|]. split; [|exact Hrun].
      rewrite Hstatus. destruct problems as [|p problems]; [reflexivity|].
      change (last (value :: p :: problems)) with (last (p :: problems)).
      destruct (last (p :: problems)) eqn:Hlast; [reflexivity|].
      apply last_None in Hlast. discriminate.
    - exists [], ((keyword, value) :: events).
      split; [reflexivity|]. split; [cbn; congruence|].
      split; [reflexivity|]. split; discriminate. }
  destruct (Hgen DeleteResult.__init__) as (problems & rest & Hevents & Hhead & Hstatus & Hrun).
  exists problems, rest. repeat (split; [assumption|]). split; [|exact Hrun].
  rewrite Hstatus. destruct (last problems) as [value|] eqn:Hlast.
  - split; [intros Hok; destruct (delete_problem_text value Hok)|].
    intros ->. discriminate.
  - split; [|reflexivity]. intros _. apply last_None in Hlast. exact Hlast.
Qed.

(** ** [ImportResult] over a run *)

Lemma setattr_keeps_lists (name : string) (x : option Z) (self : ImportResult.t) :
  ImportResult.results (ImportResult.setattr name x self) = ImportResult.results self
  /\ ImportResult.fingerprints (ImportResult.setattr name x self)
     = ImportResult.fingerprints self.
Proof. unfold ImportResult.setattr. repeat case_match; split; reflexivity. Qed.

Lemma set_counts_keeps_lists (import_res : list string) (names : list string) :
  forall i self,
    ImportResult.results (ImportResult.set_counts names i import_res self).1
    = ImportResult.results self
    /\ ImportResult.fingerprints (ImportResult.set_counts names i import_res self).1
       = ImportResult.fingerprints self.
Proof.
  induction names as [|name names IH]; intros i self; [split; reflexivity|].
  cbn [ImportResult.set_counts].
  destruct (import_res !! i) as [token|]; [|split; reflexivity].
  destruct (Py.int token) as [n|]; [|split; reflexivity].
  destruct (IH (S i) (ImportResult.setattr name (Some n) self)) as [-> ->].
  apply setattr_keeps_lists.
Qed.

Lemma ok_fingerprints_problem (fingerprint problem text : option string) :
  ok_fingerprints [list_to_map [("fingerprint", fingerprint); ("problem", problem);
                                ("text", text)]] = [].
Proof. vm_compute. reflexivity. Qed.

Lemma ok_fingerprints_ok (fingerprint : string) (ok text : option string) :
  ok_fingerprints [list_to_map [("fingerprint", Some fingerprint); ("ok", ok);
                                ("text", text)]] = [fingerprint].
Proof. vm_compute. reflexivity. Qed.

(** A call that appends nothing, and one that appends a result without an
    [ok] entry. *)
Ltac no_result :=
  exists []; change (ok_fingerprints []) with (@nil string); rewrite !app_nil_r;
  repeat split; cbn; lia.

Ltac problem_result :=
  eexists [_]; split; [reflexivity|];
  rewrite ok_fingerprints_problem, app_nil_r; split; [reflexivity | cbn; lia].

(** What one call does to the two lists: results are appended, and a
    fingerprint is appended with each result that carries an [ok] entry. *)
Lemma import_step_lists (items : list (string * string)) (self : ImportResult.t)
    (key value : string) :
  exists new,
    ImportResult.results (ImportResult.handle_status items self key value).1
    = ImportResult.results self ++ new
    /\ ImportResult.fingerprints (ImportResult.handle_status items self key value).1
       = ImportResult.fingerprints self ++ ok_fingerprints new
    /\ (length new <= 1)%nat.
Proof.
  unfold ImportResult.handle_status.
  destruct (String.eqb key "IMPORTED"); [no_result|].
  destruct (String.eqb key "NODATA"); [problem_result|].
  destruct (String.eqb key "IMPORT_OK").
  { destruct (Py.split value) as [|reason [|fingerprint [|extra tokens]]];
      try no_result.
    destruct (ImportResult.ok_reasons items reason []) as [reasons|e]; [|no_result].
    eexists [_]. split; [reflexivity|].
    rewrite ok_fingerprints_ok. split; [reflexivity | cbn; lia]. }
  destruct (String.eqb key "IMPORT_PROBLEM").
  { destruct (match Py.split value with
              | [reason; fingerprint] => (reason, fingerprint)
              | _ => (value, "<unknown>")
              end) as [reason fingerprint].
    destruct (ImportResult.problem_reason !! reason) as [text|];
      [problem_result | no_result]. }
  destruct (String.eqb key "IMPORT_RES").
  { exists []. change (ok_fingerprints []) with (@nil string). rewrite !app_nil_r.
    destruct (set_counts_keeps_lists (Py.split value) ImportResult.counts 0%nat self)
      as [-> ->].
    repeat split. cbn. lia. }
  destruct (String.eqb key "KEYEXPIRED"); [problem_result|].
  destruct (String.eqb key "SIGEXPIRED"); [problem_result|].
  no_result.
Qed.

Lemma ok_fingerprints_length (l : list (gmap string (option string))) :
  (length (ok_fingerprints l) <= length l)%nat.
Proof.
  unfold ok_fingerprints. induction l as [|x l IH]; [cbn; lia|].
  cbn [omap list_omap length].
  destruct (match x !! "ok" with
            | Some _ => default None (x !! "fingerprint")
            | None => None
            end); cbn [length]; lia.
Qed.

Lemma ok_fingerprints_app (l1 l2 : list (gmap string (option string))) :
  ok_fingerprints (l1 ++ l2) = ok_fingerprints l1 ++ ok_fingerprints l2.
Proof. apply omap_app. Qed.

(** X12. After any run on a fresh [ImportResult], [fingerprints] lists, in
    order, the fingerprints of the results that carry an [ok] entry (the
    ones appended for [IMPORT_OK]): no fingerprint is recorded without its
    result, and every event adds at most one result. *)
Theorem import_fingerprints_follow_results (items : list (string * string))
    (events : list (string * string)) :
  let final := (feed (ImportResult.handle_status items) ImportResult.__init__ events).1 in
  ImportResult.fingerprints final = ok_fingerprints (ImportResult.results final)
  /\ (length (ImportResult.fingerprints final) <= length (ImportResult.results final)
      <= length events)%nat.
Proof.
  cbv zeta.
  assert (Hinv : forall self,
    let final := (feed (ImportResult.handle_status items) self events).1 in
    exists new,
      ImportResult.results final = ImportResult.results self ++ new
      /\ ImportResult.fingerprints final = ImportResult.fingerprints self ++ ok_fingerprints new
      /\ (length new <= length events)%nat).
  { induction events as [|[keyword value] events IH]; intros self.
    { exists []. rewrite !app_nil_r. repeat split. cbn. lia. }
    cbn [feed].
    destruct (import_step_lists items self keyword value) as (new & Hres & Hfps & Hlen).
    destruct (ImportResult.handle_status items self keyword value) as [self' [e|]];
      cbn [fst] in *.
    - exists new. repeat split; [assumption | assumption | cbn; lia].
    - destruct (IH self') as (new' & Hres' & Hfps' & Hlen'). cbv zeta in *.
      exists (new ++ new').
      rewrite Hres', Hfps', Hres, Hfps, ok_fingerprints_app, <- !app_assoc.
      repeat split. rewrite length_app. cbn. lia. }
  destruct (Hinv ImportResult.__init__) as (new & Hres & Hfps & Hlen). cbv zeta in *.
  change (ImportResult.results ImportResult.__init__) with (@nil (gmap string (option string))) in Hres.
  change (ImportResult.fingerprints ImportResult.__init__) with (@nil string) in Hfps.
  cbn [app] in Hres, Hfps. rewrite Hres, Hfps.
  split; [reflexivity|]. split; [|exact Hlen].
  apply ok_fingerprints_length.
Qed.

(** ** [_read_response] and [_read_data] *)

Lemma read_lines_trail {R : Type} (h : R -> string -> string -> R * option exn)
    (verbose : bool) (stream : list string) :
  forall result lines printed log,
    let r := GPG.read_lines h verbose stream result lines printed log in
    match GPG.ended r with
    | Return _ =>
        GPG.stderr r = Some (Py.join "" (lines ++ lines_read stream))
        /\ GPG.log_after r =
           log ++ ((fun line => (DEBUG, Py.rstrip line)) <$> lines_read stream)
        /\ GPG.printed r =
           printed ++ (if verbose then Py.rstrip <$> lines_read stream else [])
    | Raise e =>
        GPG.stderr r = None
        /\ exists result0 keyword value, (h result0 keyword value).2 = Some e
    end.
Proof.
  induction stream as [|line stream IH]; intros result lines printed log.
  { cbn. rewrite !app_nil_r. destruct verbose; rewrite ?app_nil_r; repeat split. }
  destruct line as [|a line].
  { cbn. rewrite !app_nil_r. destruct verbose; rewrite ?app_nil_r; repeat split. }
  cbv zeta.
  rewrite (read_lines_step h verbose (String a line) stream result lines printed log)
    by discriminate.
  cbv zeta.
  assert (Hnext : forall result',
    let r := GPG.read_lines h verbose stream result' (lines ++ [String a line])
               (if verbose then printed ++ [Py.rstrip (String a line)] else printed)
               (log ++ [(DEBUG, Py.rstrip (String a line))]) in
    match GPG.ended r with
    | Return _ =>
        GPG.stderr r = Some (Py.join "" (lines ++ lines_read (String a line :: stream)))
        /\ GPG.log_after r =
           log ++ ((fun line => (DEBUG, Py.rstrip line))
                   <$> lines_read (String a line :: stream))
        /\ GPG.printed r =
           printed ++ (if verbose then Py.rstrip <$> lines_read (String a line :: stream)
                       else [])
    | Raise e =>
        GPG.stderr r = None
        /\ exists result0 keyword value, (h result0 keyword value).2 = Some e
    end).
  { intros result'. cbv zeta.
    specialize (IH result' (lines ++ [String a line])
                  (if verbose then printed ++ [Py.rstrip (String a line)] else printed)
                  (log ++ [(DEBUG, Py.rstrip (String a line))])).
    cbv zeta in IH.
    destruct (GPG.ended _); [|exact IH].
    destruct IH as (Herr & Hlog & Hprinted).
    change (lines_read (String a line :: stream))
      with (String a line :: lines_read stream).
    rewrite Herr, Hlog, Hprinted, <- !app_assoc. cbn [fmap list_fmap app].
    destruct verbose; rewrite <- ?app_assoc; repeat split. }
  destruct (Py.startswith "[GNUPG:] " (Py.rstrip (String a line))) eqn:Hprefix;
    [|apply Hnext].
  pose proof (status_payload_tokens (String a line) Hprefix) as Htokens.
  destruct (Py.split1 (Py.slice_from 9 (Py.rstrip (String a line)))) as [|keyword rest];
    [congruence|].
  destruct (h result keyword match rest with
                             | [] => ""
                             | value :: _ => value
                             end) as [result' [e|]] eqn:Hcall; [|apply Hnext].
  cbn [GPG.ended GPG.stderr]. split; [reflexivity|].
  exists result, keyword, (match rest with [] => "" | value :: _ => value end).
  rewrite Hcall. reflexivity.
Qed.

(** X13. What [_read_response] leaves besides the handler's calls, in
    terms of the lines that [readline] returns.  When it returns,
    [result.stderr] is the concatenation of the lines read (the ones before
    the first empty line), unstripped, the logger has one debug record per
    line read, stripped on the right, and those stripped lines are what was
    printed when [verbose].  When an exception leaves it, [stderr] is left
    unbound.  And a line that passes the prefix test always has a keyword
    after the prefix: [L[0]] never raises [IndexError]. *)
Theorem read_response_trail {R : Type} (h : R -> string -> string -> R * option exn)
    (verbose : bool) (stream : list string) (result : R) (log : list log_record) :
  let r := GPG._read_response h verbose stream result log in
  match GPG.ended r with
  | Return _ =>
      GPG.stderr r = Some (Py.join "" (lines_read stream))
      /\ GPG.log_after r =
         log ++ ((fun line => (DEBUG, Py.rstrip line)) <$> lines_read stream)
      /\ GPG.printed r = (if verbose then Py.rstrip <$> lines_read stream else [])
  | Raise _ => GPG.stderr r = None
  end
  /\ forall line,
       Py.startswith "[GNUPG:] " (Py.rstrip line) = true ->
       Py.split1 (Py.slice_from 9 (Py.rstrip line)) <> [].
Proof.
  cbv zeta. split; [|exact status_payload_tokens].
  pose proof (read_lines_trail h verbose stream result [] [] log) as Htrail.
  cbv zeta in Htrail. unfold GPG._read_response.
  destruct (GPG.ended _); [exact Htrail | exact (proj1 Htrail)].
Qed.

Lemma read_data_loop_all (fuel : nat) :
  forall stream chunks0 log,
    bio_closed stream = false ->
    (String.length (bio_remaining stream) < fuel)%nat ->
    exists stream',
      read_data_loop fuel stream chunks0 log =
      Some (Return (chunks0 ++ chunks 1024 (bio_remaining stream)), stream',
            log ++ ((fun data => (DEBUG, "chunk: " +:+ Py.repr (Py.slice_to 256 data)))
                    <$> chunks 1024 (bio_remaining stream)))
      /\ bio_remaining stream' = "" /\ bio_closed stream' = false
      /\ bio_buffer stream' = bio_buffer stream.
Proof.
  induction fuel as [|fuel IH]; intros stream chunks0 log Hopen Hfuel; [lia|].
  cbn [read_data_loop]. unfold bio_read. rewrite Hopen.
  fold (bio_remaining stream). fold (advance stream).
  destruct (bio_remaining stream) as [|a rest] eqn:Hrem.
  - exists (advance stream).
    change (chunks 1024 "") with (@nil string). cbn [fmap list_fmap].
    rewrite !app_nil_r.
    split; [reflexivity|]. split; [|split; reflexivity].
    rewrite remaining_advance, Hrem. reflexivity.
  - assert (Hlen : (String.length (Py.slice_to 1024 (String a rest)) =? 0)%nat = false)
      by reflexivity.
    rewrite Hlen.
    pose proof (advance_shorter stream a rest Hrem) as Hlt. rewrite Hrem in Hlt.
    destruct (IH (advance stream) (chunks0 ++ [Py.slice_to 1024 (String a rest)])
                (log ++ [(DEBUG, "chunk: "
                                 +:+ Py.repr (Py.slice_to 256
                                                (Py.slice_to 1024 (String a rest))))]))
      as (stream' & Hrun & Hend & Hopen' & Hbuffer); [reflexivity | lia |].
    exists stream'. split; [|split; [exact Hend | split; [exact Hopen' | exact Hbuffer]]].
    rewrite Hrun, remaining_advance, Hrem, (chunks_cons 1023 a rest).
    cbn [fmap list_fmap]. rewrite <- !app_assoc. reflexivity.
Qed.

(** X14. [_read_data] on an open stream returns after reading it to its
    end: [result.data] is bound to exactly the bytes that were left to read,
    reassembled from pieces of at most 1024 bytes with one debug record
    each, and the stream itself is neither closed nor altered. *)
Theorem read_data_collects_remaining (stream : bytesio) (log : list log_record) :
  bio_closed stream = false ->
  exists stream',
    _read_data stream log =
    Some (Return (bio_remaining stream), stream',
          log ++ ((fun data => (DEBUG, "chunk: " +:+ Py.repr (Py.slice_to 256 data)))
                  <$> chunks 1024 (bio_remaining stream)))
    /\ bio_remaining stream' = "" /\ bio_closed stream' = false
    /\ bio_buffer stream' = bio_buffer stream.
Proof.
  intros Hopen. unfold _read_data.
  destruct (read_data_loop_all (S (String.length (bio_remaining stream))) stream [] log
              Hopen ltac:(lia)) as (stream' & Hrun & Hend).
  exists stream'. split; [|exact Hend].
  rewrite Hrun. cbn [app]. rewrite (chunks_concat 1023). reflexivity.
Qed.

Lemma read_data_collects_remaining_witness :
  exists stream',
    _read_data sample_stream [] =
    Some (Return (bio_remaining sample_stream), stream',
          [] ++ ((fun data => (DEBUG, "chunk: " +:+ Py.repr (Py.slice_to 256 data)))
                 <$> chunks 1024 (bio_remaining sample_stream)))
    /\ bio_remaining stream' = "" /\ bio_closed stream' = false
    /\ bio_buffer stream' = bio_buffer sample_stream.
Proof.
  apply (read_data_collects_remaining sample_stream []). reflexivity.
Defined.

(** ** The key listing *)

Lemma elem_of_alter {A : Type} (f : A -> A) (i : nat) (l : list A) (x : A) :
  x ∈ alter f i l -> x ∈ l \/ exists y, l !! i = Some y /\ x = f y.
Proof.
  intros Hin. apply list_elem_of_lookup in Hin as (j & Hj).
  destruct (decide (i = j)) as [->|Hne].
  - rewrite list_lookup_alter_eq in Hj.
    destruct (l !! j) as [y|] eqn:Hy; [|discriminate].
    cbn in Hj. injection Hj as <-. right. exists y. split; reflexivity.
  - rewrite list_lookup_alter_ne in Hj by exact Hne.
    left. apply (list_elem_of_lookup_2 l j x Hj).
Qed.

Lemma alter_keeps {A : Type} (f : A -> A) (i : nat) (l : list A) (y : A) :
  y ∈ l -> y ∈ alter f i l \/ f y ∈ alter f i l.
Proof.
  intros Hin. apply list_elem_of_lookup in Hin as (j & Hj).
  destruct (decide (i = j)) as [->|Hne].
  - right. apply (list_elem_of_lookup_2 _ j). rewrite list_lookup_alter_eq, Hj. reflexivity.
  - left. apply (list_elem_of_lookup_2 _ j).
    rewrite list_lookup_alter_ne by exact Hne. exact Hj.
Qed.

Lemma fill_fields_frame (args : list string) (name : string) (vars : list string) :
  forall i curkey filled,
    name ∉ vars ->
    fill_fields vars i args curkey = Some filled ->
    filled !! name = curkey !! name.
Proof.
  induction vars as [|var vars IH]; intros i curkey filled Hout Hfill.
  - injection Hfill as <-. reflexivity.
  - apply not_elem_of_cons in Hout as [Hne Hout]. cbn [fill_fields] in Hfill.
    destruct (args !! i) as [field|]; [|discriminate].
    rewrite (IH _ _ _ Hout Hfill). apply lookup_insert_ne. congruence.
Qed.

Lemma ListKeys_key_unfold (self : ListKeys.t) (args : list string) :
  ListKeys_key self args =
  match fill_fields key_vars 0 args ∅ with
  | None => Raise index_error
  | Some curkey =>
      match curkey !! "uid" with
      | None => Raise (KeyError "uid")
      | Some uid =>
          Return (ListKeys.mk
                    (ListKeys.keys self
                     ++ [ListKeys.mk_key (delete "uid" curkey)
                           (if truthy uid then [uid] else []) []])
                    (Some (length (ListKeys.keys self)))
                    (ListKeys.fingerprints self) (ListKeys.uids self))
      end
  end.
Proof. reflexivity. Qed.

Lemma key_keeps_consistent (self : ListKeys.t) (args : list string) (result : ListKeys.t) :
  listing_consistent self -> ListKeys_key self args = Return result ->
  listing_consistent result.
Proof.
  intros (Hcursor & Hfps & Huids) Hrun. rewrite ListKeys_key_unfold in Hrun.
  destruct (fill_fields key_vars 0 args ∅) as [filled|] eqn:Hfill; [|discriminate].
  destruct (filled !! "uid") as [uid|]; [|discriminate].
  injection Hrun as <-. unfold listing_consistent.
  cbn [ListKeys.curkey ListKeys.keys ListKeys.fingerprints ListKeys.uids].
  split; [|split].
  - right. exists (length (ListKeys.keys self)).
    split; [reflexivity|]. rewrite length_app. cbn. lia.
  - intros key fingerprint Hin Hfp.
    apply elem_of_app in Hin as [Hin | Hin]; [exact (Hfps key fingerprint Hin Hfp)|].
    apply list_elem_of_singleton in Hin. subst key. cbn [ListKeys.fields] in Hfp.
    rewrite lookup_delete_ne in Hfp by discriminate.
    rewrite (fill_fields_frame args "fingerprint" key_vars 0%nat ∅ filled) in Hfp;
      [rewrite lookup_empty in Hfp; discriminate | by_decision | exact Hfill].
  - intros u Hu. destruct (Huids u Hu) as (key & Hin & Hkey).
    exists key. split; [apply elem_of_app; left; exact Hin | exact Hkey].
Qed.

(** A method that alters the current key and appends to the two lists. *)
Lemma alter_keeps_consistent (self : ListKeys.t) (i : nat)
    (f : ListKeys.key_record -> ListKeys.key_record)
    (new_fingerprints new_uids : list string) :
  listing_consistent self -> ListKeys.curkey self = Some i ->
  (forall key fingerprint,
      ListKeys.fields (f key) !! "fingerprint" = Some fingerprint ->
      ListKeys.fields key !! "fingerprint" = Some fingerprint
      \/ fingerprint ∈ new_fingerprints) ->
  (forall key uid, uid ∈ ListKeys.uids_of key -> uid ∈ ListKeys.uids_of (f key)) ->
  (forall key uid, uid ∈ new_uids -> uid ∈ ListKeys.uids_of (f key)) ->
  listing_consistent
    (ListKeys.mk (alter f i (ListKeys.keys self)) (Some i)
       (ListKeys.fingerprints self ++ new_fingerprints)
       (ListKeys.uids self ++ new_uids)).
Proof.
  intros (Hcursor & Hfps & Huids) Hcur Hfield Hold Hnew. unfold listing_consistent.
  cbn [ListKeys.curkey ListKeys.keys ListKeys.fingerprints ListKeys.uids].
  destruct Hcursor as [[Hnone _] | (j & Hj & Hlen)]; [congruence|].
  assert (j = i) as -> by congruence.
  split; [|split].
  - right. exists i. split; [reflexivity|]. rewrite length_alter. exact Hlen.
  - intros key fingerprint Hin Hfp. apply elem_of_app.
    apply elem_of_alter in Hin as [Hin | (old & Hat & ->)].
    + left. exact (Hfps key fingerprint Hin Hfp).
    + destruct (Hfield old fingerprint Hfp) as [Hbefore | Hadded]; [|right; exact Hadded].
      left. apply (Hfps old fingerprint); [|exact Hbefore].
      apply (list_elem_of_lookup_2 _ i old Hat).
  - intros u Hu. apply elem_of_app in Hu as [Hu | Hu].
    + destruct (Huids u Hu) as (key & Hin & Hkey).
      destruct (alter_keeps f i _ key Hin) as [Hsame | Haltered].
      * exists key. split; assumption.
      * exists (f key). split; [exact Haltered | apply Hold, Hkey].
    + destruct (lookup_lt_is_Some_2 (ListKeys.keys self) i ltac:(lia)) as (key & Hat).
      exists (f key). split; [|apply Hnew, Hu].
      apply (list_elem_of_lookup_2 _ i). rewrite list_lookup_alter_eq, Hat. reflexivity.
Qed.

Lemma getattr_keeps_consistent (keyword : string) (self : ListKeys.t)
    (args : list string) (result : ListKeys.t) :
  listing_consistent self -> ListKeys_getattr keyword self args = Return result ->
  listing_consistent result.
Proof.
  intros Hself Hrun. unfold ListKeys_getattr in Hrun.
  destruct (String.eqb keyword "pub" || String.eqb keyword "sec");
    [exact (key_keeps_consistent self args result Hself Hrun)|].
  destruct (String.eqb keyword "uid").
  { unfold ListKeys_uid in Hrun.
    destruct (args !! 9%nat) as [uid|]; [|discriminate].
    destruct (ListKeys.curkey self) as [i|] eqn:Hcur; [|discriminate].
    injection Hrun as <-.
    rewrite <- (app_nil_r (ListKeys.fingerprints self)).
    apply (alter_keeps_consistent self i _ [] [unescape uid] Hself Hcur).
    - intros key fingerprint Hfp. left. exact Hfp.
    - intros key u Hu. apply elem_of_app. left. exact Hu.
    - intros key u Hu. apply elem_of_app. right. exact Hu. }
  destruct (String.eqb keyword "fpr").
  { unfold ListKeys_fpr in Hrun.
    destruct (args !! 9%nat) as [fingerprint|]; [|discriminate].
    destruct (ListKeys.curkey self) as [i|] eqn:Hcur; [|discriminate].
    injection Hrun as <-.
    rewrite <- (app_nil_r (ListKeys.uids self)).
    apply (alter_keeps_consistent self i _ [fingerprint] [] Hself Hcur).
    - intros key fp Hfp. cbn [ListKeys.fields] in Hfp.
      rewrite lookup_insert_eq in Hfp. injection Hfp as <-.
      right. apply list_elem_of_singleton. reflexivity.
    - intros key u Hu. exact Hu.
    - intros key u Hu. apply elem_of_nil in Hu. destruct Hu. }
  unfold ListKeys_sub in Hrun.
  destruct (args !! 4%nat) as [keyid|]; [|discriminate].
  destruct (args !! 11%nat) as [field|]; [|discriminate].
  destruct (ListKeys.curkey self) as [i|] eqn:Hcur; [|discriminate].
  injection Hrun as <-.
  rewrite <- (app_nil_r (ListKeys.uids self)),
    <- (app_nil_r (ListKeys.fingerprints self)).
  apply (alter_keeps_consistent self i _ [] [] Hself Hcur).
  - intros key fp Hfp. left. exact Hfp.
  - intros key u Hu. exact Hu.
  - intros key u Hu. apply elem_of_nil in Hu. destruct Hu.
Qed.

Lemma list_keys_loop_consistent (verbose : bool) (lines : list string) :
  forall result printed log,
    listing_consistent result ->
    match (list_keys_loop verbose lines result printed log).1 with
    | Return (result', _) => listing_consistent result'
    | Raise _ => True
    end.
Proof.
  induction lines as [|line lines IH]; intros result printed log Hresult; [exact Hresult|].
  cbn [list_keys_loop]. unfold bind at 1. unfold logger at 1.
  destruct (negb (truthy line)); [exact Hresult|].
  destruct (Py.split_on ":" (Py.strip line)) as [|keyword fields]; [apply IH, Hresult|].
  destruct (key_in keyword valid_keywords); [|apply IH, Hresult].
  destruct (ListKeys_getattr keyword result (keyword :: fields)) as [result'|e] eqn:Hcall;
    [|exact I].
  apply IH. exact (getattr_keeps_consistent keyword result _ result' Hresult Hcall).
Qed.

(** X15. The object that the parser of [list_keys] returns holds together,
    whatever the lines: the cursor is on the last key of the list, every
    fingerprint recorded in a key is also in [fingerprints], and every entry
    of [uids] is a user id of some key of the list. *)
Theorem list_keys_result_consistent (verbose : bool) (lines : list string)
    (log : list log_record) :
  match (list_keys_loop verbose lines ListKeys.__init__ [] log).1 with
  | Return (result, _) => listing_consistent result
  | Raise _ => True
  end.
Proof.
  apply list_keys_loop_consistent. unfold listing_consistent. split; [|split].
  - left. split; reflexivity.
  - intros key fingerprint Hin. apply elem_of_nil in Hin. destruct Hin.
  - intros uid Hin. apply elem_of_nil in Hin. destruct Hin.
Qed.

(** X16. A record line for a fingerprint or a subkey, or one for a user
    id without a backslash in it, that comes before any [pub] or [sec] line
    makes the parser of [list_keys] raise [TypeError]: there is no current
    key to attach it to. *)
Theorem list_keys_orphan_record (verbose : bool) (line : string) (lines : list string)
    (keyword : string) (fields : list string) (log : list log_record) :
  truthy line = true ->
  Py.split_on ":" (Py.strip line) = keyword :: fields ->
  keyword ∈ ["uid"; "fpr"; "sub"] ->
  (keyword = "uid" ->
   forall user_id, fields !! 8%nat = Some user_id ->
                   Py.contains Py.backslash user_id = false) ->
  (11 <= length fields)%nat ->
  exists msg log',
    list_keys_loop verbose (line :: lines) ListKeys.__init__ [] log
    = (Raise (TypeError msg), log').
Proof.
  intros Hline Hsplit Hkeyword _ Hlen.
  cbn [list_keys_loop]. unfold bind at 1. unfold logger at 1.
  rewrite Hline, Hsplit. cbn [negb].
  destruct (lookup_lt_is_Some_2 (keyword :: fields) 4%nat ltac:(cbn; lia)) as (f4 & H4).
  destruct (lookup_lt_is_Some_2 (keyword :: fields) 9%nat ltac:(cbn; lia)) as (f9 & H9).
  destruct (lookup_lt_is_Some_2 (keyword :: fields) 11%nat ltac:(cbn; lia)) as (f11 & H11).
  each_keyword Hkeyword
    ltac:(change (key_in _ valid_keywords) with true; cbv iota;
          unfold ListKeys_getattr; cbn [String.eqb Ascii.eqb Bool.eqb orb];
          unfold ListKeys_uid, ListKeys_fpr, ListKeys_sub;
          rewrite ?H4, ?H9, ?H11; do 2 eexists; reflexivity).
Qed.

Lemma list_keys_orphan_record_witness :
  (exists msg log',
      list_keys_loop false ["fpr:::::::::0123456789ABCDEF:::"; "pub:u:2048:1:KEYID"]
        ListKeys.__init__ [] []
      = (Raise (TypeError msg), log'))
  /\ exists msg log',
      list_keys_loop false ["uid:::::::::Some One <one@example.org>:::"]
        ListKeys.__init__ [] []
      = (Raise (TypeError msg), log').
Proof.
  split.
  - apply (list_keys_orphan_record false "fpr:::::::::0123456789ABCDEF:::"
             ["pub:u:2048:1:KEYID"] "fpr"
             [""; ""; ""; ""; ""; ""; ""; ""; "0123456789ABCDEF"; ""; ""; ""] []).
    + reflexivity.
    + vm_compute. reflexivity.
    + apply elem_of_cons. right. apply elem_of_cons. left. reflexivity.
    + intros [=].
    + cbn. lia.
  - apply (list_keys_orphan_record false "uid:::::::::Some One <one@example.org>:::"
             [] "uid"
             [""; ""; ""; ""; ""; ""; ""; ""; "Some One <one@example.org>"; ""; ""; ""] []).
    + reflexivity.
    + vm_compute. reflexivity.
    + apply elem_of_cons. left. reflexivity.
    + intros _ user_id [= <-]. reflexivity.
    + cbn. lia.
Defined.

(** X17. The parser of [list_keys] stops at the first empty line: the lines
    after it change neither the object returned nor the exception raised. *)
Theorem list_keys_stops_at_empty_line (verbose : bool) (before after : list string) :
  forall result printed printed' log log',
    match (list_keys_loop verbose (before ++ "" :: after) result printed log).1,
          (list_keys_loop verbose before result printed' log').1 with
    | Return (result1, _), Return (result2, _) => result1 = result2
    | Raise e1, Raise e2 => e1 = e2
    | _, _ => False
    end.
Proof.
  induction before as [|line before IH]; intros result printed printed' log log'.
  { reflexivity. }
  cbn [app list_keys_loop]. unfold bind at 1 3. unfold logger at 1 2.
  destruct (negb (truthy line)); [reflexivity|].
  destruct (Py.split_on ":" (Py.strip line)) as [|keyword fields]; [apply IH|].
  destruct (key_in keyword valid_keywords); [|apply IH].
  destruct (ListKeys_getattr keyword result (keyword :: fields)) as [result'|e];
    [apply IH | reflexivity].
Qed.

(** A listing of one key with a fingerprint, a second user id and a subkey,
    and a line after the empty one that is not read. *)
Example list_keys_demo :
  match (list_keys_loop false
           ["pub:u:2048:1:KEYID:2013-01-01:::u:Some One:";
            "fpr:::::::::0123456789ABCDEF:";
            "uid:::::::::Other \x41:";
            "sub:u:2048:1:SUBID:2013-01-01::::::e:";
            "";
            "pub:u:2048:1:KEYID2:2013-01-01:::u:Not Read:"]
           ListKeys.__init__ [] []).1 with
  | Return (result, _) =>
      (ListKeys.uids_of <$> ListKeys.keys result, ListKeys.subkeys <$> ListKeys.keys result,
       ListKeys.fingerprints result, ListKeys.uids result)
      = ([["Some One"; "Other A"]], [[("SUBID", "e")]], ["0123456789ABCDEF"], ["Other A"])
  | Raise _ => False
  end.
Proof. vm_compute. reflexivity. Qed.

(** ** Option names and escaping *)

Lemma replace_back (a b : ascii) (s : string) :
  Py.contains b s = false ->
  Py.replace b (String a "") (Py.replace a (String b "") s) = s.
Proof.
  induction s as [|c s IH]; intros Hfree; [reflexivity|].
  cbn [Py.contains] in Hfree. apply orb_false_iff in Hfree as [Hc Hfree].
  cbn [Py.replace]. destruct (Ascii.eqb_spec c a) as [->|Hne].
  - rewrite append_cons, append_nil. cbn [Py.replace].
    rewrite Ascii.eqb_refl, append_cons, append_nil, (IH Hfree). reflexivity.
  - cbn [Py.replace]. rewrite Hc, (IH Hfree). reflexivity.
Qed.

Lemma startswith_char (c a : ascii) (s : string) :
  Py.startswith (String c "") (String a s) = Ascii.eqb c a.
Proof. cbn [Py.startswith]. destruct s; apply andb_true_r. Qed.

Lemma lstrip_char_plain (c : ascii) (s : string) :
  Py.startswith (String c "") s = false -> lstrip_char c s = s.
Proof.
  destruct s as [|a s]; [reflexivity|]. rewrite startswith_char. intros Hne.
  cbn [lstrip_char]. rewrite Ascii.eqb_sym, Hne. reflexivity.
Qed.

Lemma replace_head (a b : ascii) (s : string) :
  Py.startswith (String a "") s = false -> Py.startswith (String b "") s = false ->
  Py.startswith (String b "") (Py.replace a (String b "") s) = false.
Proof.
  destruct s as [|c s]; [reflexivity|]. rewrite !startswith_char. intros Ha Hb.
  cbn [Py.replace]. rewrite Ascii.eqb_sym, Ha, startswith_char. exact Hb.
Qed.

(** X18. [_hyphenate] and [_underscore] undo each other on the names they
    are made for.  An attribute name without a hyphen comes back from
    [_underscore(_hyphenate(name))], also with the prefix added and removed
    when the name does not start with an underscore; an option name without
    an underscore comes back from [_hyphenate(_underscore(option))]. *)
Theorem hyphenate_underscore_round_trip (name : string) :
  (Py.contains "-" name = false ->
   _underscore (_hyphenate name false) false = name
   /\ (Py.startswith "_" name = false ->
       _underscore (_hyphenate name true) true = name))
  /\ (Py.contains "_" name = false ->
      _hyphenate (_underscore name false) false = name).
Proof.
  unfold _hyphenate, _underscore. cbn [negb]. split.
  - intros Hfree. split.
    + rewrite append_nil. apply (replace_back "_" "-" name Hfree).
    + intros Hhead.
      change ("--" +:+ Py.replace "_" "-" name)
        with (String "-" (String "-" (Py.replace "_" "-" name))).
      cbn [lstrip_char Ascii.eqb Bool.eqb].
      rewrite lstrip_char_plain; [apply (replace_back "_" "-" name Hfree)|].
      apply replace_head; [exact Hhead|].
      destruct name as [|c name]; [reflexivity|].
      rewrite startswith_char. cbn [Py.contains] in Hfree.
      apply orb_false_iff in Hfree as [Hc _]. rewrite Ascii.eqb_sym. exact Hc.
  - intros Hfree. rewrite append_nil. apply (replace_back "-" "_" name Hfree).
Qed.

Lemma hyphenate_underscore_round_trip_witness :
  (_underscore (_hyphenate "list_keys" false) false = "list_keys"
   /\ _underscore (_hyphenate "list_keys" true) true = "list_keys")
  /\ _hyphenate (_underscore "--list-keys" false) false = "--list-keys".
Proof.
  split.
  - destruct (proj1 (hyphenate_underscore_round_trip "list_keys") eq_refl) as [H1 H2].
    split; [exact H1 | apply H2; reflexivity].
  - apply (proj2 (hyphenate_underscore_round_trip "--list-keys")). reflexivity.
Defined.

Lemma length_append (s t : string) :
  String.length (s +:+ t) = (String.length s + String.length t)%nat.
Proof.
  induction s as [|a s IH]; [reflexivity|].
  rewrite append_cons. cbn [String.length]. rewrite IH. reflexivity.
Qed.

Lemma append_cancel_r (u s t : string) : s +:+ u = t +:+ u -> s = t.
Proof.
  revert t. induction s as [|a s IH]; intros [|b t] Heq.
  - reflexivity.
  - apply (f_equal String.length) in Heq. rewrite append_nil, append_cons in Heq.
    cbn [String.length] in Heq. rewrite length_append in Heq. lia.
  - apply (f_equal String.length) in Heq. rewrite append_nil, append_cons in Heq.
    cbn [String.length] in Heq. rewrite length_append in Heq. lia.
  - rewrite !append_cons in Heq. injection Heq as -> Heq. f_equal. apply IH, Heq.
Qed.

Lemma replace_quote_injective (s : string) :
  forall t,
    Py.replace Py.squote quote_escape s = Py.replace Py.squote quote_escape t -> s = t.
Proof.
  induction s as [|a s IH]; intros [|b t] Heq; cbn [Py.replace] in Heq.
  - reflexivity.
  - destruct (Ascii.eqb b Py.squote); discriminate.
  - destruct (Ascii.eqb a Py.squote); discriminate.
  - destruct (Ascii.eqb_spec a Py.squote) as [->|Ha];
      destruct (Ascii.eqb_spec b Py.squote) as [->|Hb].
    + unfold quote_escape in Heq. rewrite !append_cons, !append_nil in Heq.
      injection Heq as Heq. f_equal. apply IH, Heq.
    + unfold quote_escape in Heq. rewrite !append_cons in Heq.
      injection Heq as Hhead _. congruence.
    + unfold quote_escape in Heq. rewrite !append_cons in Heq.
      injection Heq as Hhead _. congruence.
    + injection Heq as -> Heq. f_equal. apply IH, Heq.
Qed.

Lemma quoted_is_unsafe (body : string) :
  (length (findall _unsafe ("'" +:+ body)) =? 0)%nat = false.
Proof. reflexivity. Qed.

(** X19. [_fix_unsafe] is one-to-one on strings: two different strings are
    never escaped to the same text, so the escaped form determines the
    input. *)
Theorem fix_unsafe_injective (s t : string) :
  s <> t -> _fix_unsafe (PyStr s) <> _fix_unsafe (PyStr t).
Proof.
  intros Hne Heq. apply Hne. clear Hne. unfold _fix_unsafe in Heq.
  destruct (length (findall _unsafe s) =? 0)%nat eqn:Hs;
    destruct (length (findall _unsafe t) =? 0)%nat eqn:Ht.
  - congruence.
  - injection Heq as ->. rewrite quoted_is_unsafe in Hs. discriminate.
  - injection Heq as <-. rewrite quoted_is_unsafe in Ht. discriminate.
  - injection Heq as Heq. rewrite !append_nil in Heq. apply append_cancel_r in Heq.
    apply replace_quote_injective, Heq.
Qed.

Lemma fix_unsafe_injective_witness :
  _fix_unsafe (PyStr "it's") <> _fix_unsafe (PyStr "its")
  /\ _fix_unsafe (PyStr "its") = Some "its".
Proof.
  split; [apply (fix_unsafe_injective "it's" "its"); discriminate | reflexivity].
Defined.

(** ** The stream copier, whatever the sink does *)

Section CopyPrefix.

Variable encode : string -> outcome string.

Lemma copied_prefix_none (b b' : bytesio) (f : pyfile) :
  bio_buffer b' = bio_buffer b -> copied_prefix encode b b' f f.
Proof.
  intros Hbuffer. exists 0%nat, []. rewrite app_nil_r.
  split; [reflexivity|]. split; [constructor | exact Hbuffer].
Qed.

Lemma copied_prefix_step (b b' : bytesio) (f f' : pyfile) (a : ascii) (rest piece : string) :
  bio_remaining b = String a rest ->
  written_for encode (Py.slice_to 1024 (bio_remaining b)) piece ->
  copied_prefix encode (advance b) b' (accept piece f) f' ->
  copied_prefix encode b b' f f'.
Proof.
  intros Hrem Hpiece (k & pieces & Hwritten & Hpieces & Hbuffer).
  exists (S k), (piece :: pieces).
  split; [rewrite Hwritten; cbn [accept f_written]; rewrite <- app_assoc; reflexivity|].
  split; [|exact Hbuffer].
  rewrite remaining_advance, Hrem in Hpieces. rewrite Hrem in Hpiece.
  rewrite Hrem, (chunks_cons 1023 a rest). cbn [take].
  constructor; [exact Hpiece | exact Hpieces].
Qed.

Lemma copy_loop_prefix (fuel : nat) :
  forall b f sent log,
    (String.length (bio_remaining b) < fuel)%nat ->
    exists o b' f' sent' log',
      copy_loop encode fuel b f sent log = Some (o, b', f', sent', log')
      /\ copied_prefix encode b b' f f'.
Proof.
  induction fuel as [|fuel IH]; intros b f sent log Hfuel; [lia|].
  destruct (bio_closed b) eqn:Hb.
  { cbn [copy_loop]. unfold bio_read. rewrite Hb.
    do 5 eexists. split; [reflexivity | apply copied_prefix_none; reflexivity]. }
  destruct (bio_remaining b) as [|a rest] eqn:Hrem.
  { rewrite (copy_loop_end encode fuel b f sent log Hb Hrem).
    do 5 eexists. split; [reflexivity | apply copied_prefix_none; reflexivity]. }
  pose proof (advance_shorter b a rest Hrem) as Hlt. rewrite Hrem in Hlt.
  destruct (f_closed f) eqn:Hf.
  { cbn [copy_loop]. unfold bio_read. rewrite Hb.
    fold (bio_remaining b). fold (advance b).
    assert (Hlen : (String.length (Py.slice_to 1024 (bio_remaining b)) =? 0)%nat = false)
      by (rewrite Hrem; reflexivity).
    rewrite Hlen. unfold file_write. rewrite Hf. cbv zeta.
    do 5 eexists. split; [reflexivity | apply copied_prefix_none; reflexivity]. }
  rewrite (copy_loop_write encode fuel b f sent log a rest Hb Hf Hrem). cbv zeta.
  set (data := Py.slice_to 1024 (bio_remaining b)).
  set (sent' := (sent + String.length data)%nat).
  set (log' := log ++ [chunk_record sent' data]).
  assert (Hnext : forall piece,
    written_for encode data piece ->
    exists o b' f' sent'' log'',
      copy_loop encode fuel (advance b) (accept piece f) sent' log'
      = Some (o, b', f', sent'', log'')
      /\ copied_prefix encode b b' f f').
  { intros piece Hpiece.
    destruct (IH (advance b) (accept piece f) sent' log' ltac:(lia))
      as (o & b' & f' & sent'' & log'' & Hrun & Hprefix).
    exists o, b', f', sent'', log''. split; [exact Hrun|].
    exact (copied_prefix_step b b' f f' a rest piece Hrem Hpiece Hprefix). }
  destruct (f_write_error f (f_written f) data) as [e|];
    [|apply Hnext; left; reflexivity].
  destruct e; try (do 5 eexists; split;
                   [reflexivity | apply copied_prefix_none; reflexivity]).
  destruct (encode data) as [encoded|e] eqn:Hencode;
    [|do 5 eexists; split; [reflexivity | apply copied_prefix_none; reflexivity]].
  destruct (f_write_error f (f_written f) encoded) as [e|];
    [|apply Hnext; right; exact Hencode].
  destruct e; do 5 eexists; (split; [reflexivity | apply copied_prefix_none; reflexivity]).
Qed.

End CopyPrefix.

(** X20. Whatever the sink does (a write that fails with any exception, a
    closed file) and whatever the source is (closed or not), [_copy_data]
    leaves in the sink what it held before followed, in order, by one piece
    for each of the first chunks of 1024 bytes of the source: the chunk
    itself, or its encoding when the first write raised [UnicodeError].
    Nothing else is ever written, no chunk is skipped or written twice, and
    the buffer of the source is not altered. *)
Theorem copy_data_writes_prefix (encode : string -> outcome string) (b : bytesio)
    (f : pyfile) (log : list log_record) :
  exists r b' f' k pieces,
    _copy_data encode (BytesIO b) (File f) log = Some r
    /\ c_instream r = BytesIO b' /\ c_outstream r = File f'
    /\ f_written f' = f_written f ++ pieces
    /\ Forall2 (written_for encode) (take k (chunks 1024 (bio_remaining b))) pieces
    /\ bio_buffer b' = bio_buffer b.
Proof.
  unfold _copy_data.
  destruct (copy_loop_prefix encode (S (String.length (bio_remaining b))) b f 0%nat log
              ltac:(lia))
    as (o & b' & f' & sent & log' & -> & k & pieces & Hwritten & Hpieces & Hbuffer).
  destruct o as [[]|e].
  - unfold file_close. destruct (f_closed f').
    + eexists _, b', f', k, pieces. repeat split; assumption.
    + destruct (f_close_error f') as [e|].
      * destruct e; eexists _, b', _, k, pieces; repeat split; assumption.
      * eexists _, b', _, k, pieces. repeat split; assumption.
  - eexists _, b', f', k, pieces. repeat split; assumption.
Qed.

(** ** The commands of the methods that take keys and names *)

(** An element made of options and a quoted value at its end: the value is
    the last token, it is no flag, and the element is dropped as a whole. *)
Ltac quoted_value_dropped Hk :=
  unfold sanitised_string;
  match goal with
  | |- context [0 <? Py.find " " ?s] => change (0 <? Py.find " " s) with true
  end;
  cbv iota;
  match goal with
  | |- context [Py.split (?p +:+ dquoted ?k)] =>
      let tokens := eval vm_compute in (Py.split p) in
      change (Py.split (p +:+ dquoted k)) with (tokens ++ Py.split (dquoted k))
  end;
  rewrite (split_dquoted _ Hk); reflexivity.

Lemma recipient_dropped (k : string) :
  solid k = true -> sanitised_string ("--recipient " +:+ dquoted k) = "".
Proof. intros Hk. quoted_value_dropped Hk. Qed.

Lemma output_dropped (k : string) :
  solid k = true -> sanitised_string ("--output " +:+ dquoted k) = "".
Proof. intros Hk. quoted_value_dropped Hk. Qed.

Lemma sign_key_dropped (k : string) :
  solid k = true -> sanitised_string ("--sign --default-key " +:+ dquoted k) = "".
Proof. intros Hk. quoted_value_dropped Hk. Qed.

Lemma delete_key_dropped (k : string) (secret : bool) :
  solid k = true ->
  sanitised_string ("--batch --delete-" +:+ (if secret then "secret-key" else "key")
                    +:+ " " +:+ dquoted k) = "".
Proof.
  intros Hk. destruct secret.
  - change ("--batch --delete-" +:+ "secret-key" +:+ " " +:+ dquoted k)
      with ("--batch --delete-secret-key " +:+ dquoted k).
    quoted_value_dropped Hk.
  - change ("--batch --delete-" +:+ "key" +:+ " " +:+ dquoted k)
      with ("--batch --delete-key " +:+ dquoted k).
    quoted_value_dropped Hk.
Qed.

Lemma sanitised_list_app (l1 l2 : list string) :
  sanitised_list (PyList (l1 ++ l2)) = sanitised_list (PyList l1) ++ sanitised_list (PyList l2).
Proof. cbn [sanitised_list]. rewrite fmap_app, filter_app. reflexivity. Qed.

Lemma sanitised_list_dropped (element : string) :
  sanitised_string element = "" -> sanitised_list (PyList [element]) = [].
Proof. intros Hdropped. cbn [sanitised_list fmap list_fmap]. rewrite Hdropped. reflexivity. Qed.

(** An optional element that is dropped when it is there. *)
Lemma sanitised_list_option (present : bool) (args : list string) (element : string) :
  (present = true -> sanitised_string element = "") ->
  sanitised_list (PyList (if present then args ++ [element] else args))
  = sanitised_list (PyList args).
Proof.
  intros Hdropped. destruct present; [|reflexivity].
  rewrite sanitised_list_app, (sanitised_list_dropped element (Hdropped eq_refl)).
  apply app_nil_r.
Qed.

Lemma truthy_option_some (o : option string) :
  truthy_option o = true -> exists s, o = Some s.
Proof. destruct o as [s|]; [exists s; reflexivity | discriminate]. Qed.

Lemma recipients_dropped (recipients : list string) :
  Forall (fun s => solid s = true) recipients ->
  sanitised_list
    (PyList ((fun recipient => "--recipient " +:+ dquoted recipient) <$> recipients)) = [].
Proof.
  induction 1 as [|r recipients Hr _ IH]; [reflexivity|].
  cbn [fmap list_fmap].
  change (("--recipient " +:+ dquoted r)
          :: ((fun recipient => "--recipient " +:+ dquoted recipient) <$> recipients))
    with (["--recipient " +:+ dquoted r]
          ++ ((fun recipient => "--recipient " +:+ dquoted recipient) <$> recipients)).
  rewrite sanitised_list_app, IH, (sanitised_list_dropped _ (recipient_dropped r Hr)).
  reflexivity.
Qed.

Lemma encrypt_file_args_kept (recipients : pyval) (sign : option string)
    (always_trust armor : bool) (output : option string) (symmetric : bool) :
  solid_values recipients ->
  (forall s, sign = Some s -> solid s = true) ->
  (forall o, output = Some o -> solid o = true) ->
  sanitised_list (encrypt_file_args recipients sign always_trust armor output symmetric)
  = if symmetric then [] else ["--encrypt "].
Proof.
  intros Hrecipients Hsign Houtput. unfold encrypt_file_args. cbv zeta.
  rewrite (sanitised_list_option always_trust _ "--always-trust")
    by (intros _; vm_compute; reflexivity).
  rewrite (sanitised_list_option (truthy_option sign)).
  2:{ intros Htrue. apply truthy_option_some in Htrue as (s & ->).
      apply sign_key_dropped, (Hsign s eq_refl). }
  rewrite (sanitised_list_option (truthy_option output)).
  2:{ intros Htrue. apply truthy_option_some in Htrue as (o & ->).
      apply output_dropped, (Houtput o eq_refl). }
  rewrite (sanitised_list_option armor _ "--armor") by (intros _; vm_compute; reflexivity).
  destruct symmetric; [vm_compute; reflexivity|].
  rewrite sanitised_list_app.
  change (sanitised_list (PyList ["--encrypt"])) with ["--encrypt "].
  rewrite recipients_dropped; [reflexivity|].
  destruct recipients as [|s|l]; cbn [str_of solid_values] in *;
    [repeat constructor | repeat constructor; exact Hrecipients | exact Hrecipients].
Qed.

Lemma decrypt_file_args_kept (always_trust : bool) (output : option string) :
  (forall o, output = Some o -> solid o = true) ->
  sanitised_list (decrypt_file_args always_trust output) = ["--decrypt "].
Proof.
  intros Houtput. unfold decrypt_file_args. cbv zeta.
  rewrite (sanitised_list_option always_trust _ "--always-trust")
    by (intros _; vm_compute; reflexivity).
  rewrite (sanitised_list_option (truthy_option output)).
  2:{ intros Htrue. apply truthy_option_some in Htrue as (o & ->).
      apply output_dropped, (Houtput o eq_refl). }
  vm_compute. reflexivity.
Qed.

(** X21. Of what [encrypt_file] and [decrypt_file] ask for, only
    [--encrypt] and [--decrypt] reach the command line.  The recipients, the
    output file and the signing key (values without white space) are dropped
    with their options, and so are [--symmetric], [--armor], [--sign] and
    [--always-trust]: a symmetric encryption runs the command of [make_args]
    without arguments. *)
Theorem crypt_file_commands (lstat_size : string -> option Z) (self : gpg)
    (recipients : pyval) (sign output : option string)
    (always_trust armor symmetric passphrase : bool) (log : list log_record) :
  solid_values recipients ->
  (forall s, sign = Some s -> solid s = true) ->
  (forall o, output = Some o -> solid o = true) ->
  fst (command_line lstat_size self
         (encrypt_file_args recipients sign always_trust armor output symmetric)
         passphrase log) =
  Return (Py.join " " (fixed_args self passphrase ++ sanitised_list self.(options)
                       ++ (if symmetric then [] else ["--encrypt "])))
  /\ fst (command_line lstat_size self (decrypt_file_args always_trust output)
            passphrase log) =
     Return (Py.join " " (fixed_args self passphrase ++ sanitised_list self.(options)
                          ++ ["--decrypt "])).
Proof.
  intros Hrecipients Hsign Houtput. rewrite !command_line_run.
  rewrite (encrypt_file_args_kept recipients sign always_trust armor output symmetric
             Hrecipients Hsign Houtput),
    (decrypt_file_args_kept always_trust output Houtput).
  split; reflexivity.
Qed.

Lemma crypt_file_commands_witness :
  let self := mk_gpg "gpg" (Some "keys") None false PyNone in
  let symmetric := false in
  fst (command_line (fun _ => None) self
         (encrypt_file_args (PyList ["alice@example.org"; "0123456789ABCDEF"])
            (Some "FEDCBA9876543210") true true (Some "out.gpg") symmetric)
         true []) =
  Return (Py.join " " (fixed_args self true ++ sanitised_list self.(options)
                       ++ (if symmetric then [] else ["--encrypt "])))
  /\ fst (command_line (fun _ => None) self (decrypt_file_args true (Some "out.gpg"))
            true []) =
     Return (Py.join " " (fixed_args self true ++ sanitised_list self.(options)
                          ++ ["--decrypt "])).
Proof.
  intros self symmetric.
  apply (crypt_file_commands (fun _ => None) self
           (PyList ["alice@example.org"; "0123456789ABCDEF"])
           (Some "FEDCBA9876543210") (Some "out.gpg") true true symmetric true []).
  - repeat constructor.
  - intros s [= <-]. reflexivity.
  - intros o [= <-]. reflexivity.
Defined.

Lemma export_keys_dropped (keyids : string) (secret : bool) :
  solid keyids = true -> keyids ∉ _allowed ->
  sanitised_string ("--armor --export" +:+ (if secret then "-secret-key" else "")
                    +:+ " " +:+ keyids) = "".
Proof.
  intros Hsolid Hout.
  destruct keyids as [|c keyids]; [destruct secret; vm_compute; reflexivity|].
  assert (Htokens : Py.split (String c keyids) = [String c keyids])
    by (apply split_solid; [exact Hsolid | discriminate]).
  assert (Hkept : forall export, export ∉ _allowed ->
            kept_flags ["--armor"; export; String c keyids] = []).
  { intros export Hexport. rewrite !kept_flags_cons.
    rewrite (bool_decide_eq_false_2 ("--armor" ∈ _allowed)) by by_decision.
    rewrite (bool_decide_eq_false_2 _ Hexport), (bool_decide_eq_false_2 _ Hout).
    reflexivity. }
  unfold sanitised_string. destruct secret.
  - change (0 <? Py.find " " ("--armor --export" +:+ "-secret-key" +:+ " "
                               +:+ String c keyids)) with true.
    cbv iota.
    change (Py.split ("--armor --export" +:+ "-secret-key" +:+ " " +:+ String c keyids))
      with (["--armor"; "--export-secret-key"] ++ Py.split (String c keyids)).
    rewrite Htokens. cbn [app last].
    rewrite (Hkept "--export-secret-key") by by_decision.
    destruct (is_flag (String c keyids)); reflexivity.
  - change (0 <? Py.find " " ("--armor --export" +:+ "" +:+ " " +:+ String c keyids))
      with true.
    cbv iota.
    change (Py.split ("--armor --export" +:+ "" +:+ " " +:+ String c keyids))
      with (["--armor"; "--export"] ++ Py.split (String c keyids)).
    rewrite Htokens. cbn [app last].
    rewrite (Hkept "--export") by by_decision.
    destruct (is_flag (String c keyids)); reflexivity.
Qed.

(** X22. Neither [delete_keys] nor [export_keys] gets its key on the
    command line.  The one element that [delete_keys] builds ends with the
    quoted fingerprint, which is no flag, and is dropped as a whole with
    [--batch] and [--delete-key]; of the element of [export_keys] no token
    is an allowed flag.  Both run the command of [make_args] without
    arguments. *)
Theorem delete_export_commands (lstat_size : string -> option Z) (self : gpg)
    (key : string) (secret : bool) (log : list log_record) :
  solid key = true -> key ∉ _allowed ->
  fst (command_line lstat_size self (delete_keys_args (PyStr key) secret) false log) =
  Return (Py.join " " (fixed_args self false ++ sanitised_list self.(options)))
  /\ fst (command_line lstat_size self (export_keys_args (PyStr key) secret) false log) =
     Return (Py.join " " (fixed_args self false ++ sanitised_list self.(options))).
Proof.
  intros Hsolid Hout. rewrite !command_line_run.
  unfold delete_keys_args, export_keys_args. cbv zeta. cbn [str_of].
  rewrite (sanitised_list_dropped _ (delete_key_dropped key secret Hsolid)),
    (sanitised_list_dropped _ (export_keys_dropped key secret Hsolid Hout)), app_nil_r.
  split; reflexivity.
Qed.

Lemma delete_export_commands_witness :
  let self := mk_gpg "gpg" (Some "keys") None false PyNone in
  fst (command_line (fun _ => None) self
         (delete_keys_args (PyStr "0123456789ABCDEF") true) false []) =
  Return (Py.join " " (fixed_args self false ++ sanitised_list self.(options)))
  /\ fst (command_line (fun _ => None) self
            (export_keys_args (PyStr "0123456789ABCDEF") true) false []) =
     Return (Py.join " " (fixed_args self false ++ sanitised_list self.(options))).
Proof.
  intros self.
  apply (delete_export_commands (fun _ => None) self "0123456789ABCDEF" true []);
    [reflexivity | by_decision].
Defined.

Lemma character_dropped (c : ascii) : sanitised_string (String c "") = "".
Proof.
  unfold sanitised_string.
  assert (Hfind : (0 <? Py.find " " (String c "")) = false)
    by (cbn [Py.find]; destruct (Ascii.eqb c " "); reflexivity).
  rewrite Hfind. rewrite bool_decide_eq_false_2; [reflexivity|].
  intros Hin. unfold _allowed in Hin.
  repeat (apply elem_of_cons in Hin as [Hin|Hin]; [discriminate|]).
  apply elem_of_nil in Hin. exact Hin.
Qed.

Lemma characters_dropped (s : string) : sanitised_list (PyList (characters s)) = [].
Proof.
  unfold characters. induction (list_ascii_of_string s) as [|c l IH]; [reflexivity|].
  cbn [fmap list_fmap].
  change (String c "" :: ((fun c0 => String c0 "") <$> l))
    with ([String c ""] ++ ((fun c0 => String c0 "") <$> l)).
  rewrite sanitised_list_app, IH, (sanitised_list_dropped _ (character_dropped c)).
  reflexivity.
Qed.

(** X23. The key ids handed to [recv_keys] never reach the command line:
    they are joined into one string whose characters are added to the
    arguments one by one, and no one-character argument passes the
    sanitiser; [--keyserver] and [--recv-keys] are dropped as well.  What is
    left of the arguments is what the sanitiser leaves of the name of the
    key server alone. *)
Theorem recv_keys_command (lstat_size : string -> option Z) (self : gpg)
    (keyserver : string) (keyids : list string) (log : list log_record) :
  sanitised_list (recv_keys_args keyserver keyids) = sanitised_list (PyList [keyserver])
  /\ fst (command_line lstat_size self (recv_keys_args keyserver keyids) false log) =
     Return (Py.join " " (fixed_args self false ++ sanitised_list self.(options)
                          ++ sanitised_list (PyList [keyserver]))).
Proof.
  assert (Hkept : sanitised_list (recv_keys_args keyserver keyids)
                  = sanitised_list (PyList [keyserver])).
  { unfold recv_keys_args. cbv zeta.
    assert (Hargs : sanitised_list (PyList ["--keyserver"; keyserver; "--recv-keys"])
                    = sanitised_list (PyList [keyserver])).
    { change ["--keyserver"; keyserver; "--recv-keys"]
        with (["--keyserver"] ++ [keyserver] ++ ["--recv-keys"]).
      rewrite !sanitised_list_app.
      change (sanitised_list (PyList ["--keyserver"])) with (@nil string).
      change (sanitised_list (PyList ["--recv-keys"])) with (@nil string).
      rewrite app_nil_r. reflexivity. }
    destruct (negb (length keyids =? 0)%nat); [|exact Hargs].
    rewrite sanitised_list_app, characters_dropped, app_nil_r. exact Hargs. }
  split; [exact Hkept|]. rewrite command_line_run, Hkept. reflexivity.
Qed.

(** ** [Crypt] over a run *)

Lemma crypt_step_valid (self : Crypt.t) (key value : string) :
  Verify.valid (Crypt.verify (Crypt.handle_status self key value).1) =
  if key_in key crypt_own_keywords then Verify.valid (Crypt.verify self)
  else if String.eqb key "GOODSIG" then true
  else if key_in key rejecting_keywords then false
  else Verify.valid (Crypt.verify self).
Proof.
  destruct (decide (key ∈ crypt_own_keywords)) as [Hown|Hother].
  - unfold crypt_own_keywords in Hown. each_keyword Hown ltac:(reflexivity).
  - rewrite (key_in_false key crypt_own_keywords Hother).
    rewrite <- (verify_step_valid (Crypt.verify self) key value).
    unfold crypt_own_keywords in Hother. split_not_in Hother.
    unfold Crypt.handle_status. skip_branches.
    destruct (Verify.handle_status (Crypt.verify self) key value) as [base e].
    reflexivity.
Qed.

(** X24. In a [Crypt] object the flag [valid] follows the verdict of the
    keywords that reach [Verify.handle_status] only: the keywords that
    [Crypt] handles itself never change it.  In particular
    [DECRYPTION_FAILED], which makes a [Verify] object invalid, leaves the
    flag of a [Crypt] object as it is. *)
Theorem crypt_valid_ignores_own_keywords (events : list (string * string)) :
  forall self,
    Verify.valid (Crypt.verify (feed Crypt.handle_status self events).1) =
    verdict (Verify.valid (Crypt.verify self))
      (filter (fun event => event.1 ∉ crypt_own_keywords)
         (handled Crypt.handle_status self events)).
Proof.
  induction events as [|[keyword value] events IH]; intros self; [reflexivity|].
  cbn [feed handled].
  pose proof (crypt_step_valid self keyword value) as Hstep.
  assert (Hone : forall valid rest,
    verdict valid (filter (fun event : string * string => event.1 ∉ crypt_own_keywords)
                     ((keyword, value) :: rest)) =
    verdict (if key_in keyword crypt_own_keywords then valid
             else if String.eqb keyword "GOODSIG" then true
             else if key_in keyword rejecting_keywords then false
             else valid)
      (filter (fun event : string * string => event.1 ∉ crypt_own_keywords) rest)).
  { intros valid rest. rewrite filter_cons. cbn [fst]. unfold key_in at 1.
    destruct (decide (keyword ∉ crypt_own_keywords)) as [Hout|Hin].
    - rewrite (bool_decide_eq_false_2 _ Hout). reflexivity.
    - apply dec_stable in Hin. rewrite (bool_decide_eq_true_2 _ Hin). reflexivity. }
  destruct (Crypt.handle_status self keyword value) as [self' [e|]]; cbn [fst] in Hstep.
  - rewrite (Hone _ []), <- Hstep. reflexivity.
  - rewrite Hone, <- Hstep. apply IH.
Qed.

(** ** [IMPORT_RES] and [summary] *)

(** The tokens of a value, all integers, taken one by one. *)
Ltac integer_tokens Hall :=
  repeat match goal with
         | H : Forall2 _ (_ :: _) _ |- _ =>
             apply Forall2_cons_inv_l in H as (? & ? & ? & H & ->)
         end;
  apply Forall2_nil_inv_l in Hall as ->.

Ltac counters_set :=
  cbn [ImportResult.set_counts lookup list_lookup];
  repeat match goal with
         | H : Py.int _ = Some _ |- _ => rewrite H; clear H
         end.

Lemma import_res_counters (items : list (string * string)) (self : ImportResult.t)
    (value : string) (ns : list Z) :
  import_counters value ns ->
  exists self',
    ImportResult.handle_status items self "IMPORT_RES" value = (self', None)
    /\ counters self' = Some <$> ns.
Proof.
  intros [Hlen Hall]. apply mapM_Some in Hall.
  change (ImportResult.handle_status items self "IMPORT_RES" value)
    with (ImportResult.set_counts ImportResult.counts 0 (Py.split value) self).
  rewrite counts_names.
  destruct (Py.split value) as [|t0 [|t1 [|t2 [|t3 [|t4 [|t5 [|t6 [|t7 [|t8 [|t9
    [|t10 [|t11 [|t12 tokens]]]]]]]]]]]]];
    cbn [take] in Hall;
    try (apply Forall2_length in Hall; cbn in Hall; rewrite Hlen in Hall; discriminate).
  integer_tokens Hall. counters_set.
  eexists. split; reflexivity.
Qed.

(** X25. An [IMPORT_RES] value of fewer than thirteen integers leaves the
    object half updated: the counters for which there is a token are bound
    to the integers, in the order of [counts], the others are as they were,
    and the method raises [IndexError]; the results and fingerprints are not
    touched. *)
Theorem import_res_short_value (items : list (string * string)) (self : ImportResult.t)
    (value : string) (ns : list Z) :
  mapM Py.int (Py.split value) = Some ns -> (length ns < 13)%nat ->
  exists self',
    ImportResult.handle_status items self "IMPORT_RES" value = (self', Some index_error)
    /\ counters self' = (Some <$> ns) ++ drop (length ns) (counters self)
    /\ ImportResult.results self' = ImportResult.results self
    /\ ImportResult.fingerprints self' = ImportResult.fingerprints self.
Proof.
  intros Hall Hlen. apply mapM_Some in Hall.
  change (ImportResult.handle_status items self "IMPORT_RES" value)
    with (ImportResult.set_counts ImportResult.counts 0 (Py.split value) self).
  destruct (set_counts_keeps_lists (Py.split value) ImportResult.counts 0%nat self)
    as [Hresults Hfingerprints].
  revert Hresults Hfingerprints.
  rewrite counts_names.
  destruct (Py.split value) as [|t0 [|t1 [|t2 [|t3 [|t4 [|t5 [|t6 [|t7 [|t8 [|t9
    [|t10 [|t11 [|t12 tokens]]]]]]]]]]]]];
    try (apply Forall2_length in Hall; cbn in Hall; lia);
    integer_tokens Hall; counters_set; intros Hresults Hfingerprints;
    (eexists; split; [reflexivity|]; split; [reflexivity|]; split; assumption).
Qed.

Lemma import_res_short_value_witness :
  exists self',
    ImportResult.handle_status ImportResult.ok_reason_source_order ImportResult.__init__
      "IMPORT_RES" "2 0 1" = (self', Some index_error)
    /\ counters self' = (Some <$> [2; 0; 1]) ++ drop (length [2; 0; 1])
                                                   (counters ImportResult.__init__)
    /\ ImportResult.results self' = ImportResult.results ImportResult.__init__
    /\ ImportResult.fingerprints self' = ImportResult.fingerprints ImportResult.__init__.
Proof.
  apply (import_res_short_value ImportResult.ok_reason_source_order ImportResult.__init__
           "2 0 1" [2; 0; 1]); [reflexivity | cbn; lia].
Defined.

Lemma import_step_counters (items : list (string * string)) (self : ImportResult.t)
    (key value : string) :
  key <> "IMPORT_RES" ->
  counters (ImportResult.handle_status items self key value).1 = counters self.
Proof.
  intros Hkey. unfold ImportResult.handle_status.
  destruct (String.eqb key "IMPORTED"); [reflexivity|].
  destruct (String.eqb key "NODATA"); [reflexivity|].
  destruct (String.eqb key "IMPORT_OK").
  { destruct (Py.split value) as [|reason [|fingerprint [|extra tokens]]];
      try reflexivity.
    destruct (ImportResult.ok_reasons items reason []); reflexivity. }
  destruct (String.eqb key "IMPORT_PROBLEM").
  { destruct (match Py.split value with
              | [reason; fingerprint] => (reason, fingerprint)
              | _ => (value, "<unknown>")
              end) as [reason fingerprint].
    destruct (ImportResult.problem_reason !! reason); reflexivity. }
  rewrite (eqb_false key "IMPORT_RES" Hkey).
  destruct (String.eqb key "KEYEXPIRED"); [reflexivity|].
  destruct (String.eqb key "SIGEXPIRED"); reflexivity.
Qed.

Lemma import_feed_counters (items : list (string * string))
    (events : list (string * string)) :
  forall self,
    (forall value, ("IMPORT_RES", value) ∉ events) ->
    counters (feed (ImportResult.handle_status items) self events).1 = counters self.
Proof.
  induction events as [|[keyword value] events IH]; intros self Hnone; [reflexivity|].
  cbn [feed].
  assert (Hkey : keyword <> "IMPORT_RES").
  { intros ->. apply (Hnone value). apply elem_of_cons. left. reflexivity. }
  pose proof (import_step_counters items self keyword value Hkey) as Hstep.
  destruct (ImportResult.handle_status items self keyword value) as [self' [e|]];
    cbn [fst] in Hstep; [exact Hstep|].
  rewrite IH; [exact Hstep|].
  intros v Hin. apply (Hnone v). apply elem_of_cons. right. exact Hin.
Qed.

Lemma summary_of_counters (self : ImportResult.t) :
  summary self =
  match counters self !! 2%nat, counters self !! 12%nat with
  | Some (Some imported), Some not_imported =>
      match not_imported with
      | Some n =>
          if n =? 0 then Return (str_of_Z imported +:+ " imported")
          else Return (str_of_Z imported +:+ " imported" +:+ ", "
                       +:+ str_of_Z n +:+ " not imported")
      | None => Return (str_of_Z imported +:+ " imported")
      end
  | _, _ => Raise (TypeError "%d format: a number is required, not NoneType")
  end.
Proof.
  unfold summary, counters, percent_d, ImportResult.truth. cbn [lookup list_lookup].
  destruct (ImportResult.imported self) as [imported|]; [|reflexivity].
  destruct (ImportResult.not_imported self) as [n|]; [|reflexivity].
  destruct (n =? 0); [reflexivity|].
  cbn [negb app]. unfold Py.join. cbn [String.concat].
  rewrite append_assoc. reflexivity.
Qed.

(** X26. [summary] needs an [IMPORT_RES] event to have been handled: after
    a run on a fresh [ImportResult] without one it raises [TypeError], the
    counter [imported] being [None].  After an [IMPORT_RES] event of
    thirteen integers it returns the third of them followed by [imported],
    and then, when the thirteenth is not zero, a comma, that number and
    [not imported]. *)
Theorem import_summary (items : list (string * string)) :
  (forall events,
      (forall value, ("IMPORT_RES", value) ∉ events) ->
      summary (feed (ImportResult.handle_status items) ImportResult.__init__ events).1
      = Raise (TypeError "%d format: a number is required, not NoneType"))
  /\ (forall self value ns imported not_imported,
        import_counters value ns ->
        ns !! 2%nat = Some imported -> ns !! 12%nat = Some not_imported ->
        summary (ImportResult.handle_status items self "IMPORT_RES" value).1 =
        Return (str_of_Z imported +:+ " imported"
                +:+ (if not_imported =? 0 then ""
                     else ", " +:+ str_of_Z not_imported +:+ " not imported"))).
Proof.
  split.
  - intros events Hnone.
    rewrite summary_of_counters, (import_feed_counters items events _ Hnone).
    reflexivity.
  - intros self value ns imported not_imported Hns Himported Hnot.
    destruct (import_res_counters items self value ns Hns) as (self' & -> & Hcounters).
    cbn [fst]. rewrite summary_of_counters, Hcounters, !list_lookup_fmap.
    rewrite Himported, Hnot. cbn [fmap option_fmap option_map].
    destruct (not_imported =? 0); [rewrite append_nil_r; reflexivity|].
    reflexivity.
Qed.

Lemma import_summary_witness :
  summary (feed (ImportResult.handle_status ImportResult.ok_reason_source_order)
             ImportResult.__init__ [("IMPORT_OK", "1 ABCD")]).1
  = Raise (TypeError "%d format: a number is required, not NoneType")
  /\ summary (ImportResult.handle_status ImportResult.ok_reason_source_order
                ImportResult.__init__ "IMPORT_RES" "2 0 1 0 0 1 1 1 0 0 0 0 1").1 =
     Return (str_of_Z 1 +:+ " imported"
             +:+ (if 1 =? 0 then "" else ", " +:+ str_of_Z 1 +:+ " not imported")).
Proof.
  destruct (import_summary ImportResult.ok_reason_source_order) as [Hnone Hres].
  split.
  - apply (Hnone [("IMPORT_OK", "1 ABCD")]).
    intros value Hin. apply list_elem_of_singleton in Hin. discriminate.
  - apply (Hres ImportResult.__init__ "2 0 1 0 0 1 1 1 0 0 0 0 1"
             [2; 0; 1; 0; 0; 1; 1; 1; 0; 0; 0; 0; 1] 1 1);
      [split; [reflexivity | vm_compute; reflexivity] | reflexivity | reflexivity].
Defined.
